(** * 1DeckBlackJCounter: the card-zone ledger of [BlackJ.py]

    A shallow embedding of the classes [CardZone] and [GameState] of
    [src/BlackJ.py], of the state kept between two messages and of the
    message handler, and the properties of the card accounting, of the hand
    total, of the probability query and of the commands.

    Modelling conventions.
    - A Python [str] is a [string]; the model covers ASCII text: case
      mapping changes the 26 letters only and the white space characters
      are those of [str.isspace] below code 128.
    - A Python [int] is a [Z]; [int(text)] reads a literal of any length
      (the interpreter's optional limit on the number of digits is not
      modelled).
    - A [dict] (and the [defaultdict(int)] of a zone) is a [gmap]: two maps
      are equal when they hold the same key/value pairs, which is how
      Python compares dictionaries; insertion order is not part of the
      model.  Reading a missing key of a [defaultdict] inserts the default,
      and that insertion is written out ([touch]).
    - A method that mutates [self] returns the new state next to its
      result; a raised [ValueError] is the result [None].
    - The message handler is written in two parts: [parse_command] is the
      chain of tests on the text of the message, [execute] the call made
      by the branch taken.  An answer is the message of the call, with a
      mark that tells whether the status text follows it; the wording of
      the texts is not modelled.

    The order in which a dictionary lists its items does not change what
    is modelled here: the hand total, the counters of the probability
    query and the zone that receives a list of cards are the same for
    every order (section "The order of a dictionary does not matter"). *)

From Stdlib Require Import ZArith QArith Ascii String List Lia.
From stdpp Require Import base option list gmap fin_maps strings pretty.

Local Open Scope string_scope.
Local Open Scope Z_scope.

(** ** Strings: [upper], [lower], [strip], [replace], [int] *)

Module PyStr.

Definition code (c : ascii) : Z := Z.of_N (N_of_ascii c).

Definition of_code (n : Z) : ascii := ascii_of_N (Z.to_N n).

Definition is_lower_char (c : ascii) : bool := (97 <=? code c) && (code c <=? 122).

Definition is_upper_char (c : ascii) : bool := (65 <=? code c) && (code c <=? 90).

Definition upper_char (c : ascii) : ascii :=
  if is_lower_char c then of_code (code c - 32) else c.

Definition lower_char (c : ascii) : ascii :=
  if is_upper_char c then of_code (code c + 32) else c.

Fixpoint map_chars (f : ascii -> ascii) (s : string) : string :=
  match s with
  | EmptyString => EmptyString
  | String c r => String (f c) (map_chars f r)
  end.

(** [s.upper()] and [s.lower()] *)
Definition upper (s : string) : string := map_chars upper_char s.

Definition lower (s : string) : string := map_chars lower_char s.

(** [str.isspace] on one character: TAB, LF, VT, FF, CR, FS, GS, RS, US and
    the space. *)
Definition is_space (c : ascii) : bool :=
  ((9 <=? code c) && (code c <=? 13)) || ((28 <=? code c) && (code c <=? 32)).

Fixpoint lstrip (s : string) : string :=
  match s with
  | EmptyString => EmptyString
  | String c r => if is_space c then lstrip r else s
  end.

Fixpoint rstrip (s : string) : string :=
  match s with
  | EmptyString => EmptyString
  | String c r =>
      match rstrip r with
      | EmptyString => if is_space c then EmptyString else String c EmptyString
      | r' => String c r'
      end
  end.

(** [s.strip()] *)
Definition strip (s : string) : string := rstrip (lstrip s).

Fixpoint starts_with (p s : string) : bool :=
  match p, s with
  | EmptyString, _ => true
  | String a p', String b s' => if Ascii.eqb a b then starts_with p' s' else false
  | String _ _, EmptyString => false
  end.

(** [s.replace(old, "")] for a non-empty [old]: the occurrences of [old] are
    deleted from left to right, without overlap.  [skip] counts the
    characters of the occurrence being deleted that are still to drop. *)
Fixpoint delete_all (old : string) (skip : nat) (s : string) : string :=
  match s with
  | EmptyString => EmptyString
  | String c r =>
      match skip with
      | S k => delete_all old k r
      | O =>
          if starts_with old s
          then delete_all old (String.length old - 1) r
          else String c (delete_all old O r)
      end
  end.

Definition digit_val (c : ascii) : option Z :=
  if (48 <=? code c) && (code c <=? 57) then Some (code c - 48) else None.

(** The digits of a decimal literal: digits with single underscores between
    them.  [prev] tells whether the previous character was a digit. *)
Fixpoint parse_digits (s : string) (acc : Z) (prev : bool) : option Z :=
  match s with
  | EmptyString => if prev then Some acc else None
  | String c r =>
      match digit_val c with
      | Some d => parse_digits r (10 * acc + d) true
      | None =>
          if Ascii.eqb c "_" && prev then parse_digits r acc false else None
      end
  end.

(** The blanks that [int] skips around a literal: TAB, LF, VT, FF, CR and
    the space.  The separators FS, GS, RS and US, which [str.strip] takes
    off, are not among them: [int] raises on a text that has one. *)
Definition is_int_space (c : ascii) : bool :=
  ((9 <=? code c) && (code c <=? 13)) || (code c =? 32).

Fixpoint int_lstrip (s : string) : string :=
  match s with
  | EmptyString => EmptyString
  | String c r => if is_int_space c then int_lstrip r else s
  end.

Fixpoint int_rstrip (s : string) : string :=
  match s with
  | EmptyString => EmptyString
  | String c r =>
      match int_rstrip r with
      | EmptyString => if is_int_space c then EmptyString else String c EmptyString
      | r' => String c r'
      end
  end.

Definition int_strip (s : string) : string := int_rstrip (int_lstrip s).

(** [int(s)] in base 10; [None] is [ValueError]. *)
Definition int (s : string) : option Z :=
  match int_strip s with
  | String "+" r => parse_digits r 0 false
  | String "-" r => Z.opp <$> parse_digits r 0 false
  | t => parse_digits t 0 false
  end.

(** Every character of [s] satisfies [p]. *)
Fixpoint all_chars (p : ascii -> bool) (s : string) : bool :=
  match s with
  | EmptyString => true
  | String c r => p c && all_chars p r
  end.

(** [str(n)], the text interpolated by an f-string for an [int]. *)
Definition str (n : Z) : string := pretty n.

End PyStr.

(** ** [CardZone] *)

(** The 13 rank labels, in the order of [initialize_deck]. *)
Definition RANKS : list string :=
  ["2"; "3"; "4"; "5"; "6"; "7"; "8"; "9"; "10"; "J"; "Q"; "K"; "A"].

Record CardZone := mkZone { name : string; cards : gmap string Z }.

Definition with_cards (z : CardZone) (m : gmap string Z) : CardZone :=
  mkZone (name z) m.

(** [CardZone(name)] *)
Definition new_zone (n : string) : CardZone := mkZone n ∅.

(** [card.upper().strip()] *)
Definition normalize (card : string) : string := PyStr.strip (PyStr.upper card).

(** The effect on a [defaultdict(int)] of evaluating [d[k]]: a missing key
    is inserted with the value 0. *)
Definition touch (k : string) (m : gmap string Z) : gmap string Z :=
  match m !! k with
  | Some _ => m
  | None => <[k := 0]> m
  end.

(** The value of [d[k]]. *)
Definition count_of (m : gmap string Z) (k : string) : Z := default 0 (m !! k).

Definition add_card (z : CardZone) (card : string) (count : Z) : CardZone :=
  let card := normalize card in
  with_cards z (<[card := count_of (cards z) card + count]> (cards z)).

Definition remove_card (z : CardZone) (card : string) (count : Z) : bool * CardZone :=
  let card := normalize card in
  let m := touch card (cards z) in
  if count <=? count_of m card then
    let m1 := <[card := count_of m card - count]> m in
    let m2 := if count_of m1 card =? 0 then delete card m1 else m1 in
    (true, with_cards z m2)
  else (false, with_cards z m).

Definition get_all_cards (z : CardZone) : list string :=
  flat_map (fun '(card, count) => replicate (Z.to_nat count) card)
           (map_to_list (cards z)).

Definition clear (z : CardZone) : list string * CardZone :=
  (get_all_cards z, with_cards z ∅).

Definition total_cards (z : CardZone) : Z :=
  map_fold (fun _ count acc => acc + count) 0 (cards z).

(** The dictionary [{"name": ..., "cards": ...}] of a zone. *)
Record ZoneDict := mkZoneDict { zd_name : string; zd_cards : gmap string Z }.

(** [CardZone.to_dict] *)
Definition zone_to_dict (z : CardZone) : ZoneDict := mkZoneDict (name z) (cards z).

(** [CardZone.from_dict] *)
Definition zone_from_dict (d : ZoneDict) : CardZone := mkZone (zd_name d) (zd_cards d).

(** ** [GameState] *)

Record GameState := mkState {
  deck : CardZone;
  dealer_hand : CardZone;
  discard : CardZone;
  face_down : CardZone;
  face_down_owners : gmap string Z;
  players : gmap Z CardZone;
  next_player_number : Z
}.

Definition set_deck (s : GameState) (z : CardZone) : GameState :=
  mkState z (dealer_hand s) (discard s) (face_down s) (face_down_owners s)
          (players s) (next_player_number s).

Definition set_dealer_hand (s : GameState) (z : CardZone) : GameState :=
  mkState (deck s) z (discard s) (face_down s) (face_down_owners s)
          (players s) (next_player_number s).

Definition set_discard (s : GameState) (z : CardZone) : GameState :=
  mkState (deck s) (dealer_hand s) z (face_down s) (face_down_owners s)
          (players s) (next_player_number s).

Definition set_face_down (s : GameState) (z : CardZone) : GameState :=
  mkState (deck s) (dealer_hand s) (discard s) z (face_down_owners s)
          (players s) (next_player_number s).

Definition set_face_down_owners (s : GameState) (o : gmap string Z) : GameState :=
  mkState (deck s) (dealer_hand s) (discard s) (face_down s) o
          (players s) (next_player_number s).

Definition set_players (s : GameState) (p : gmap Z CardZone) : GameState :=
  mkState (deck s) (dealer_hand s) (discard s) (face_down s) (face_down_owners s)
          p (next_player_number s).

Definition set_next_player_number (s : GameState) (n : Z) : GameState :=
  mkState (deck s) (dealer_hand s) (discard s) (face_down s) (face_down_owners s)
          (players s) n.

(** The messages returned by the operations.  Each constructor stands for
    one f-string of the source and carries the values interpolated in it;
    the failures are the messages that start with the cross mark. *)
Inductive reply :=
  | AddedPlayer (player_num : Z)
  | CardNotAvailable (card : string)
  | DealtToDealer (card : string)
  | DealtToPlayer (card : string) (player_num : Z)
  | InvalidZone (to_zone : string)
  | NoCardsLeft
  | DealtFaceDown (owner_key : string)
  | InvalidTarget (who : string)
  | NoFaceDownCard (owner_key : string)
  | Flipped (owner_key : string) (card : string)
  | HitNotAvailable (card : string) (remaining : Z)
  | DealerHit (card : string)
  | PlayerHit (player_num : Z) (card : string)
  | ClearedHands (total_cleared dealer_cleared face_down_count player_count : Z)
  | Shuffled.

Definition is_failure (r : reply) : bool :=
  match r with
  | CardNotAvailable _ | InvalidZone _ | NoCardsLeft | InvalidTarget _
  | NoFaceDownCard _ | HitNotAvailable _ _ => true
  | _ => false
  end.

(** [initialize_deck]: the deck is cleared, then receives 4 of each rank. *)
Definition initialize_deck (s : GameState) : GameState :=
  set_deck s (foldl (fun z card => add_card z card 4) (snd (clear (deck s))) RANKS).

(** [GameState()] *)
Definition new_game_state : GameState :=
  initialize_deck
    (mkState (new_zone "Deck") (new_zone "Dealer Hand") (new_zone "Discard Pile")
             (new_zone "Face Down") ∅ ∅ 1).

Definition add_player (s : GameState) : reply * GameState :=
  let player_num := next_player_number s in
  let s1 := set_players s
              (<[player_num := new_zone ("Player " +:+ PyStr.str player_num +:+ " Hand")]>
                 (players s)) in
  (AddedPlayer player_num, set_next_player_number s1 (next_player_number s1 + 1)).

(** [get_player_zone]: [None] is the pair [(None, None)]. *)
Definition get_player_zone (s : GameState) (identifier : string) : option (Z * CardZone) :=
  let identifier := PyStr.strip (PyStr.lower identifier) in
  let identifier := PyStr.strip (PyStr.delete_all "player" 0 identifier) in
  let identifier := if String.eqb identifier "" then "1" else identifier in
  match PyStr.int identifier with
  | Some player_num =>
      match players s !! player_num with
      | Some zone => Some (player_num, zone)
      | None => None
      end
  | None => None
  end.

(** The owner key [f"player{player_num}"]. *)
Definition player_key (player_num : Z) : string := "player" +:+ PyStr.str player_num.

Definition deal_card (s : GameState) (card to_zone : string) : reply * GameState :=
  let card := normalize card in
  let '(ok, deck1) := remove_card (deck s) card 1 in
  let s1 := set_deck s deck1 in
  if negb ok then (CardNotAvailable card, s1)
  else if String.eqb (PyStr.lower to_zone) "dealer" then
    (DealtToDealer card, set_dealer_hand s1 (add_card (dealer_hand s1) card 1))
  else
    match get_player_zone s1 to_zone with
    | Some (player_num, player_zone) =>
        (DealtToPlayer card player_num,
         set_players s1 (<[player_num := add_card player_zone card 1]> (players s1)))
    | None => (InvalidZone to_zone, set_deck s1 (add_card (deck s1) card 1))
    end.

(** [owners[owner_key] += 1] after the key was set to 0 when missing. *)
Definition owner_incr (owner_key : string) (o : gmap string Z) : gmap string Z :=
  <[owner_key := default 0 (o !! owner_key) + 1]> o.

Definition deal_face_down (s : GameState) (to_zone : string) : reply * GameState :=
  let total_available := total_cards (deck s) + total_cards (face_down s) in
  if total_available =? 0 then (NoCardsLeft, s)
  else
    let owner :=
      if String.eqb (PyStr.lower to_zone) "dealer" then Some "dealer"
      else
        match get_player_zone s to_zone with
        | Some (player_num, _) =>
            if player_num =? 0 then None else Some (player_key player_num)
        | None => None
        end in
    match owner with
    | None => (InvalidZone to_zone, s)
    | Some owner_key =>
        let s1 := set_face_down s (add_card (face_down s) "FACEDOWN" 1) in
        (DealtFaceDown owner_key,
         set_face_down_owners s1 (owner_incr owner_key (face_down_owners s1)))
    end.

(** The hand that [flip_card] resolves: the owner key and the target zone
    ([None] for the dealer's hand, the player's number and zone otherwise). *)
Definition flip_target (s : GameState) (who : string)
  : option (string * option (Z * CardZone)) :=
  if String.eqb (PyStr.lower who) "dealer" then Some ("dealer", None)
  else
    match get_player_zone s who with
    | Some (player_num, player_zone) =>
        Some (player_key player_num, Some (player_num, player_zone))
    | None => None
    end.

(** [target_zone.add_card(card)] on the zone object resolved by
    [flip_target]. *)
Definition add_to_target (s : GameState) (target : option (Z * CardZone))
    (card : string) : GameState :=
  match target with
  | None => set_dealer_hand s (add_card (dealer_hand s) card 1)
  | Some (player_num, player_zone) =>
      set_players s (<[player_num := add_card player_zone card 1]> (players s))
  end.

Definition flip_card (s : GameState) (who card : string) : reply * GameState :=
  let card := normalize card in
  match flip_target s who with
  | None => (InvalidTarget who, s)
  | Some (owner_key, target) =>
      match face_down_owners s !! owner_key with
      | None => (NoFaceDownCard owner_key, s)
      | Some n =>
          if n =? 0 then (NoFaceDownCard owner_key, s)
          else
            let '(ok, deck1) := remove_card (deck s) card 1 in
            let s1 := set_deck s deck1 in
            if negb ok then (CardNotAvailable card, s1)
            else
              let s2 := set_face_down s1 (snd (remove_card (face_down s1) "FACEDOWN" 1)) in
              let o1 := <[owner_key := n - 1]> (face_down_owners s2) in
              let o2 := if n - 1 =? 0 then delete owner_key o1 else o1 in
              let s3 := set_face_down_owners s2 o2 in
              (Flipped owner_key card, add_to_target s3 target card)
      end
  end.

Definition hit (s : GameState) (card who : string) : reply * GameState :=
  let card := normalize card in
  let '(ok, deck1) := remove_card (deck s) card 1 in
  let s1 := set_deck s deck1 in
  if negb ok then (HitNotAvailable card (total_cards (deck s1)), s1)
  else if String.eqb (PyStr.lower who) "dealer" then
    (DealerHit card, set_dealer_hand s1 (add_card (dealer_hand s1) card 1))
  else
    match get_player_zone s1 who with
    | Some (player_num, player_zone) =>
        (PlayerHit player_num card,
         set_players s1 (<[player_num := add_card player_zone card 1]> (players s1)))
    | None => (InvalidTarget who, set_deck s1 (add_card (deck s1) card 1))
    end.

(** [for card in l: zone.add_card(card)] *)
Definition add_cards (z : CardZone) (l : list string) : CardZone :=
  foldl (fun z card => add_card z card 1) z l.

Definition clear_hands (s : GameState) : reply * GameState :=
  let hands := map_to_list (players s) in
  let discard1 :=
    foldl (fun d '(_, zone) => add_cards d (fst (clear zone))) (discard s) hands in
  let total_cleared :=
    foldl (fun n '(_, zone) => n + Z.of_nat (length (fst (clear zone)))) 0 hands in
  let s1 := set_discard (set_players s ((fun zone => snd (clear zone)) <$> players s))
                        discard1 in
  let '(dealer_cards, dealer1) := clear (dealer_hand s1) in
  let s2 := set_discard (set_dealer_hand s1 dealer1) (add_cards (discard s1) dealer_cards) in
  let face_down_count := total_cards (face_down s2) in
  let s3 :=
    if 0 <? face_down_count then
      set_discard (set_face_down s2 (snd (clear (face_down s2))))
                  (add_cards (discard s2) (replicate (Z.to_nat face_down_count) "UNKNOWN"))
    else s2 in
  let s4 := set_face_down_owners s3 ∅ in
  (ClearedHands total_cleared (Z.of_nat (length dealer_cards)) face_down_count
                (Z.of_nat (size (players s4))),
   s4).

Definition shuffle (s : GameState) : reply * GameState :=
  let s1 := set_players s ((fun zone => snd (clear zone)) <$> players s) in
  let s2 := set_dealer_hand s1 (snd (clear (dealer_hand s1))) in
  let s3 := set_discard s2 (snd (clear (discard s2))) in
  let s4 := set_face_down s3 (snd (clear (face_down s3))) in
  let s5 := set_face_down_owners s4 ∅ in
  let s6 := set_players s5 ∅ in
  let s7 := set_next_player_number s6 1 in
  (Shuffled, initialize_deck s7).

(** ** Hand total and probability query *)

(** The [for] loop of [calculate_hand_total]; [None] when [int(card)]
    raises. *)
Fixpoint hand_loop (cards : list string) (total : Z) (aces : nat) : option (Z * nat) :=
  match cards with
  | [] => Some (total, aces)
  | card :: rest =>
      let card := normalize card in
      if bool_decide (card ∈ ["J"; "Q"; "K"]) then hand_loop rest (total + 10) aces
      else if String.eqb card "A" then hand_loop rest (total + 11) (S aces)
      else
        match PyStr.int card with
        | Some v => hand_loop rest (total + v) aces
        | None => None
        end
  end.

(** [while total > 21 and aces > 0: total -= 10; aces -= 1] *)
Fixpoint adjust_aces (aces : nat) (total : Z) : Z :=
  match aces with
  | O => total
  | S a => if 21 <? total then adjust_aces a (total - 10) else total
  end.

Definition calculate_hand_total (cards : list string) : option Z :=
  match hand_loop cards 0 0 with
  | Some (total, aces) => Some (adjust_aces aces total)
  | None => None
  end.

Definition get_hand_cards (s : GameState) (who : string) : list string :=
  if String.eqb (PyStr.lower who) "dealer" then get_all_cards (dealer_hand s)
  else
    match get_player_zone s who with
    | Some (_, player_zone) => get_all_cards player_zone
    | None => []
    end.

(** The three counters [(greater_count, less_count, equal_count)]. *)
Definition buckets : Type := Z * Z * Z.

(** One iteration of the loop over [available_cards.items()]. *)
Definition classify (hand : list string) (threshold : Z)
    (acc : option buckets) (item : string * Z) : option buckets :=
  match acc with
  | None => None
  | Some (greater_count, less_count, equal_count) =>
      match calculate_hand_total (hand ++ [fst item]) with
      | None => None
      | Some new_total =>
          if threshold <? new_total then
            Some (greater_count + snd item, less_count, equal_count)
          else if new_total <? threshold then
            Some (greater_count, less_count + snd item, equal_count)
          else Some (greater_count, less_count, equal_count + snd item)
      end
  end.

Inductive analysis :=
  | NoCardsInHand (who : string)
  | NoCardsToDraw
  | Distribution (current_total threshold total_available
                  greater_count less_count equal_count : Z).

(** [calculate_probability_after_hit]; [None] when a hand total raises
    [ValueError].  The state is only read. *)
Definition calculate_probability_after_hit (s : GameState) (who : string)
    (threshold : Z) : option analysis :=
  let current_hand := get_hand_cards s who in
  match current_hand with
  | [] => Some (NoCardsInHand who)
  | _ =>
      match calculate_hand_total current_hand with
      | None => None
      | Some current_total =>
          let available_cards := cards (deck s) in
          let total_available := map_fold (fun _ count acc => acc + count) 0 available_cards in
          if total_available =? 0 then Some NoCardsToDraw
          else
            match foldl (classify current_hand threshold) (Some (0, 0, 0))
                        (map_to_list available_cards) with
            | None => None
            | Some (greater_count, less_count, equal_count) =>
                Some (Distribution current_total threshold total_available
                                   greater_count less_count equal_count)
            end
      end
  end.

(** The percentage [(count / total_available) * 100] that the report
    prints.  The source computes it in binary floating point and prints one
    decimal; the model keeps the exact rational. *)
Definition percentage (count total_available : Z) : Q :=
  (inject_Z count / inject_Z total_available * inject_Z 100)%Q.

(** ** Serialization *)

(** A key of the ["players"] dictionary handed to [from_dict]: the [int] of
    [to_dict], or the [str] it becomes in JSON. *)
Inductive dict_key := IntKey (n : Z) | StrKey (k : string).

(** [int(num)] *)
Definition key_int (k : dict_key) : option Z :=
  match k with
  | IntKey n => Some n
  | StrKey t => PyStr.int t
  end.

Record StateDict := mkStateDict {
  sd_deck : ZoneDict;
  sd_dealer_hand : ZoneDict;
  sd_discard : ZoneDict;
  sd_face_down : ZoneDict;
  sd_face_down_owners : gmap string Z;
  sd_players : list (dict_key * ZoneDict);
  sd_next_player_number : Z
}.

Definition to_dict (s : GameState) : StateDict :=
  mkStateDict (zone_to_dict (deck s)) (zone_to_dict (dealer_hand s))
              (zone_to_dict (discard s)) (zone_to_dict (face_down s))
              (face_down_owners s)
              ((fun '(num, zone) => (IntKey num, zone_to_dict zone)) <$> map_to_list (players s))
              (next_player_number s).

(** The dictionary comprehension of [from_dict] over [data["players"]]. *)
Definition players_from_dict (items : list (dict_key * ZoneDict))
  : option (gmap Z CardZone) :=
  foldl (fun acc '(num, zone_data) =>
           match acc, key_int num with
           | Some m, Some n => Some (<[n := zone_from_dict zone_data]> m)
           | _, _ => None
           end)
        (Some ∅) items.

(** [GameState.from_dict]; [None] when a player key is no integer. *)
Definition from_dict (data : StateDict) : option GameState :=
  match players_from_dict (sd_players data) with
  | Some p =>
      Some (mkState (zone_from_dict (sd_deck data)) (zone_from_dict (sd_dealer_hand data))
                    (zone_from_dict (sd_discard data)) (zone_from_dict (sd_face_down data))
                    (sd_face_down_owners data) p (sd_next_player_number data))
  | None => None
  end.

(** What [json.loads(json.dumps(d))] does to the record: the integer keys
    of ["players"] come back as their decimal text. *)
Definition json_key (k : dict_key) : dict_key :=
  match k with
  | IntKey n => StrKey (PyStr.str n)
  | StrKey t => StrKey t
  end.

Definition through_json (d : StateDict) : StateDict :=
  mkStateDict (sd_deck d) (sd_dealer_hand d) (sd_discard d) (sd_face_down d)
              (sd_face_down_owners d)
              ((fun '(k, zd) => (json_key k, zd)) <$> sd_players d)
              (sd_next_player_number d).

(** ** Operations and reachable states *)

Inductive op :=
  | OpAddPlayer
  | OpDeal (card to_zone : string)
  | OpDealFaceDown (to_zone : string)
  | OpFlip (who card : string)
  | OpHit (card who : string)
  | OpClearHands
  | OpShuffle
  | OpProbability (who : string) (threshold : Z).

(** The state after one operation; a probability query only reads it. *)
Definition step (s : GameState) (o : op) : GameState :=
  match o with
  | OpAddPlayer => snd (add_player s)
  | OpDeal card to_zone => snd (deal_card s card to_zone)
  | OpDealFaceDown to_zone => snd (deal_face_down s to_zone)
  | OpFlip who card => snd (flip_card s who card)
  | OpHit card who => snd (hit s card who)
  | OpClearHands => snd (clear_hands s)
  | OpShuffle => snd (shuffle s)
  | OpProbability _ _ => s
  end.

Definition run (s : GameState) (ops : list op) : GameState := foldl step s ops.

Inductive reachable : GameState -> Prop :=
  | reachable_new : reachable new_game_state
  | reachable_step s o : reachable s -> reachable (step s o).

(** The sum over the player hands of [total_cards]. *)
Definition players_total (p : gmap Z CardZone) : Z :=
  map_fold (fun _ zone acc => acc + total_cards zone) 0 p.

(** The sum that [get_status] prints as ["Total cards tracked"]. *)
Definition total_in_play (s : GameState) : Z :=
  total_cards (deck s) + total_cards (face_down s) + total_cards (dealer_hand s)
  + total_cards (discard s) + players_total (players s).

(** [sum(face_down_owners.values())] *)
Definition owners_total (o : gmap string Z) : Z :=
  map_fold (fun _ count acc => acc + count) 0 o.

(** A table where the four kings went to the dealer and one more card lies
    face down in front of the dealer. *)
Definition kings_dealt : GameState :=
  run new_game_state
      [OpDeal "K" "dealer"; OpDeal "K" "dealer"; OpDeal "K" "dealer"; OpDeal "K" "dealer";
       OpDealFaceDown "dealer"].

(** A table where the dealer holds a king and a request to deal an "Ace"
    was refused. *)
Definition ace_refused : GameState :=
  run new_game_state [OpDeal "K" "dealer"; OpDeal "Ace" "dealer"].

(** ** The hand total as the specification words it *)

Inductive rank :=
  | Two | Three | Four | Five | Six | Seven | Eight | Nine | Ten
  | Jack | Queen | King | Ace.

Definition rank_label (r : rank) : string :=
  match r with
  | Two => "2" | Three => "3" | Four => "4" | Five => "5" | Six => "6"
  | Seven => "7" | Eight => "8" | Nine => "9" | Ten => "10"
  | Jack => "J" | Queen => "Q" | King => "K" | Ace => "A"
  end.

Definition all_ranks : list rank :=
  [Two; Three; Four; Five; Six; Seven; Eight; Nine; Ten; Jack; Queen; King; Ace].

(** Each of J, Q, K contributes 10, each numeral its face value, each A
    contributes 11 provisionally. *)
Definition spec_points (r : rank) : Z :=
  match r with
  | Two => 2 | Three => 3 | Four => 4 | Five => 5 | Six => 6
  | Seven => 7 | Eight => 8 | Nine => 9 | Ten => 10
  | Jack | Queen | King => 10
  | Ace => 11
  end.

Definition spec_is_ace (r : rank) : bool :=
  match r with Ace => true | _ => false end.

Definition spec_provisional (rs : list rank) : Z :=
  foldr Z.add 0 (spec_points <$> rs).

Definition spec_aces (rs : list rank) : nat := length (filter (fun r => spec_is_ace r = true) rs).

(** While the total exceeds 21 and an ace is still counted as 11: subtract
    10 and count one ace less. *)
Fixpoint spec_demote (aces_as_11 : nat) (total : Z) : Z :=
  match aces_as_11 with
  | O => total
  | S n => if decide (total > 21) then spec_demote n (total - 10) else total
  end.

Definition spec_hand_total (rs : list rank) : Z :=
  spec_demote (spec_aces rs) (spec_provisional rs).

(** ** Well-formed states *)

(** The composition of a full deck: 4 of each rank. *)
Definition full_deck : gmap string Z := list_to_map ((fun r => (r, 4)) <$> RANKS).

(** Every entry of the zone has a positive count and a label in [P]. *)
Definition zone_holds (P : string -> Prop) (z : CardZone) : Prop :=
  forall k n, cards z !! k = Some n -> 0 < n /\ P k.

(** No entry of the zone is negative, and the positive ones are ranks. *)
Definition deck_holds_ranks (z : CardZone) : Prop :=
  forall k n, cards z !! k = Some n -> 0 <= n /\ (0 < n -> k ∈ RANKS).

(** The labels of the discard pile. *)
Definition known_or_unknown (k : string) : Prop := k ∈ RANKS \/ k = "UNKNOWN".

(** The invariant of the ledger. *)
Record wf_state (s : GameState) : Prop := mk_wf {
  wf_deck : deck_holds_ranks (deck s);
  wf_dealer : zone_holds (fun k => k ∈ RANKS) (dealer_hand s);
  wf_players : forall n z, players s !! n = Some z -> zone_holds (fun k => k ∈ RANKS) z;
  wf_discard : zone_holds known_or_unknown (discard s);
  wf_face_down : zone_holds (fun k => k = "FACEDOWN") (face_down s);
  wf_owners : forall k n, face_down_owners s !! k = Some n -> 0 < n;
  wf_owners_total : owners_total (face_down_owners s) = total_cards (face_down s);
  wf_numbers : forall n, is_Some (players s !! n) -> 1 <= n < next_player_number s;
  wf_next : 1 <= next_player_number s;
  wf_known :
    total_cards (deck s) + total_cards (dealer_hand s) + players_total (players s)
    + (total_cards (discard s) - count_of (cards (discard s)) "UNKNOWN") = 52
}.

(** Every entry of the zone has a positive count: the key set is the set
    of the labels present. *)
Definition no_zero_entry (z : CardZone) : Prop :=
  forall k n, cards z !! k = Some n -> 0 < n.

(** No key of the deck is left over from a failed removal: every key is a
    rank label. *)
Definition deck_keys_are_ranks (s : GameState) : Prop :=
  forall k, is_Some (cards (deck s) !! k) -> k ∈ RANKS.

(** The points and the aces that one card adds in the loop of
    [calculate_hand_total]. *)
Definition card_step (card : string) : option (Z * nat) :=
  let card := normalize card in
  if bool_decide (card ∈ ["J"; "Q"; "K"]) then Some (10, O)
  else if String.eqb card "A" then Some (11, 1%nat)
  else (fun v => (v, O)) <$> PyStr.int card.

(** ** Notions used to state further properties *)

(** How many times the label [k] occurs in a list of cards. *)
Definition occurrences (k : string) (l : list string) : nat :=
  length (filter (fun c => c = k) l).

(** The copies of the label [k] over all player hands. *)
Definition players_count (p : gmap Z CardZone) (k : string) : Z :=
  map_fold (fun _ zone acc => acc + count_of (cards zone) k) 0 p.

(** The players are numbered 1, 2, ... up to the counter, without a gap. *)
Definition players_numbered (s : GameState) : Prop :=
  1 <= next_player_number s /\
  forall n, is_Some (players s !! n) <-> 1 <= n < next_player_number s.

(** The four zones of the table carry the names given by [__init__]. *)
Definition default_names (s : GameState) : Prop :=
  name (deck s) = "Deck" /\ name (dealer_hand s) = "Dealer Hand" /\
  name (discard s) = "Discard Pile" /\ name (face_down s) = "Face Down".

(** Of every rank, the copies in the deck, the dealer hand, the player
    hands and the discard pile are four. *)
Definition rank_conserved (s : GameState) : Prop :=
  forall r, r ∈ RANKS ->
    count_of (cards (deck s)) r + count_of (cards (dealer_hand s)) r
    + players_count (players s) r + count_of (cards (discard s)) r = 4.

(** The message of one operation; a probability query returns a report,
    which is no [reply]. *)
Definition step_reply (s : GameState) (o : op) : option reply :=
  match o with
  | OpAddPlayer => Some (fst (add_player s))
  | OpDeal card to_zone => Some (fst (deal_card s card to_zone))
  | OpDealFaceDown to_zone => Some (fst (deal_face_down s to_zone))
  | OpFlip who card => Some (fst (flip_card s who card))
  | OpHit card who => Some (fst (hit s card who))
  | OpClearHands => Some (fst (clear_hands s))
  | OpShuffle => Some (fst (shuffle s))
  | OpProbability _ _ => None
  end.

(** The two messages that say that the card is not in the deck. *)
Definition reports_unavailable (r : option reply) : bool :=
  match r with
  | Some (CardNotAvailable _) | Some (HitNotAvailable _ _) => true
  | _ => false
  end.

(** No operation of the sequence, run from [s], reports that its card is
    not in the deck. *)
Fixpoint never_unavailable (s : GameState) (ops : list op) : Prop :=
  match ops with
  | [] => True
  | o :: rest =>
      reports_unavailable (step_reply s o) = false /\ never_unavailable (step s o) rest
  end.

(** The state kept between two messages: the global variable
    [GLOBAL_GAME_STATE], and the entry ["game_state"] of the agent's storage,
    written as the record that its JSON text parses to. *)
Record Store := mkStore {
  global_state : option GameState;
  stored_state : option StateDict
}.

(** [load_game_state]: the global state when there is one, else the stored
    one when it can be read, else a new game; the result becomes the global
    state. *)
Definition load_game_state (st : Store) : GameState * Store :=
  match global_state st with
  | Some g => (g, st)
  | None =>
      match stored_state st with
      | Some data =>
          match from_dict data with
          | Some g => (g, mkStore (Some g) (stored_state st))
          | None => (new_game_state, mkStore (Some new_game_state) (stored_state st))
          end
      | None => (new_game_state, mkStore (Some new_game_state) (stored_state st))
      end
  end.

(** [save_game_state]: the state becomes the global state and its record
    goes to the storage as JSON text. *)
Definition save_game_state (st : Store) (g : GameState) : Store :=
  mkStore (Some g) (Some (through_json (to_dict g))).

(** The store of a process that starts again: the global variable is
    unset, the storage is kept. *)
Definition restart (st : Store) : Store := mkStore None (stored_state st).

(** ** The message handler *)

(** [s.split()]: the maximal runs of characters that are not white space. *)
Fixpoint split (s : string) : list string :=
  match s with
  | EmptyString => []
  | String c r =>
      if PyStr.is_space c then split r
      else
        match r with
        | EmptyString => [String c EmptyString]
        | String d _ =>
            if PyStr.is_space d then String c EmptyString :: split r
            else
              match split r with
              | w :: ws => String c w :: ws
              | [] => [String c EmptyString]
              end
        end
  end.

(** [s.split(sep)] for a non-empty [sep]: the pieces between the
    occurrences of [sep], found from left to right without overlap.  [skip]
    counts the characters of the occurrence just found that are still to
    drop. *)
Fixpoint split_on (sep : string) (skip : nat) (s : string) : list string :=
  match s with
  | EmptyString => [EmptyString]
  | String c r =>
      match skip with
      | S k => split_on sep k r
      | O =>
          if PyStr.starts_with sep s
          then EmptyString :: split_on sep (String.length sep - 1) r
          else
            match split_on sep O r with
            | p :: ps => String c p :: ps
            | [] => [String c EmptyString]
            end
      end
  end.

(** [sub in s] for two strings. *)
Fixpoint contains (sub s : string) : bool :=
  PyStr.starts_with sub s ||
  match s with
  | EmptyString => false
  | String _ r => contains sub r
  end.

(** [sep.join(l)] *)
Definition join (sep : string) (l : list string) : string :=
  match l with
  | [] => EmptyString
  | w :: ws => foldl (fun acc x => acc +:+ sep +:+ x) w ws
  end.

(** The index of the first part that is "hit" in lower case: the loop over
    [enumerate(parts)] with its [break]. *)
Fixpoint hit_index (parts : list string) : option nat :=
  match parts with
  | [] => None
  | part :: rest =>
      if String.eqb (PyStr.lower part) "hit" then Some O
      else S <$> hit_index rest
  end.

(** The longest prefix of decimal digits: what the group [(\d+)] takes. *)
Fixpoint take_digits (s : string) : string :=
  match s with
  | EmptyString => EmptyString
  | String c r =>
      match PyStr.digit_val c with
      | Some _ => String c (take_digits r)
      | None => EmptyString
      end
  end.

Fixpoint drop_chars (n : nat) (s : string) : string :=
  match n, s with
  | S k, String _ r => drop_chars k r
  | _, _ => s
  end.

(** A match at the start of [s] of the word, then white space ([\s+] when
    [spaces_needed], else [\s*]), then the group [(\d+)]; the result is the
    group.  The white space and the digits are taken greedily, and giving
    some back never helps: the character after the white space has to be a
    digit. *)
Definition digits_after (word : string) (spaces_needed : bool) (s : string)
    : option string :=
  if PyStr.starts_with word s then
    let r := drop_chars (String.length word) s in
    let spaced := match r with String c _ => PyStr.is_space c | EmptyString => false end in
    if spaces_needed && negb spaced then None
    else
      match take_digits (PyStr.lstrip r) with
      | EmptyString => None
      | d => Some d
      end
  else None.

(** [re.search]: the match that starts leftmost. *)
Fixpoint search (word : string) (spaces_needed : bool) (s : string) : option string :=
  match digits_after word spaces_needed s with
  | Some d => Some d
  | None =>
      match s with
      | EmptyString => None
      | String _ r => search word spaces_needed r
      end
  end.

(** The format reminders that the handler answers with. *)
Inductive usage :=
  | UsageDealFaceDown
  | UsageDeal
  | UsageFlip
  | UsagePlayerHit
  | UsageDealerHit
  | UsageProbability.

(** What a message asks for: the branch of the [if]/[elif] chain of
    [handle_chat_message] that takes it, with the arguments that the branch
    passes on. *)
Inductive command :=
  | CmdAddPlayer
  | CmdStatus
  | CmdShuffle
  | CmdClearHands
  | CmdDealFaceDown (target : string)
  | CmdDeal (card target : string)
  | CmdFlip (who card : string)
  | CmdPlayerHit (card player_id : string)
  | CmdDealerHit (card : string)
  | CmdProbability (who threshold : string)
  | CmdUsage (u : usage)
  | CmdUnknown.

(** [x in [a, b, c]] on strings. *)
Definition one_of (x : string) (l : list string) : bool :=
  existsb (String.eqb x) l.

(** [parts[i]], read only under a test of [len(parts)]. *)
Definition part (parts : list string) (i : nat) : string := default EmptyString (parts !! i).

(** The chain of tests of [handle_chat_message] on the message text. *)
Definition parse_command (query : string) : command :=
  let query := PyStr.strip query in
  let query_lower := PyStr.lower query in
  if one_of query_lower ["add player"; "new player"; "add"] then CmdAddPlayer
  else if one_of query_lower ["status"; "state"; "show"] then CmdStatus
  else if one_of query_lower ["shuffle"; "reset"; "new deck"] then CmdShuffle
  else if one_of query_lower ["clear hands"; "clear hand"; "clear"] then CmdClearHands
  else if PyStr.starts_with "deal" query_lower then
    if contains "face down" query_lower then
      match split_on "to" 0 (PyStr.lower query) with
      | [_; target] => CmdDealFaceDown (PyStr.strip target)
      | _ => CmdUsage UsageDealFaceDown
      end
    else
      let parts := split query in
      if (4 <=? length parts)%nat && String.eqb (PyStr.lower (part parts 2)) "to"
      then CmdDeal (PyStr.upper (part parts 1)) (part parts 3)
      else CmdUsage UsageDeal
  else if PyStr.starts_with "flip" query_lower then
    let parts := split query in
    if (3 <=? length parts)%nat
    then CmdFlip (part parts 1) (PyStr.upper (part parts 2))
    else CmdUsage UsageFlip
  else if PyStr.starts_with "player" query_lower && contains "hit" query_lower then
    let parts := split query in
    match hit_index parts with
    | Some i =>
        if (i + 1 <? length parts)%nat
        then CmdPlayerHit (PyStr.upper (part parts (i + 1)))
                          (if (1 <? i)%nat then join " " (take (i - 1) (drop 1 parts)) else "1")
        else CmdUsage UsagePlayerHit
    | None => CmdUsage UsagePlayerHit
    end
  else if PyStr.starts_with "dealer hit" query_lower then
    let parts := split query in
    if (3 <=? length parts)%nat then CmdDealerHit (PyStr.upper (part parts 2))
    else CmdUsage UsageDealerHit
  else if contains "probability" query_lower && contains "after" query_lower
          && contains "hit" query_lower then
    let threshold_match := search "of" true query_lower in
    let who :=
      if contains "dealer" query_lower then Some "dealer"
      else search "player" false query_lower in
    match threshold_match, who with
    | Some threshold, Some who => CmdProbability who threshold
    | _, _ => CmdUsage UsageProbability
    end
  else if PyStr.starts_with "dealer hit" query_lower then
    let parts := split query in
    if (3 <=? length parts)%nat then CmdDealerHit (PyStr.upper (part parts 2))
    else CmdUsage UsageDealerHit
  else CmdUnknown.

(** The answer to a message.  [Message r true] is the message [r] followed
    by the status of the state after the call, [Message r false] the message
    alone; [ErrorMessage] is the text made from a caught exception. *)
Inductive response :=
  | Message (r : reply) (with_status : bool)
  | StatusReport
  | Report (a : analysis)
  | Usage (u : usage)
  | ErrorMessage
  | UnknownCommand.

Definition with_status (result : reply * GameState) : response * GameState :=
  (Message (fst result) true, snd result).

(** The call that each branch makes on the game state. *)
Definition execute (s : GameState) (c : command) : response * GameState :=
  match c with
  | CmdAddPlayer => with_status (add_player s)
  | CmdStatus => (StatusReport, s)
  | CmdShuffle => (Message (fst (shuffle s)) false, snd (shuffle s))
  | CmdClearHands => with_status (clear_hands s)
  | CmdDealFaceDown target => with_status (deal_face_down s target)
  | CmdDeal card target => with_status (deal_card s card target)
  | CmdFlip who card => with_status (flip_card s who card)
  | CmdPlayerHit card player_id => with_status (hit s card player_id)
  | CmdDealerHit card => with_status (hit s card "dealer")
  | CmdProbability who threshold =>
      match PyStr.int threshold with
      | Some threshold =>
          match calculate_probability_after_hit s who threshold with
          | Some a => (Report a, s)
          | None => (ErrorMessage, s)
          end
      | None => (ErrorMessage, s)
      end
  | CmdUsage u => (Usage u, s)
  | CmdUnknown => (UnknownCommand, s)
  end.

(** [handle_chat_message] on the text of a message: the state is loaded, a
    blank message is dropped without an answer and without saving, any
    other is parsed, executed and the state saved. *)
Definition handle_chat_message (st : Store) (query : string)
    : option response * Store :=
  let '(game_state, st) := load_game_state st in
  match PyStr.strip query with
  | EmptyString => (None, st)
  | _ =>
      let '(response, game_state) := execute game_state (parse_command query) in
      (Some response, save_game_state st game_state)
  end.

(** A word: a non-empty text without white space. *)
Definition is_word (w : string) : bool :=
  negb (String.eqb w EmptyString) && PyStr.all_chars (fun c => negb (PyStr.is_space c)) w.

Definition is_digit (c : ascii) : bool :=
  match PyStr.digit_val c with
  | Some _ => true
  | None => false
  end.

(** A number as the messages write it: a non-empty text of decimal digits. *)
Definition is_number (t : string) : bool :=
  negb (String.eqb t EmptyString) && PyStr.all_chars is_digit t.

(** * Properties *)

(** ** Sums over a dictionary *)

Section sum_values.
Context `{Countable K} {A : Type} (f : A -> Z).

Local Abbreviation sum_f := (map_fold (fun (_ : K) x acc => acc + f x) 0).

Lemma sum_values_empty : sum_f (∅ : gmap K A) = 0.
Proof. apply map_fold_empty. Qed.

Lemma sum_values_insert_fresh (m : gmap K A) k x :
  m !! k = None -> sum_f (<[k := x]> m) = sum_f m + f x.
Proof.
  intros Hk. rewrite map_fold_insert_L; [done | | done].
  intros; lia.
Qed.

Lemma sum_values_delete (m : gmap K A) k x :
  m !! k = Some x -> sum_f (delete k m) = sum_f m - f x.
Proof.
  intros Hk.
  rewrite (map_fold_delete_L _ 0 k x m); [lia | | done].
  intros; lia.
Qed.

Lemma sum_values_insert (m : gmap K A) k x y :
  m !! k = Some x -> sum_f (<[k := y]> m) = sum_f m - f x + f y.
Proof.
  intros Hk. rewrite <- insert_delete_eq.
  rewrite sum_values_insert_fresh by apply lookup_delete_eq.
  rewrite (sum_values_delete m k x) by done. lia.
Qed.

Lemma sum_values_nonneg (m : gmap K A) :
  (forall k x, m !! k = Some x -> 0 <= f x) -> 0 <= sum_f m.
Proof.
  induction m as [|k x m Hk IH] using map_ind; intros Hpos.
  - rewrite sum_values_empty. lia.
  - rewrite sum_values_insert_fresh by done.
    assert (0 <= f x) by (apply (Hpos k); apply lookup_insert_eq).
    assert (0 <= sum_f m); [|lia].
    apply IH. intros j y Hj. apply (Hpos j).
    rewrite lookup_insert_ne; [done|]. intros ->. congruence.
Qed.

Lemma sum_values_lookup_le (m : gmap K A) k x :
  (forall j y, m !! j = Some y -> 0 <= f y) -> m !! k = Some x -> f x <= sum_f m.
Proof.
  intros Hpos Hk.
  assert (0 <= sum_f (delete k m)).
  { apply sum_values_nonneg. intros j y Hj.
    apply lookup_delete_Some in Hj as [_ Hj]. eauto. }
  rewrite (sum_values_delete m k x) in * by done. lia.
Qed.

Lemma sum_values_zero (m : gmap K A) :
  (forall k x, m !! k = Some x -> f x = 0) -> sum_f m = 0.
Proof.
  induction m as [|k x m Hk IH] using map_ind; intros Hz.
  - apply sum_values_empty.
  - rewrite sum_values_insert_fresh by done.
    rewrite (Hz k x) by apply lookup_insert_eq.
    rewrite IH; [done|]. intros j y Hj. apply (Hz j).
    rewrite lookup_insert_ne; [done|]. intros ->. congruence.
Qed.

Lemma sum_values_to_list (m : gmap K A) :
  sum_f m = foldr (fun p acc => acc + f (snd p)) 0 (map_to_list m).
Proof.
  rewrite map_fold_foldr. induction (map_to_list m) as [|[k x] l IH]; simpl; congruence.
Qed.
End sum_values.

(** ** Card zones *)

Lemma normalize_rank k : k ∈ RANKS -> normalize k = k.
Proof.
  unfold RANKS. intros Hk.
  repeat (apply elem_of_cons in Hk as [->|Hk]; [reflexivity|]).
  by apply elem_of_nil in Hk.
Qed.

Lemma count_of_insert (m : gmap string Z) k v j :
  count_of (<[k := v]> m) j = if decide (j = k) then v else count_of m j.
Proof.
  unfold count_of. case_decide as Hj.
  - subst. by rewrite lookup_insert_eq.
  - by rewrite lookup_insert_ne.
Qed.

Lemma count_of_delete (m : gmap string Z) k j :
  count_of (delete k m) j = if decide (j = k) then 0 else count_of m j.
Proof.
  unfold count_of. case_decide as Hj.
  - subst. by rewrite lookup_delete_eq.
  - by rewrite lookup_delete_ne.
Qed.

Lemma count_of_touch (m : gmap string Z) k j : count_of (touch k m) j = count_of m j.
Proof.
  unfold touch. destruct (m !! k) eqn:Hk; [done|].
  rewrite count_of_insert. case_decide; [|done].
  subst. unfold count_of. by rewrite Hk.
Qed.

Lemma insert_touch (m : gmap string Z) k v : <[k := v]> (touch k m) = <[k := v]> m.
Proof. unfold touch. destruct (m !! k); [done|]. apply insert_insert_eq. Qed.

Lemma delete_touch (m : gmap string Z) k : delete k (touch k m) = delete k m.
Proof. unfold touch. destruct (m !! k); [done|]. apply delete_insert_eq. Qed.

Lemma touch_present (m : gmap string Z) k : is_Some (m !! k) -> touch k m = m.
Proof. unfold touch. by intros [x ->]. Qed.

Lemma total_cards_with_cards z m :
  total_cards (with_cards z m) = map_fold (fun _ count acc => acc + count) 0 m.
Proof. reflexivity. Qed.

Lemma sum_counts_insert (m : gmap string Z) k v :
  map_fold (fun _ count acc => acc + count) 0 (<[k := v]> m)
  = map_fold (fun _ count acc => acc + count) 0 m - count_of m k + v.
Proof.
  unfold count_of. destruct (m !! k) as [x|] eqn:Hk; simpl.
  - apply (sum_values_insert (fun x => x)). done.
  - rewrite (sum_values_insert_fresh (fun x => x)) by done. lia.
Qed.

Lemma sum_counts_delete (m : gmap string Z) k :
  map_fold (fun _ count acc => acc + count) 0 (delete k m)
  = map_fold (fun _ count acc => acc + count) 0 m - count_of m k.
Proof.
  unfold count_of. destruct (m !! k) as [x|] eqn:Hk; simpl.
  - apply (sum_values_delete (fun x => x)). done.
  - rewrite delete_id by done. lia.
Qed.

Lemma sum_counts_touch (m : gmap string Z) k :
  map_fold (fun _ count acc => acc + count) 0 (touch k m)
  = map_fold (fun _ count acc => acc + count) 0 m.
Proof.
  unfold touch. destruct (m !! k) as [x|] eqn:Hk; [done|].
  rewrite sum_counts_insert. unfold count_of. rewrite Hk. simpl. lia.
Qed.

Lemma cards_add_card z card count :
  cards (add_card z card count)
  = <[normalize card := count_of (cards z) (normalize card) + count]> (cards z).
Proof. reflexivity. Qed.

Lemma name_add_card z card count : name (add_card z card count) = name z.
Proof. reflexivity. Qed.

Lemma total_cards_add_card z card count :
  total_cards (add_card z card count) = total_cards z + count.
Proof.
  unfold add_card. rewrite total_cards_with_cards, sum_counts_insert.
  unfold total_cards. lia.
Qed.

Lemma count_of_add_card z card count k :
  count_of (cards (add_card z card count)) k
  = count_of (cards z) k + (if decide (k = normalize card) then count else 0).
Proof.
  rewrite cards_add_card, count_of_insert. case_decide; subst; lia.
Qed.

(** [remove_card] in one equation: the guard reads the count, a success
    writes the difference and deletes it when it is 0, a failure leaves the
    key that the guard has read. *)
Lemma remove_card_eq z card count :
  let k := normalize card in
  let c := count_of (cards z) k in
  remove_card z card count =
    if count <=? c
    then (true, with_cards z (if c - count =? 0 then delete k (cards z)
                              else <[k := c - count]> (cards z)))
    else (false, with_cards z (touch k (cards z))).
Proof.
  intros k c. unfold remove_card. fold k.
  rewrite count_of_touch. fold c.
  destruct (count <=? c); [|done].
  rewrite count_of_insert. rewrite decide_True by done.
  destruct (c - count =? 0).
  - by rewrite insert_touch, delete_insert_eq.
  - by rewrite insert_touch.
Qed.

Lemma remove_card_success z card count z' :
  remove_card z card count = (true, z') ->
  let k := normalize card in
  let c := count_of (cards z) k in
  count <= c /\ name z' = name z /\
  cards z' = (if c - count =? 0 then delete k (cards z) else <[k := c - count]> (cards z)).
Proof.
  rewrite remove_card_eq. intros Heq k c. fold k c in Heq.
  destruct (count <=? c) eqn:Hle; [|done].
  apply Z.leb_le in Hle. by simplify_eq.
Qed.

Lemma remove_card_failure z card count z' :
  remove_card z card count = (false, z') ->
  let k := normalize card in
  count_of (cards z) k < count /\ z' = with_cards z (touch k (cards z)).
Proof.
  rewrite remove_card_eq. intros Heq k. fold k in Heq.
  destruct (count <=? count_of (cards z) k) eqn:Hle; [done|].
  apply Z.leb_gt in Hle. by simplify_eq.
Qed.

Lemma total_cards_remove_card z card count z' :
  remove_card z card count = (true, z') -> total_cards z' = total_cards z - count.
Proof.
  intros Hrm. apply remove_card_success in Hrm as (Hle & _ & Hc).
  unfold total_cards. rewrite Hc.
  destruct (_ =? 0) eqn:Hz.
  - apply Z.eqb_eq in Hz. rewrite sum_counts_delete. lia.
  - rewrite sum_counts_insert. lia.
Qed.

Lemma count_of_remove_card z card count z' j :
  remove_card z card count = (true, z') ->
  count_of (cards z') j
  = count_of (cards z) j - (if decide (j = normalize card) then count else 0).
Proof.
  intros Hrm. apply remove_card_success in Hrm as (Hle & _ & Hc). rewrite Hc.
  destruct (_ =? 0) eqn:Hz.
  - apply Z.eqb_eq in Hz. rewrite count_of_delete. case_decide; subst; lia.
  - rewrite count_of_insert. case_decide; subst; lia.
Qed.

Lemma count_of_nonneg_zone P z k : zone_holds P z -> 0 <= count_of (cards z) k.
Proof.
  intros Hz. unfold count_of. destruct (cards z !! k) as [n|] eqn:Hk; simpl; [|lia].
  apply Hz in Hk. lia.
Qed.

Lemma zone_holds_add_card (P : string -> Prop) z card count :
  zone_holds P z -> P (normalize card) -> 0 < count ->
  zone_holds P (add_card z card count).
Proof.
  intros Hz HP Hc k n. rewrite cards_add_card.
  destruct (decide (k = normalize card)) as [->|Hne].
  - rewrite lookup_insert_eq. intros [= <-].
    pose proof (count_of_nonneg_zone P z (normalize card) Hz). split; [lia|done].
  - rewrite lookup_insert_ne by done. apply Hz.
Qed.

Lemma zone_holds_empty P z : zone_holds P (with_cards z ∅).
Proof. intros k n. simpl. by rewrite lookup_empty. Qed.

Lemma zone_holds_remove_one P z card z' :
  zone_holds P z -> remove_card z card 1 = (true, z') -> zone_holds P z'.
Proof.
  intros Hz Hrm. apply remove_card_success in Hrm as (Hle & _ & Hc).
  intros k n. rewrite Hc. destruct (_ =? 0) eqn:Hz0.
  - intros Hk. apply lookup_delete_Some in Hk as [_ Hk]. by apply Hz.
  - apply Z.eqb_neq in Hz0.
    destruct (decide (k = normalize card)) as [->|Hne].
    + rewrite lookup_insert_eq. intros [= <-]. split; [lia|].
      unfold count_of in *. destruct (cards z !! normalize card) as [c|] eqn:Hk; simpl in *.
      * by apply Hz in Hk as [_ ?].
      * lia.
    + rewrite lookup_insert_ne by done. apply Hz.
Qed.

Lemma deck_holds_ranks_touch z k :
  deck_holds_ranks z -> deck_holds_ranks (with_cards z (touch k (cards z))).
Proof.
  intros Hz j n. simpl. unfold touch. destruct (cards z !! k) eqn:Hk; [apply Hz|].
  destruct (decide (j = k)) as [->|Hne].
  - rewrite lookup_insert_eq. intros [= <-]. split; lia.
  - rewrite lookup_insert_ne by done. apply Hz.
Qed.

Lemma count_of_nonneg_deck z k : deck_holds_ranks z -> 0 <= count_of (cards z) k.
Proof.
  intros Hz. unfold count_of. destruct (cards z !! k) as [n|] eqn:Hk; simpl; [|lia].
  apply Hz in Hk. lia.
Qed.

Lemma count_of_pos_rank z k : deck_holds_ranks z -> 0 < count_of (cards z) k -> k ∈ RANKS.
Proof.
  intros Hz. unfold count_of. destruct (cards z !! k) as [n|] eqn:Hk; simpl; [|lia].
  apply Hz in Hk. tauto.
Qed.

(** A card that leaves the deck is one of the 13 ranks. *)
Lemma deck_remove_one z card z' :
  deck_holds_ranks z -> remove_card z card 1 = (true, z') ->
  normalize card ∈ RANKS /\ deck_holds_ranks z'.
Proof.
  intros Hz Hrm. apply remove_card_success in Hrm as (Hle & _ & Hc).
  assert (normalize card ∈ RANKS) as Hr by (apply (count_of_pos_rank z); [done|lia]).
  split; [done|].
  intros k n. rewrite Hc. destruct (_ =? 0) eqn:Hz0.
  - intros Hk. apply lookup_delete_Some in Hk as [_ Hk]. by apply Hz.
  - destruct (decide (k = normalize card)) as [->|Hne].
    + rewrite lookup_insert_eq. intros [= <-]. split; [lia|done].
    + rewrite lookup_insert_ne by done. apply Hz.
Qed.

Lemma deck_holds_ranks_add_card z card count :
  deck_holds_ranks z -> normalize card ∈ RANKS -> 0 <= count ->
  deck_holds_ranks (add_card z card count).
Proof.
  intros Hz Hr Hc k n. rewrite cards_add_card.
  destruct (decide (k = normalize card)) as [->|Hne].
  - rewrite lookup_insert_eq. intros [= <-].
    pose proof (count_of_nonneg_deck z (normalize card) Hz). split; [lia|done].
  - rewrite lookup_insert_ne by done. apply Hz.
Qed.

(** Putting back the card that was just removed restores the mapping. *)
Lemma add_card_remove_card z card z' :
  remove_card z card 1 = (true, z') -> is_Some (cards z !! normalize card) ->
  add_card z' card 1 = z.
Proof.
  intros Hrm [c Hk]. apply remove_card_success in Hrm as (Hle & Hn & Hc).
  unfold add_card, with_cards. rewrite Hn, Hc.
  assert (count_of (cards z) (normalize card) = c) as Hcount
    by (unfold count_of; by rewrite Hk).
  rewrite Hcount. destruct z as [nm m]; simpl in *. f_equal.
  destruct (c - 1 =? 0) eqn:Hz0.
  - apply Z.eqb_eq in Hz0. rewrite count_of_delete, decide_True by done.
    rewrite insert_delete_eq. apply insert_id. rewrite Hk. f_equal. lia.
  - rewrite count_of_insert, decide_True by done.
    rewrite insert_insert_eq. apply insert_id. rewrite Hk. f_equal. lia.
Qed.

Lemma remove_card_present z card z' :
  remove_card z card 1 = (true, z') -> is_Some (cards z !! normalize card).
Proof.
  intros Hrm. apply remove_card_success in Hrm as (Hle & _).
  unfold count_of in Hle. destruct (cards z !! normalize card); [eauto|simpl in Hle; lia].
Qed.

Lemma total_cards_single z k :
  zone_holds (fun j => j = k) z -> total_cards z = count_of (cards z) k.
Proof.
  intros Hz. unfold total_cards.
  assert (delete k (cards z) = ∅) as Hd.
  { apply map_empty. intros j. destruct (delete k (cards z) !! j) eqn:Hj; [|done].
    apply lookup_delete_Some in Hj as [Hne Hj]. apply Hz in Hj as [_ ?]. congruence. }
  pose proof (sum_counts_delete (cards z) k) as Hs.
  rewrite Hd, (sum_values_empty (fun x => x)) in Hs. lia.
Qed.

(** ** Enumerating a zone *)

Lemma elem_of_get_all_cards z card :
  card ∈ get_all_cards z <-> exists n, cards z !! card = Some n /\ 0 < n.
Proof.
  unfold get_all_cards. rewrite list_elem_of_In, in_flat_map. split.
  - intros [[k n] [Hin Hrep]]. apply list_elem_of_In, elem_of_map_to_list in Hin.
    apply list_elem_of_In, elem_of_replicate in Hrep as [-> Hn].
    exists n. split; [done|lia].
  - intros (n & Hk & Hn). exists (card, n). split.
    + by apply list_elem_of_In, elem_of_map_to_list.
    + apply list_elem_of_In, elem_of_replicate. split; [done|lia].
Qed.

Lemma length_get_all_cards z :
  (forall k n, cards z !! k = Some n -> 0 <= n) ->
  Z.of_nat (length (get_all_cards z)) = total_cards z.
Proof.
  intros Hpos. unfold total_cards, get_all_cards.
  rewrite (sum_values_to_list (fun x => x)).
  assert (Forall (fun p => 0 <= snd p) (map_to_list (cards z))) as Hall.
  { apply Forall_forall. intros [k n] Hin. apply elem_of_map_to_list in Hin. simpl. eauto. }
  induction Hall as [|[k n] l Hn Hl IH]; simpl; [done|].
  rewrite length_app, length_replicate, Nat2Z.inj_add, IH. simpl in Hn. lia.
Qed.

Lemma get_all_cards_empty z : get_all_cards (with_cards z ∅) = [].
Proof. unfold get_all_cards. simpl. by rewrite map_to_list_empty. Qed.

Lemma total_cards_empty z : total_cards (with_cards z ∅) = 0.
Proof. apply (sum_values_empty (K:=string) (fun x : Z => x)). Qed.

Lemma total_cards_add_cards z l :
  total_cards (add_cards z l) = total_cards z + Z.of_nat (length l).
Proof.
  unfold add_cards. revert z. induction l as [|c l IH]; intros z; simpl; [lia|].
  rewrite IH, total_cards_add_card. lia.
Qed.

Lemma zone_holds_add_cards (P : string -> Prop) z l :
  zone_holds P z -> Forall (fun c => P (normalize c)) l -> zone_holds P (add_cards z l).
Proof.
  unfold add_cards. intros Hz Hl. revert z Hz.
  induction Hl as [|c l Hc Hl IH]; intros z Hz; simpl; [done|].
  apply IH. apply zone_holds_add_card; [done..|lia].
Qed.

Lemma count_of_add_cards_other z l k :
  Forall (fun c => normalize c <> k) l ->
  count_of (cards (add_cards z l)) k = count_of (cards z) k.
Proof.
  unfold add_cards. intros Hl. revert z.
  induction Hl as [|c l Hc Hl IH]; intros z; simpl; [done|].
  rewrite IH, count_of_add_card, decide_False by done. lia.
Qed.

Lemma count_of_add_cards_replicate z n k :
  normalize k = k ->
  count_of (cards (add_cards z (replicate n k))) k = count_of (cards z) k + Z.of_nat n.
Proof.
  unfold add_cards. intros Hk. revert z.
  induction n as [|n IH]; intros z; simpl replicate; simpl foldl; [lia|].
  rewrite IH, count_of_add_card, decide_True by done. lia.
Qed.

(** ** The player table *)

Lemma players_total_empty : players_total ∅ = 0.
Proof. apply (sum_values_empty (K:=Z) total_cards). Qed.

Lemma players_total_insert (p : gmap Z CardZone) n z z' :
  p !! n = Some z ->
  players_total (<[n := z']> p) = players_total p - total_cards z + total_cards z'.
Proof. apply (sum_values_insert total_cards). Qed.

Lemma players_total_insert_fresh (p : gmap Z CardZone) n z :
  p !! n = None -> players_total (<[n := z]> p) = players_total p + total_cards z.
Proof. apply (sum_values_insert_fresh total_cards). Qed.

Lemma players_total_cleared (p : gmap Z CardZone) :
  players_total ((fun zone => snd (clear zone)) <$> p) = 0.
Proof.
  apply (sum_values_zero total_cards). intros n z.
  rewrite lookup_fmap. destruct (p !! n) as [z0|]; simpl; [|done].
  intros [= <-]. apply total_cards_empty.
Qed.

Lemma get_player_zone_Some s identifier n z :
  get_player_zone s identifier = Some (n, z) -> players s !! n = Some z.
Proof.
  unfold get_player_zone. destruct (PyStr.int _) as [m|]; [|done].
  destruct (players s !! m) as [z0|] eqn:Hm; [|done]. by intros [= <- <-].
Qed.

(** ** The operations keep the ledger well formed *)

Lemma wf_new_game_state : wf_state new_game_state.
Proof.
  split.
  - intros k n Hk. assert (k ∈ RANKS /\ n = 4) as [Hr ->]; [|split; [lia|done]].
    revert Hk. change (cards (deck new_game_state)) with full_deck.
    unfold full_deck. intros Hk. apply elem_of_list_to_map_2 in Hk.
    apply list_elem_of_fmap in Hk as (r & [= -> ->] & Hr). done.
  - intros k n. simpl. by rewrite lookup_empty.
  - intros n z. simpl. by rewrite lookup_empty.
  - intros k n. simpl. by rewrite lookup_empty.
  - intros k n. simpl. by rewrite lookup_empty.
  - intros k n. simpl. by rewrite lookup_empty.
  - reflexivity.
  - intros n [z Hz]. simpl in Hz. by rewrite lookup_empty in Hz.
  - simpl. lia.
  - reflexivity.
Qed.

Lemma wf_add_player s : wf_state s -> wf_state (snd (add_player s)).
Proof.
  intros [Hd Hh Hp Hdis Hfd Ho Hot Hnum Hnext Hk].
  assert (players s !! next_player_number s = None) as Hfresh.
  { destruct (players s !! next_player_number s) eqn:Hn; [|done].
    assert (1 <= next_player_number s < next_player_number s) by eauto. lia. }
  split; simpl; try done.
  - intros n z. destruct (decide (n = next_player_number s)) as [->|Hne].
    + rewrite lookup_insert_eq. intros [= <-]. intros k c. simpl. by rewrite lookup_empty.
    + rewrite lookup_insert_ne by done. apply Hp.
  - intros n. destruct (decide (n = next_player_number s)) as [->|Hne]; [lia|].
    rewrite lookup_insert_ne by done. intros Hn. apply Hnum in Hn. lia.
  - lia.
  - rewrite players_total_insert_fresh by done.
    change (total_cards (new_zone _)) with 0. lia.
Qed.

(** A failed removal from the deck: only the key read by the guard may be
    new, with the count 0. *)
Lemma wf_deck_touched s k :
  wf_state s -> wf_state (set_deck s (with_cards (deck s) (touch k (cards (deck s))))).
Proof.
  intros [Hd Hh Hp Hdis Hfd Ho Hot Hnum Hnext Hk].
  split; simpl; try done.
  - by apply deck_holds_ranks_touch.
  - rewrite total_cards_with_cards, sum_counts_touch. apply Hk.
Qed.

(** One card moves from the deck to the dealer's hand. *)
Lemma wf_move_to_dealer s card deck1 :
  wf_state s -> remove_card (deck s) card 1 = (true, deck1) ->
  wf_state (set_dealer_hand (set_deck s deck1) (add_card (dealer_hand s) card 1)).
Proof.
  intros [Hd Hh Hp Hdis Hfd Ho Hot Hnum Hnext Hk] Hrm.
  destruct (deck_remove_one _ _ _ Hd Hrm) as [Hr Hd1].
  split; simpl; try done.
  - apply zone_holds_add_card; [done| |lia]. done.
  - rewrite (total_cards_remove_card _ _ _ _ Hrm), total_cards_add_card. lia.
Qed.

(** One card moves from the deck to the hand of player [n]. *)
Lemma wf_move_to_player s card deck1 n zone :
  wf_state s -> remove_card (deck s) card 1 = (true, deck1) ->
  players s !! n = Some zone ->
  wf_state (set_players (set_deck s deck1) (<[n := add_card zone card 1]> (players s))).
Proof.
  intros [Hd Hh Hp Hdis Hfd Ho Hot Hnum Hnext Hk] Hrm Hn.
  destruct (deck_remove_one _ _ _ Hd Hrm) as [Hr Hd1].
  split; simpl; try done.
  - intros m z. destruct (decide (m = n)) as [->|Hne].
    + rewrite lookup_insert_eq. intros [= <-].
      apply zone_holds_add_card; [by eapply Hp|done|lia].
    + rewrite lookup_insert_ne by done. apply Hp.
  - intros m. destruct (decide (m = n)) as [->|Hne].
    + intros _. apply Hnum. eauto.
    + rewrite lookup_insert_ne by done. apply Hnum.
  - rewrite (total_cards_remove_card _ _ _ _ Hrm).
    rewrite (players_total_insert _ _ zone) by done.
    rewrite total_cards_add_card. lia.
Qed.

Lemma set_deck_same s : set_deck s (deck s) = s.
Proof. by destruct s. Qed.

(** The state that [deal_card] and [hit] leave after a card was removed
    and put back: the one they started from. *)
Lemma deck_put_back s card deck1 :
  remove_card (deck s) card 1 = (true, deck1) ->
  set_deck (set_deck s deck1) (add_card deck1 card 1) = s.
Proof.
  intros Hrm. rewrite (add_card_remove_card (deck s)); [|done|by eapply remove_card_present].
  by destruct s.
Qed.

Lemma wf_deal_card s card to_zone : wf_state s -> wf_state (snd (deal_card s card to_zone)).
Proof.
  intros Hwf. unfold deal_card.
  destruct (remove_card (deck s) (normalize card) 1) as [[] deck1] eqn:Hrm; simpl.
  - destruct (String.eqb _ _); simpl.
    + by apply wf_move_to_dealer.
    + change (get_player_zone (set_deck s deck1) to_zone) with (get_player_zone s to_zone).
      destruct (get_player_zone s to_zone) as [[n zone]|] eqn:Hz; simpl.
      * apply wf_move_to_player; [done..|]. by eapply get_player_zone_Some.
      * by rewrite deck_put_back.
  - apply remove_card_failure in Hrm as [_ ->]. by apply wf_deck_touched.
Qed.

Lemma wf_hit s card who : wf_state s -> wf_state (snd (hit s card who)).
Proof.
  intros Hwf. unfold hit.
  destruct (remove_card (deck s) (normalize card) 1) as [[] deck1] eqn:Hrm; simpl.
  - destruct (String.eqb _ _); simpl.
    + by apply wf_move_to_dealer.
    + change (get_player_zone (set_deck s deck1) who) with (get_player_zone s who).
      destruct (get_player_zone s who) as [[n zone]|] eqn:Hz; simpl.
      * apply wf_move_to_player; [done..|]. by eapply get_player_zone_Some.
      * by rewrite deck_put_back.
  - apply remove_card_failure in Hrm as [_ ->]. by apply wf_deck_touched.
Qed.

Lemma owners_total_incr (o : gmap string Z) k :
  owners_total (owner_incr k o) = owners_total o + 1.
Proof.
  unfold owners_total, owner_incr. rewrite sum_counts_insert. unfold count_of. lia.
Qed.

(** The state after a face-down card was dealt to [owner_key]. *)
Lemma wf_face_down_dealt s owner_key :
  wf_state s ->
  wf_state (set_face_down_owners
              (set_face_down s (add_card (face_down s) "FACEDOWN" 1))
              (owner_incr owner_key (face_down_owners s))).
Proof.
  intros [Hd Hh Hp Hdis Hfd Ho Hot Hnum Hnext Hk].
  split; simpl; try done.
  - apply zone_holds_add_card; [done|reflexivity|lia].
  - intros k n. unfold owner_incr. destruct (decide (k = owner_key)) as [->|Hne].
    + rewrite lookup_insert_eq. intros [= <-].
      destruct (face_down_owners s !! owner_key) as [c|] eqn:Hc; simpl; [|lia].
      apply Ho in Hc. lia.
    + rewrite lookup_insert_ne by done. apply Ho.
  - rewrite owners_total_incr, total_cards_add_card. lia.
Qed.

Lemma wf_deal_face_down s to_zone :
  wf_state s -> wf_state (snd (deal_face_down s to_zone)).
Proof.
  intros Hwf. unfold deal_face_down.
  destruct (_ =? 0); [done|].
  destruct (String.eqb _ _).
  - by apply (wf_face_down_dealt s "dealer").
  - destruct (get_player_zone s to_zone) as [[n zone]|]; [|done].
    destruct (n =? 0); [done|]. by apply (wf_face_down_dealt s (player_key n)).
Qed.

(** An owner with an outstanding face-down card: the face-down zone holds
    at least one [FACEDOWN] unit. *)
Lemma owner_has_face_down s owner_key n :
  wf_state s -> face_down_owners s !! owner_key = Some n ->
  1 <= count_of (cards (face_down s)) "FACEDOWN".
Proof.
  intros [Hd Hh Hp Hdis Hfd Ho Hot Hnum Hnext Hk] Hn.
  rewrite <- (total_cards_single _ _ Hfd), <- Hot.
  pose proof (Ho _ _ Hn).
  assert (n <= owners_total (face_down_owners s)); [|lia].
  apply (sum_values_lookup_le (fun x => x) (face_down_owners s) owner_key); [|done].
  intros j y Hj. apply Ho in Hj. lia.
Qed.

Lemma owners_total_decr (o : gmap string Z) k n :
  o !! k = Some n ->
  owners_total (if n - 1 =? 0 then delete k (<[k := n - 1]> o) else <[k := n - 1]> o)
  = owners_total o - 1.
Proof.
  intros Hk. unfold owners_total. destruct (n - 1 =? 0) eqn:Hz.
  - rewrite delete_insert_eq, sum_counts_delete. unfold count_of. rewrite Hk. simpl.
    apply Z.eqb_eq in Hz. lia.
  - rewrite sum_counts_insert. unfold count_of. rewrite Hk. simpl. lia.
Qed.

(** The bookkeeping of a successful flip, before the card reaches the hand:
    the deck and the face-down zone lose one card each, the owner's count
    drops by one.  The ledger is one card short until the hand receives
    the card, so this lemma states the pieces. *)
Lemma flip_bookkeeping s owner_key n card deck1 :
  wf_state s -> face_down_owners s !! owner_key = Some n ->
  remove_card (deck s) card 1 = (true, deck1) ->
  let fd1 := snd (remove_card (face_down s) "FACEDOWN" 1) in
  let o2 := if n - 1 =? 0 then delete owner_key (<[owner_key := n - 1]> (face_down_owners s))
            else <[owner_key := n - 1]> (face_down_owners s) in
  zone_holds (fun k => k = "FACEDOWN") fd1 /\
  total_cards fd1 = total_cards (face_down s) - 1 /\
  (forall k c, o2 !! k = Some c -> 0 < c) /\
  owners_total o2 = owners_total (face_down_owners s) - 1 /\
  normalize card ∈ RANKS /\ deck_holds_ranks deck1 /\
  total_cards deck1 = total_cards (deck s) - 1.
Proof.
  intros Hwf Hn Hrm fd1 o2.
  pose proof (owner_has_face_down _ _ _ Hwf Hn) as Hfd1.
  destruct Hwf as [Hd Hh Hp Hdis Hfd Ho Hot Hnum Hnext Hk].
  assert (remove_card (face_down s) "FACEDOWN" 1 = (true, fd1)) as Hrf.
  { subst fd1. rewrite remove_card_eq.
    change (normalize "FACEDOWN") with "FACEDOWN".
    destruct (1 <=? _) eqn:Hle; [done|]. apply Z.leb_gt in Hle. lia. }
  destruct (deck_remove_one _ _ _ Hd Hrm) as [Hr Hd1].
  split_and!; try done.
  - by eapply zone_holds_remove_one.
  - by apply total_cards_remove_card in Hrf.
  - subst o2. intros k c. pose proof (Ho _ _ Hn).
    destruct (n - 1 =? 0) eqn:Hz.
    + rewrite delete_insert_eq. intros Hc. apply lookup_delete_Some in Hc as [_ Hc]. eauto.
    + apply Z.eqb_neq in Hz. destruct (decide (k = owner_key)) as [->|Hne].
      * rewrite lookup_insert_eq. intros [= <-]. lia.
      * rewrite lookup_insert_ne by done. apply Ho.
  - by apply owners_total_decr.
  - by apply total_cards_remove_card in Hrm.
Qed.

Lemma flip_target_player s who owner_key n zone :
  flip_target s who = Some (owner_key, Some (n, zone)) -> players s !! n = Some zone.
Proof.
  unfold flip_target. destruct (String.eqb _ _); [done|].
  destruct (get_player_zone s who) as [[m z]|] eqn:Hz; [|done].
  intros [= _ <- <-]. by eapply get_player_zone_Some.
Qed.

Lemma wf_flip_card s who card : wf_state s -> wf_state (snd (flip_card s who card)).
Proof.
  intros Hwf. unfold flip_card.
  destruct (flip_target s who) as [[owner_key target]|] eqn:Ht; [|done].
  destruct (face_down_owners s !! owner_key) as [n|] eqn:Hn; [|done].
  destruct (n =? 0); [done|].
  destruct (remove_card (deck s) (normalize card) 1) as [[] deck1] eqn:Hrm; simpl.
  - destruct (flip_bookkeeping _ _ _ _ _ Hwf Hn Hrm)
      as (Hfd1 & Htfd & Ho2 & Hto & Hr & Hd1 & Htd).
    destruct Hwf as [Hd Hh Hp Hdis Hfd Ho Hot Hnum Hnext Hk].
    destruct target as [[m zone]|]; simpl.
    + apply flip_target_player in Ht.
      split; simpl; try done.
      * intros j z. destruct (decide (j = m)) as [->|Hne].
        -- rewrite lookup_insert_eq. intros [= <-].
           apply zone_holds_add_card; [by eapply Hp|done|lia].
        -- rewrite lookup_insert_ne by done. apply Hp.
      * lia.
      * intros j. destruct (decide (j = m)) as [->|Hne].
        -- intros _. apply Hnum. eauto.
        -- rewrite lookup_insert_ne by done. apply Hnum.
      * rewrite (players_total_insert _ _ zone) by done.
        rewrite total_cards_add_card. lia.
    + split; simpl; try done.
      * apply zone_holds_add_card; [done..|lia].
      * lia.
      * rewrite total_cards_add_card. lia.
  - apply remove_card_failure in Hrm as [_ ->]. by apply wf_deck_touched.
Qed.

(** ** Clearing and shuffling *)

Lemma FACEDOWN_not_rank : "FACEDOWN" ∉ RANKS.
Proof.
  unfold RANKS. intros Hk.
  repeat (apply elem_of_cons in Hk as [Hk|Hk]; [discriminate|]).
  by apply elem_of_nil in Hk.
Qed.

Lemma UNKNOWN_not_rank : "UNKNOWN" ∉ RANKS.
Proof.
  unfold RANKS. intros Hk.
  repeat (apply elem_of_cons in Hk as [Hk|Hk]; [discriminate|]).
  by apply elem_of_nil in Hk.
Qed.

(** A hand emptied into the discard pile. *)
Lemma discard_one_hand d zone :
  zone_holds known_or_unknown d -> zone_holds (fun k => k ∈ RANKS) zone ->
  let d' := add_cards d (fst (clear zone)) in
  zone_holds known_or_unknown d' /\
  total_cards d' = total_cards d + total_cards zone /\
  count_of (cards d') "UNKNOWN" = count_of (cards d) "UNKNOWN".
Proof.
  intros Hd Hz d'. subst d'. simpl.
  assert (Forall (fun c => c ∈ RANKS) (get_all_cards zone)) as Hall.
  { apply Forall_forall. intros c Hc.
    apply elem_of_get_all_cards in Hc as (n & Hn & _). by apply Hz in Hn as [_ ?]. }
  split_and!.
  - apply zone_holds_add_cards; [done|].
    eapply Forall_impl; [apply Hall|]. intros c Hc. simpl.
    rewrite normalize_rank by done. by left.
  - rewrite total_cards_add_cards, length_get_all_cards; [done|].
    intros k n Hk. apply Hz in Hk. lia.
  - apply count_of_add_cards_other.
    eapply Forall_impl; [apply Hall|]. intros c Hc. simpl.
    rewrite normalize_rank by done. intros ->. by apply UNKNOWN_not_rank.
Qed.

(** The loop of [clear_hands] over the player table. *)
Lemma discard_hands (l : list (Z * CardZone)) d :
  Forall (fun p => zone_holds (fun k => k ∈ RANKS) (snd p)) l ->
  zone_holds known_or_unknown d ->
  let d' := foldl (fun d '(_, zone) => add_cards d (fst (clear zone))) d l in
  zone_holds known_or_unknown d' /\
  total_cards d' = total_cards d + foldr (fun p acc => acc + total_cards (snd p)) 0 l /\
  count_of (cards d') "UNKNOWN" = count_of (cards d) "UNKNOWN".
Proof.
  intros Hl. revert d. induction Hl as [|[n zone] l Hz Hl IH]; intros d Hd.
  - simpl. split_and!; [done|lia|done].
  - simpl in Hz. destruct (discard_one_hand d zone Hd Hz) as (Hd1 & Ht1 & Hu1).
    destruct (IH _ Hd1) as (Hd2 & Ht2 & Hu2).
    cbn [foldl foldr snd]. split_and!; [done|lia|congruence].
Qed.

Lemma wf_total_face_down_nonneg s : wf_state s -> 0 <= total_cards (face_down s).
Proof.
  intros Hwf. apply (sum_values_nonneg (fun x => x)).
  intros k n Hk. apply (wf_face_down s Hwf) in Hk. lia.
Qed.

Lemma wf_clear_hands s : wf_state s -> wf_state (snd (clear_hands s)).
Proof.
  intros Hwf. pose proof (wf_total_face_down_nonneg s Hwf) as Hfdc.
  destruct Hwf as [Hd Hh Hp Hdis Hfd Ho Hot Hnum Hnext Hk].
  unfold clear_hands.
  destruct (discard_hands (map_to_list (players s)) (discard s)) as (Hd1 & Ht1 & Hu1); [|done|].
  { apply Forall_forall. intros [n z] Hin. apply elem_of_map_to_list in Hin. simpl. eauto. }
  rewrite <- (sum_values_to_list total_cards (players s)) in Ht1.
  fold (players_total (players s)) in Ht1.
  set (discard1 := foldl _ (discard s) _) in *.
  destruct (discard_one_hand discard1 (dealer_hand s) Hd1 Hh) as (Hd2 & Ht2 & Hu2).
  change (fst (clear (dealer_hand s))) with (get_all_cards (dealer_hand s)) in *.
  simpl. set (discard2 := add_cards discard1 (get_all_cards (dealer_hand s))) in *.
  assert (forall n z, (((fun zone => snd (clear zone)) <$> players s) : gmap Z CardZone) !! n = Some z ->
                      cards z = ∅) as Hcleared.
  { intros n z. rewrite lookup_fmap. destruct (players s !! n); simpl; [|done].
    by intros [= <-]. }
  destruct (0 <? total_cards (face_down s)) eqn:Hpos.
  - apply Z.ltb_lt in Hpos. split; simpl.
    + done.
    + apply zone_holds_empty.
    + intros n z Hz k c. rewrite (Hcleared _ _ Hz). by rewrite lookup_empty.
    + apply zone_holds_add_cards; [done|].
      apply Forall_forall. intros c Hc. apply elem_of_replicate in Hc as [-> _]. by right.
    + apply zone_holds_empty.
    + intros k n. by rewrite lookup_empty.
    + by rewrite total_cards_empty.
    + intros n. rewrite lookup_fmap. intros Hn. apply Hnum.
      destruct (players s !! n); [eauto|by destruct Hn].
    + done.
    + rewrite total_cards_empty, players_total_cleared, total_cards_add_cards.
      rewrite length_replicate, count_of_add_cards_replicate by reflexivity.
      rewrite Z2Nat.id by lia. lia.
  - apply Z.ltb_ge in Hpos. split; simpl.
    + done.
    + apply zone_holds_empty.
    + intros n z Hz k c. rewrite (Hcleared _ _ Hz). by rewrite lookup_empty.
    + done.
    + done.
    + intros k n. by rewrite lookup_empty.
    + change (owners_total ∅) with 0. lia.
    + intros n. rewrite lookup_fmap. intros Hn. apply Hnum.
      destruct (players s !! n); [eauto|by destruct Hn].
    + done.
    + rewrite total_cards_empty, players_total_cleared. lia.
Qed.

Lemma cards_deck_shuffle s : cards (deck (snd (shuffle s))) = full_deck.
Proof. reflexivity. Qed.

Lemma wf_shuffle s : wf_state (snd (shuffle s)).
Proof.
  split.
  - intros k n Hk. assert (k ∈ RANKS /\ n = 4) as [Hr ->]; [|split; [lia|done]].
    rewrite cards_deck_shuffle in Hk.
    unfold full_deck in Hk. apply elem_of_list_to_map_2 in Hk.
    apply list_elem_of_fmap in Hk as (r & [= -> ->] & Hr). done.
  - intros k n. simpl. by rewrite lookup_empty.
  - intros n z. simpl. by rewrite lookup_empty.
  - intros k n. simpl. by rewrite lookup_empty.
  - intros k n. simpl. by rewrite lookup_empty.
  - intros k n. simpl. by rewrite lookup_empty.
  - reflexivity.
  - intros n [z Hz]. simpl in Hz. by rewrite lookup_empty in Hz.
  - simpl. lia.
  - reflexivity.
Qed.

Lemma wf_step s o : wf_state s -> wf_state (step s o).
Proof.
  intros Hwf. destruct o; simpl.
  - by apply wf_add_player.
  - by apply wf_deal_card.
  - by apply wf_deal_face_down.
  - by apply wf_flip_card.
  - by apply wf_hit.
  - by apply wf_clear_hands.
  - apply wf_shuffle.
  - done.
Qed.

Lemma reachable_wf s : reachable s -> wf_state s.
Proof. induction 1; [apply wf_new_game_state|by apply wf_step]. Qed.

Lemma reachable_run s ops : reachable s -> reachable (run s ops).
Proof.
  unfold run. revert s. induction ops as [|o ops IH]; intros s Hs; simpl; [done|].
  apply IH. by constructor.
Qed.

Lemma reachable_iff_run s : reachable s <-> exists ops, s = run new_game_state ops.
Proof.
  split.
  - induction 1 as [|s o _ [ops ->]].
    + by exists [].
    + exists (ops ++ [o])%list. unfold run. by rewrite foldl_app.
  - intros [ops ->]. apply reachable_run. constructor.
Qed.

(** ** Conservation of the cards *)

(** A card dealt face down is counted in the face-down zone while the deck
    still counts all its cards: the sum over the zones is 53 after one
    face-down deal from a fresh state. *)
Lemma one_face_down_deal_gives_53 :
  total_in_play (run new_game_state [OpDealFaceDown "dealer"]) = 53 /\
  total_in_play (run new_game_state [OpDealFaceDown "dealer"]) <> 52.
Proof. split; vm_compute; [reflexivity|discriminate]. Qed.

(** What the code does keep after every sequence of operations from a
    fresh state: the cards of known identity (deck, dealer hand, player
    hands, discard without UNKNOWN) sum to 52, so the sum over all the
    zones is 52 plus the face-down units outstanding plus the UNKNOWN units
    of the discard pile. *)
Lemma known_cards_sum_to_52 (ops : list op) :
  let s := run new_game_state ops in
  total_cards (deck s) + total_cards (dealer_hand s) + total_cards (discard s)
  + total_cards (face_down s) + players_total (players s)
  = 52 + total_cards (face_down s) + count_of (cards (discard s)) "UNKNOWN"
  /\
  total_cards (deck s) + total_cards (dealer_hand s) + players_total (players s)
  + (total_cards (discard s) - count_of (cards (discard s)) "UNKNOWN") = 52.
Proof.
  intros s.
  assert (wf_state s) as Hwf by (apply reachable_wf, reachable_run; constructor).
  clearbody s. pose proof (wf_known s Hwf). split; [lia|done].
Qed.

(** Without face-down cards on the table or cleared unflipped, the sum
    printed by the status line is 52. *)
Lemma total_in_play_52 s :
  reachable s -> total_cards (face_down s) = 0 ->
  count_of (cards (discard s)) "UNKNOWN" = 0 -> total_in_play s = 52.
Proof.
  intros Hr Hfd Hu. pose proof (wf_known s (reachable_wf s Hr)).
  unfold total_in_play. lia.
Qed.

(** ** Shuffle *)

Lemma full_deck_lookup r : r ∈ RANKS -> full_deck !! r = Some 4.
Proof.
  unfold RANKS. intros Hr.
  repeat (apply elem_of_cons in Hr as [->|Hr]; [vm_compute; reflexivity|]).
  by apply elem_of_nil in Hr.
Qed.

Lemma full_deck_keys k : is_Some (full_deck !! k) -> k ∈ RANKS.
Proof.
  intros [n Hk]. unfold full_deck in Hk. apply elem_of_list_to_map_2 in Hk.
  apply list_elem_of_fmap in Hk as (r & [= -> ->] & Hr). done.
Qed.

(** C7: after [shuffle] the deck holds exactly 4 of each of the 13 ranks,
    the dealer hand, the discard pile and the face-down zone are empty,
    no face-down owner and no player is left, and the next player number
    is 1.  This holds from every state, reachable or not. *)
Theorem shuffle_restores_full_deck (s : GameState) :
  cards (deck (snd (shuffle s))) = full_deck /\
  (forall r, r ∈ RANKS -> cards (deck (snd (shuffle s))) !! r = Some 4) /\
  (forall k, is_Some (cards (deck (snd (shuffle s))) !! k) -> k ∈ RANKS) /\
  total_cards (deck (snd (shuffle s))) = 52 /\
  cards (dealer_hand (snd (shuffle s))) = ∅ /\
  cards (discard (snd (shuffle s))) = ∅ /\
  cards (face_down (snd (shuffle s))) = ∅ /\
  face_down_owners (snd (shuffle s)) = ∅ /\
  players (snd (shuffle s)) = ∅ /\
  next_player_number (snd (shuffle s)) = 1.
Proof.
  rewrite cards_deck_shuffle. split_and!; try reflexivity.
  - apply full_deck_lookup.
  - apply full_deck_keys.
Qed.

(** ** The face-down ledger *)

Lemma deal_face_down_success s to_zone :
  is_failure (fst (deal_face_down s to_zone)) = false ->
  exists owner_key,
    snd (deal_face_down s to_zone)
    = set_face_down_owners (set_face_down s (add_card (face_down s) "FACEDOWN" 1))
                           (owner_incr owner_key (face_down_owners s)).
Proof.
  unfold deal_face_down. destruct (_ =? 0); [done|].
  destruct (String.eqb _ _); [by eexists|].
  destruct (get_player_zone s to_zone) as [[n zone]|]; [|done].
  destruct (n =? 0); [done|]. by eexists.
Qed.

Lemma flip_card_success s who card :
  is_failure (fst (flip_card s who card)) = false ->
  exists owner_key target n deck1,
    flip_target s who = Some (owner_key, target) /\
    face_down_owners s !! owner_key = Some n /\
    remove_card (deck s) (normalize card) 1 = (true, deck1) /\
    snd (flip_card s who card)
    = add_to_target
        (set_face_down_owners
           (set_face_down (set_deck s deck1) (snd (remove_card (face_down s) "FACEDOWN" 1)))
           (if n - 1 =? 0 then delete owner_key (<[owner_key := n - 1]> (face_down_owners s))
            else <[owner_key := n - 1]> (face_down_owners s)))
        target (normalize card).
Proof.
  unfold flip_card.
  destruct (flip_target s who) as [[owner_key target]|] eqn:Ht; [|done].
  destruct (face_down_owners s !! owner_key) as [n|] eqn:Hn; [|done].
  destruct (n =? 0); [done|].
  destruct (remove_card (deck s) (normalize card) 1) as [[] deck1] eqn:Hrm; [|done].
  intros _. by exists owner_key, target, n, deck1.
Qed.

Lemma face_down_add_to_target s target card :
  face_down (add_to_target s target card) = face_down s /\
  face_down_owners (add_to_target s target card) = face_down_owners s.
Proof. by destruct target as [[n z]|]. Qed.

(** ** The hand total *)

Lemma RANKS_labels : RANKS = rank_label <$> all_ranks.
Proof. reflexivity. Qed.

Lemma rank_of_label k : k ∈ RANKS -> exists r, k = rank_label r.
Proof.
  rewrite RANKS_labels. intros Hk. apply list_elem_of_fmap in Hk as (r & -> & _). eauto.
Qed.

Lemma ranks_of_labels l : Forall (fun k => k ∈ RANKS) l -> exists rs, l = rank_label <$> rs.
Proof.
  induction 1 as [|k l Hk _ [rs ->]].
  - by exists [].
  - apply rank_of_label in Hk as [r ->]. by exists (r :: rs).
Qed.

(** One turn of the loop on a rank label. *)
Lemma hand_loop_rank r rest total aces :
  hand_loop (rank_label r :: rest) total aces
  = hand_loop rest (total + spec_points r) (if spec_is_ace r then S aces else aces).
Proof. by destruct r. Qed.

Lemma hand_loop_ranks rs total aces :
  hand_loop (rank_label <$> rs) total aces
  = Some (total + spec_provisional rs, (aces + spec_aces rs)%nat).
Proof.
  revert total aces. induction rs as [|r rs IH]; intros total aces.
  - simpl. do 2 f_equal; [unfold spec_provisional; simpl|unfold spec_aces; simpl]; lia.
  - rewrite fmap_cons, hand_loop_rank, IH. unfold spec_provisional, spec_aces.
    rewrite fmap_cons, filter_cons. simpl foldr.
    destruct r; simpl; do 2 f_equal; lia.
Qed.

Lemma adjust_aces_demote aces total : adjust_aces aces total = spec_demote aces total.
Proof.
  revert total. induction aces as [|n IH]; intros total; simpl; [done|].
  rewrite IH. destruct (21 <? total) eqn:Hlt; case_decide; try done.
  - apply Z.ltb_lt in Hlt. lia.
  - apply Z.ltb_ge in Hlt. lia.
Qed.

(** The loop in closed form: the number of demoted aces is the number
    needed to reach 21 or less, capped by the number of aces. *)
Lemma adjust_aces_closed aces total :
  adjust_aces aces total
  = total - 10 * Z.min (Z.of_nat aces) (Z.max 0 ((total - 12) / 10)).
Proof.
  revert total. induction aces as [|n IH]; intros total.
  - simpl. assert (0 <= Z.max 0 ((total - 12) / 10)) by lia. lia.
  - cbn [adjust_aces]. destruct (21 <? total) eqn:Hlt.
    + apply Z.ltb_lt in Hlt. rewrite IH.
      assert ((total - 12) / 10 = (total - 10 - 12) / 10 + 1) as Hq.
      { replace (total - 12) with ((total - 10 - 12) + 1 * 10) by lia.
        by rewrite Z.div_add by lia. }
      assert (0 <= (total - 10 - 12) / 10) by (apply Z.div_pos; lia).
      rewrite Hq. lia.
    + apply Z.ltb_ge in Hlt.
      assert ((total - 12) / 10 <= 0).
      { assert ((total - 12) / 10 < 1); [|lia]. apply Z.div_lt_upper_bound; lia. }
      lia.
Qed.

(** The total of a hand of rank labels never exceeds 21 by a soft ace: it
    is above 21 only when every ace already counts 1. *)
Lemma adjust_aces_bust aces total :
  21 < adjust_aces aces total -> adjust_aces aces total = total - 10 * Z.of_nat aces.
Proof.
  revert total. induction aces as [|n IH]; intros total; cbn [adjust_aces]; [lia|].
  destruct (21 <? total) eqn:Hlt.
  - intros Hb. rewrite IH by done. lia.
  - apply Z.ltb_ge in Hlt. lia.
Qed.

(** C4: on every list of rank labels [calculate_hand_total] returns the
    total worded in the specification (10 for J, Q, K, the face value of a
    numeral, 11 for an ace, then 10 taken off per ace while the total
    exceeds 21 and an ace still counts 11); the totals of A,A,9 / K,Q /
    A,9,5 / 10,10,5 are 21, 20, 15 and 25. *)
Theorem hand_total_matches_spec :
  (forall rs : list rank,
     calculate_hand_total (rank_label <$> rs) = Some (spec_hand_total rs)) /\
  calculate_hand_total ["A"; "A"; "9"] = Some 21 /\
  calculate_hand_total ["K"; "Q"] = Some 20 /\
  calculate_hand_total ["A"; "9"; "5"] = Some 15 /\
  calculate_hand_total ["10"; "10"; "5"] = Some 25.
Proof.
  split_and!; [|vm_compute; reflexivity..].
  intros rs. unfold calculate_hand_total, spec_hand_total.
  rewrite hand_loop_ranks, adjust_aces_demote. simpl. do 2 f_equal.
Qed.

Lemma calculate_hand_total_ranks l :
  Forall (fun k => k ∈ RANKS) l -> is_Some (calculate_hand_total l).
Proof.
  intros Hl. apply ranks_of_labels in Hl as [rs ->].
  unfold calculate_hand_total. rewrite hand_loop_ranks. eauto.
Qed.

(** ** Hands hold rank labels only *)

Lemma zone_holds_all_cards (P : string -> Prop) z :
  zone_holds P z -> Forall P (get_all_cards z).
Proof.
  intros Hz. apply Forall_forall. intros c Hc.
  apply elem_of_get_all_cards in Hc as (n & Hn & _). by apply Hz in Hn as [_ ?].
Qed.

Lemma get_hand_cards_ranks s who :
  wf_state s -> Forall (fun k => k ∈ RANKS) (get_hand_cards s who).
Proof.
  intros Hwf. unfold get_hand_cards. destruct (String.eqb _ _).
  - apply zone_holds_all_cards, (wf_dealer s Hwf).
  - destruct (get_player_zone s who) as [[n zone]|] eqn:Hz; [|constructor].
    apply zone_holds_all_cards, (wf_players s Hwf n). by eapply get_player_zone_Some.
Qed.

(** C10: in every reachable state the dealer hand and every player hand
    hold labels of the 13 ranks only (so neither FACEDOWN nor UNKNOWN), and
    [calculate_hand_total] returns a total on each of these hands: no
    [int] conversion fails. *)
Theorem reachable_hands_hold_ranks (s : GameState) :
  reachable s ->
  (forall k, is_Some (cards (dealer_hand s) !! k) -> k ∈ RANKS) /\
  (forall n zone k, players s !! n = Some zone -> is_Some (cards zone !! k) -> k ∈ RANKS) /\
  is_Some (calculate_hand_total (get_all_cards (dealer_hand s))) /\
  (forall n zone, players s !! n = Some zone ->
                  is_Some (calculate_hand_total (get_all_cards zone))) /\
  (forall who, is_Some (calculate_hand_total (get_hand_cards s who))) /\
  (cards (dealer_hand s) !! "FACEDOWN" = None /\ cards (dealer_hand s) !! "UNKNOWN" = None) /\
  (forall n zone, players s !! n = Some zone ->
                  cards zone !! "FACEDOWN" = None /\ cards zone !! "UNKNOWN" = None).
Proof.
  intros Hr. pose proof (reachable_wf s Hr) as Hwf.
  assert (forall zone, zone_holds (fun k => k ∈ RANKS) zone ->
                       cards zone !! "FACEDOWN" = None /\ cards zone !! "UNKNOWN" = None)
    as Hsentinel.
  { intros zone Hz. split.
    - destruct (cards zone !! "FACEDOWN") eqn:Hk; [|done].
      apply Hz in Hk as [_ Hk]. by apply FACEDOWN_not_rank in Hk.
    - destruct (cards zone !! "UNKNOWN") eqn:Hk; [|done].
      apply Hz in Hk as [_ Hk]. by apply UNKNOWN_not_rank in Hk. }
  split_and!;
    [| | | | |by destruct (Hsentinel _ (wf_dealer s Hwf))
     |by destruct (Hsentinel _ (wf_dealer s Hwf))
     |intros n zone Hz; apply Hsentinel, (wf_players s Hwf n zone Hz)].
  - intros k [n Hk]. by apply (wf_dealer s Hwf) in Hk as [_ ?].
  - intros n zone k Hz [c Hk]. by apply (wf_players s Hwf n zone Hz) in Hk as [_ ?].
  - apply calculate_hand_total_ranks, zone_holds_all_cards, (wf_dealer s Hwf).
  - intros n zone Hz.
    apply calculate_hand_total_ranks, zone_holds_all_cards, (wf_players s Hwf n zone Hz).
  - intros who. by apply calculate_hand_total_ranks, get_hand_cards_ranks.
Qed.

(** A table with one player holding an ace and the dealer holding a king. *)
Lemma reachable_hands_hold_ranks_witness :
  reachable (run new_game_state [OpAddPlayer; OpDeal "A" "Player 1"; OpDeal "K" "Dealer"]) /\
  is_Some (calculate_hand_total
             (get_all_cards
                (dealer_hand
                   (run new_game_state
                        [OpAddPlayer; OpDeal "A" "Player 1"; OpDeal "K" "Dealer"])))).
Proof.
  assert (reachable (run new_game_state
                         [OpAddPlayer; OpDeal "A" "Player 1"; OpDeal "K" "Dealer"])) as Hr
    by apply reachable_run, reachable_new.
  split; [exact Hr|].
  exact (proj1 (proj2 (proj2 (reachable_hands_hold_ranks _ Hr)))).
Defined.

(** ** Compensation on an invalid target *)

(** C6: when the card is removed from the deck and the target is neither
    the dealer nor an existing player, [deal_card] and [hit] put the card
    back before they report the invalid target: the deck, and with it the
    whole state, is the one before the call. *)
Theorem invalid_target_restores_deck (s : GameState) (card target : string) :
  fst (remove_card (deck s) (normalize card) 1) = true ->
  PyStr.lower target <> "dealer" ->
  get_player_zone s target = None ->
  deal_card s card target = (InvalidZone target, s) /\
  hit s card target = (InvalidTarget target, s) /\
  cards (deck (snd (deal_card s card target))) = cards (deck s) /\
  cards (deck (snd (hit s card target))) = cards (deck s).
Proof.
  intros Hrm Hd Hp.
  assert (deal_card s card target = (InvalidZone target, s)) as Hdeal.
  { unfold deal_card.
    destruct (remove_card (deck s) (normalize card) 1) as [ok deck1] eqn:Heq.
    simpl in Hrm. subst ok. simpl.
    destruct (String.eqb_spec (PyStr.lower target) "dealer") as [|_]; [done|].
    change (get_player_zone (set_deck s deck1) target) with (get_player_zone s target).
    rewrite Hp. simpl. by rewrite deck_put_back. }
  assert (hit s card target = (InvalidTarget target, s)) as Hhit.
  { unfold hit.
    destruct (remove_card (deck s) (normalize card) 1) as [ok deck1] eqn:Heq.
    simpl in Hrm. subst ok. simpl.
    destruct (String.eqb_spec (PyStr.lower target) "dealer") as [|_]; [done|].
    change (get_player_zone (set_deck s deck1) target) with (get_player_zone s target).
    rewrite Hp. simpl. by rewrite deck_put_back. }
  rewrite Hdeal, Hhit. done.
Qed.

(** The last king of a deck dealt to a seat that does not exist. *)
Lemma invalid_target_restores_deck_witness :
  deal_card (run new_game_state [OpDeal "K" "dealer"; OpDeal "K" "dealer"; OpDeal "K" "dealer"])
            "k" "Player 3"
  = (InvalidZone "Player 3",
     run new_game_state [OpDeal "K" "dealer"; OpDeal "K" "dealer"; OpDeal "K" "dealer"]).
Proof.
  apply (invalid_target_restores_deck
           (run new_game_state [OpDeal "K" "dealer"; OpDeal "K" "dealer"; OpDeal "K" "dealer"])
           "k" "Player 3").
  - vm_compute. reflexivity.
  - vm_compute. discriminate.
  - vm_compute. reflexivity.
Defined.

(** ** Serialization round trip *)

Lemma zone_round_trip z : zone_from_dict (zone_to_dict z) = z.
Proof. by destruct z. Qed.

Lemma foldl_insert_reverse {A} (l : list (Z * A)) :
  foldl (fun (m : gmap Z A) p => <[fst p := snd p]> m) ∅ l = list_to_map (reverse l).
Proof.
  induction l as [|p l IH] using rev_ind; [done|].
  by rewrite foldl_app, reverse_app, IH.
Qed.

Lemma foldl_insert_map_to_list {A} (m : gmap Z A) :
  foldl (fun (acc : gmap Z A) p => <[fst p := snd p]> acc) ∅ (map_to_list m) = m.
Proof.
  rewrite foldl_insert_reverse.
  rewrite <- (list_to_map_to_list m) at 2.
  apply list_to_map_proper.
  - rewrite fmap_reverse, reverse_Permutation. apply NoDup_fst_map_to_list.
  - apply reverse_Permutation.
Qed.

(** The comprehension of [from_dict] on keys that are integers. *)
Lemma players_from_dict_int_keys (l : list (Z * CardZone)) (acc : gmap Z CardZone) :
  foldl (fun acc '(num, zone_data) =>
           match acc, key_int num with
           | Some m, Some n => Some (<[n := zone_from_dict zone_data]> m)
           | _, _ => None
           end)
        (Some acc) ((fun '(num, zone) => (IntKey num, zone_to_dict zone)) <$> l)
  = Some (foldl (fun (m : gmap Z CardZone) p => <[fst p := snd p]> m) acc l).
Proof.
  revert acc. induction l as [|[n z] l IH]; intros acc; [done|].
  rewrite fmap_cons. cbn [foldl key_int fst snd]. by rewrite zone_round_trip, IH.
Qed.

(** C8: [from_dict] applied to the record of [to_dict] returns the state
    it was made from: deck, dealer hand, discard pile, face-down zone,
    face-down owners, player table and next player number are the same.
    This holds for every state, reachable or not.  Equality is equality of
    contents (zone names and mappings, owner counts, player numbers): the
    classes of the source define no comparison of their own. *)
Theorem from_dict_to_dict (s : GameState) : from_dict (to_dict s) = Some s.
Proof.
  unfold from_dict, to_dict, players_from_dict. cbn [sd_players].
  rewrite players_from_dict_int_keys, foldl_insert_map_to_list.
  cbn. rewrite !zone_round_trip. by destruct s.
Qed.

(** ** Zero entries left by a failed removal *)

Lemma add_card_no_zero_entry z card count :
  no_zero_entry z -> 0 < count -> no_zero_entry (add_card z card count).
Proof.
  intros Hz Hc k n Hk.
  apply (zone_holds_add_card (fun _ => True) z card count) in Hk; [tauto| |done..].
  intros j m Hj. split; [by eapply Hz|done].
Qed.

Lemma remove_card_success_no_zero_entry z card count z' :
  no_zero_entry z -> remove_card z card count = (true, z') -> no_zero_entry z'.
Proof.
  intros Hz Hrm. apply remove_card_success in Hrm as (Hle & _ & Hc).
  intros k n. rewrite Hc. destruct (_ =? 0) eqn:Hz0.
  - intros Hk. apply lookup_delete_Some in Hk as [_ Hk]. by eapply Hz.
  - apply Z.eqb_neq in Hz0. destruct (decide (k = normalize card)) as [->|Hne].
    + rewrite lookup_insert_eq. intros [= <-]. lia.
    + rewrite lookup_insert_ne by done. apply Hz.
Qed.

(** A failed removal leaves the mapping as it was when the label has an
    entry ... *)
Lemma remove_card_failure_present z card count z' :
  remove_card z card count = (false, z') -> is_Some (cards z !! normalize card) -> z' = z.
Proof.
  intros Hrm Hk. apply remove_card_failure in Hrm as [_ ->].
  rewrite touch_present by done. by destruct z.
Qed.

(** ... and adds the entry [card: 0] when it has none. *)
Lemma remove_card_failure_absent z card count z' :
  remove_card z card count = (false, z') -> cards z !! normalize card = None ->
  cards z' = <[normalize card := 0]> (cards z).
Proof.
  intros Hrm Hk. apply remove_card_failure in Hrm as [_ ->].
  simpl. unfold touch. by rewrite Hk.
Qed.

(** Every removal of a positive count of a label without an entry fails
    and leaves the entry [card: 0]. *)
Lemma remove_card_absent z card count :
  cards z !! normalize card = None -> 0 < count ->
  remove_card z card count = (false, with_cards z (<[normalize card := 0]> (cards z))).
Proof.
  intros Hk Hc. rewrite remove_card_eq. unfold count_of, touch. rewrite Hk. simpl.
  destruct (count <=? 0) eqn:Hle; [|done]. apply Z.leb_le in Hle. lia.
Qed.

(** The removals that keep a zone free of zero entries are the successful
    ones and the failed ones on a label that has an entry. *)
Lemma remove_card_no_zero_entry_iff z card count :
  no_zero_entry z ->
  no_zero_entry (snd (remove_card z card count))
  <-> fst (remove_card z card count) = true \/ is_Some (cards z !! normalize card).
Proof.
  intros Hz. destruct (remove_card z card count) as [[] z'] eqn:Hrm; simpl.
  - split; [by left|]. intros _. by eapply remove_card_success_no_zero_entry.
  - split.
    + intros Hz'. right. destruct (cards z !! normalize card) eqn:Hk; [eauto|].
      apply (remove_card_failure_absent _ _ _ _ Hrm) in Hk.
      assert (0 < 0); [|lia]. apply (Hz' (normalize card)).
      rewrite Hk. apply lookup_insert_eq.
    + intros [|Hk]; [done|]. by rewrite (remove_card_failure_present _ _ _ _ Hrm Hk).
Qed.

(** C5 fails on the code: the guard [self.cards[card] >= count] reads a
    [defaultdict], so a removal that fails on a label without an entry
    leaves the entry [card: 0].  On an empty zone, and on the deck after
    its four kings were removed, a failed removal of a king adds ["K": 0]. *)
Theorem failed_remove_leaves_zero_entry :
  remove_card (new_zone "Deck") "K" 1 = (false, mkZone "Deck" {["K" := 0]}) /\
  cards (snd (remove_card (deck new_game_state) "K" 4)) !! "K" = None /\
  fst (remove_card (snd (remove_card (deck new_game_state) "K" 4)) "K" 1) = false /\
  cards (snd (remove_card (snd (remove_card (deck new_game_state) "K" 4)) "K" 1)) !! "K"
  = Some 0.
Proof. split_and!; vm_compute; reflexivity. Qed.

(** ** Failed calls *)

(** The state after a failed removal of [k] from the deck. *)
Lemma touched_deck_cases s k :
  set_deck s (with_cards (deck s) (touch k (cards (deck s)))) = s
  \/ (cards (deck s) !! k = None /\
      set_deck s (with_cards (deck s) (touch k (cards (deck s))))
      = set_deck s (with_cards (deck s) (<[k := 0]> (cards (deck s))))).
Proof.
  unfold touch. destruct (cards (deck s) !! k) eqn:Hk.
  - left. destruct s as [[] ? ? ? ? ? ?]. done.
  - by right.
Qed.

(** A failed [deal_card] leaves every zone, the owners, the players and the
    counter as they were, except that the deck may have received the entry
    [card: 0]. *)
Lemma deal_card_failure s card to_zone :
  is_failure (fst (deal_card s card to_zone)) = true ->
  snd (deal_card s card to_zone)
  = set_deck s (with_cards (deck s)
                           (touch (normalize (normalize card)) (cards (deck s)))).
Proof.
  unfold deal_card.
  destruct (remove_card (deck s) (normalize card) 1) as [[] deck1] eqn:Hrm; simpl.
  - destruct (String.eqb _ _); [done|].
    change (get_player_zone (set_deck s deck1) to_zone) with (get_player_zone s to_zone).
    destruct (get_player_zone s to_zone) as [[n zone]|]; [done|]. intros _. simpl.
    rewrite deck_put_back by done.
    rewrite touch_present by (by eapply remove_card_present). by destruct s as [[] ? ? ? ? ? ?].
  - intros _. by apply remove_card_failure in Hrm as [_ ->].
Qed.

Lemma hit_failure s card who :
  is_failure (fst (hit s card who)) = true ->
  snd (hit s card who)
  = set_deck s (with_cards (deck s)
                           (touch (normalize (normalize card)) (cards (deck s)))).
Proof.
  unfold hit.
  destruct (remove_card (deck s) (normalize card) 1) as [[] deck1] eqn:Hrm; simpl.
  - destruct (String.eqb _ _); [done|].
    change (get_player_zone (set_deck s deck1) who) with (get_player_zone s who).
    destruct (get_player_zone s who) as [[n zone]|]; [done|]. intros _. simpl.
    rewrite deck_put_back by done.
    rewrite touch_present by (by eapply remove_card_present). by destruct s as [[] ? ? ? ? ? ?].
  - intros _. by apply remove_card_failure in Hrm as [_ ->].
Qed.

Lemma flip_card_failure s who card :
  is_failure (fst (flip_card s who card)) = true ->
  snd (flip_card s who card) = s
  \/ snd (flip_card s who card)
     = set_deck s (with_cards (deck s)
                              (touch (normalize (normalize card)) (cards (deck s)))).
Proof.
  unfold flip_card.
  destruct (flip_target s who) as [[owner_key target]|]; [|by left].
  destruct (face_down_owners s !! owner_key) as [n|]; [|by left].
  destruct (n =? 0); [by left|].
  destruct (remove_card (deck s) (normalize card) 1) as [[] deck1] eqn:Hrm; simpl.
  - done.
  - intros _. right. by apply remove_card_failure in Hrm as [_ ->].
Qed.

(** A failure that is not "card not available" leaves the state as it
    was. *)
Lemma failure_other_than_unavailable s card target :
  (forall c, fst (deal_card s card target) = InvalidZone c -> snd (deal_card s card target) = s) /\
  (forall c, fst (hit s card target) = InvalidTarget c -> snd (hit s card target) = s) /\
  (forall c, fst (flip_card s target card) = InvalidTarget c -> snd (flip_card s target card) = s) /\
  (forall c, fst (flip_card s target card) = NoFaceDownCard c -> snd (flip_card s target card) = s).
Proof.
  split_and!; intros c.
  - unfold deal_card.
    destruct (remove_card (deck s) (normalize card) 1) as [[] deck1] eqn:Hrm; simpl; [|done].
    destruct (String.eqb _ _); [done|].
    change (get_player_zone (set_deck s deck1) target) with (get_player_zone s target).
    destruct (get_player_zone s target) as [[n zone]|]; [done|]. intros _. simpl.
    by rewrite deck_put_back.
  - unfold hit.
    destruct (remove_card (deck s) (normalize card) 1) as [[] deck1] eqn:Hrm; simpl; [|done].
    destruct (String.eqb _ _); [done|].
    change (get_player_zone (set_deck s deck1) target) with (get_player_zone s target).
    destruct (get_player_zone s target) as [[n zone]|]; [done|]. intros _. simpl.
    by rewrite deck_put_back.
  - unfold flip_card.
    destruct (flip_target s target) as [[owner_key tz]|]; [|done].
    destruct (face_down_owners s !! owner_key) as [n|]; [|done].
    destruct (n =? 0); [done|].
    by destruct (remove_card (deck s) (normalize card) 1) as [[] deck1].
  - unfold flip_card.
    destruct (flip_target s target) as [[owner_key tz]|]; [|done].
    destruct (face_down_owners s !! owner_key) as [n|]; [|done].
    destruct (n =? 0); [done|].
    by destruct (remove_card (deck s) (normalize card) 1) as [[] deck1].
Qed.

(** C2 fails on the code: after the four kings were dealt, a fifth
    [deal_card], a [hit] or a [flip_card] of a king reports that the card
    is not available and leaves the entry ["K": 0] in the deck mapping,
    which had no entry for ["K"] before the call. *)
Theorem failed_call_changes_deck :
  cards (deck kings_dealt) !! "K" = None /\
  (fst (deal_card kings_dealt "K" "dealer") = CardNotAvailable "K" /\
   cards (deck (snd (deal_card kings_dealt "K" "dealer"))) !! "K" = Some 0) /\
  (fst (hit kings_dealt "K" "dealer") = HitNotAvailable "K" 48 /\
   cards (deck (snd (hit kings_dealt "K" "dealer"))) !! "K" = Some 0) /\
  (fst (flip_card kings_dealt "dealer" "K") = CardNotAvailable "K" /\
   cards (deck (snd (flip_card kings_dealt "dealer" "K"))) !! "K" = Some 0) /\
  snd (deal_card kings_dealt "K" "dealer") <> kings_dealt /\
  snd (hit kings_dealt "K" "dealer") <> kings_dealt /\
  snd (flip_card kings_dealt "dealer" "K") <> kings_dealt.
Proof.
  split_and!; try (vm_compute; reflexivity);
    intros Heq; apply (f_equal (fun s => cards (deck s) !! "K")) in Heq;
    vm_compute in Heq; discriminate.
Qed.

(** ** The probability query *)

(** One turn of the loop adds the count of the label to exactly one
    counter. *)
Lemma classify_one hand threshold g l e item b :
  classify hand threshold (Some (g, l, e)) item = Some b ->
  exists new_total,
    calculate_hand_total (hand ++ [fst item]) = Some new_total /\
    ((threshold < new_total /\ b = (g + snd item, l, e)) \/
     (new_total < threshold /\ b = (g, l + snd item, e)) \/
     (new_total = threshold /\ b = (g, l, e + snd item))).
Proof.
  unfold classify. destruct (calculate_hand_total _) as [t|]; [|done].
  intros Hb. exists t. split; [done|].
  destruct (threshold <? t) eqn:H1; [apply Z.ltb_lt in H1|apply Z.ltb_ge in H1].
  - left. split; [done|congruence].
  - destruct (t <? threshold) eqn:H2; [apply Z.ltb_lt in H2|apply Z.ltb_ge in H2].
    + right; left. split; [done|congruence].
    + right; right. split; [lia|congruence].
Qed.

Lemma classify_None hand threshold items :
  foldl (classify hand threshold) None items = None.
Proof. by induction items. Qed.

(** The three counters add up to the counts that the loop went through. *)
Lemma classify_sum hand threshold items g l e g' l' e' :
  foldl (classify hand threshold) (Some (g, l, e)) items = Some (g', l', e') ->
  g' + l' + e' = g + l + e + foldr (fun p acc => acc + snd p) 0 items.
Proof.
  revert g l e. induction items as [|item items IH]; intros g l e; cbn [foldl foldr].
  - intros [= -> -> ->]. lia.
  - destruct (classify hand threshold (Some (g, l, e)) item) as [[[g1 l1] e1]|] eqn:Hc.
    + intros Hf. apply IH in Hf.
      apply classify_one in Hc as (t & _ & [[_ Hb]|[[_ Hb]|[_ Hb]]]); simplify_eq; lia.
    + by rewrite classify_None.
Qed.

(** The loop ends with counters when every hypothetical hand has a total. *)
Lemma classify_defined hand threshold items b :
  Forall (fun p => is_Some (calculate_hand_total (hand ++ [fst p]))) items ->
  is_Some (foldl (classify hand threshold) (Some b) items).
Proof.
  intros Hall. revert b.
  induction Hall as [|item items [t Ht] _ IH]; intros [[g l] e]; cbn [foldl].
  - eauto.
  - unfold classify at 2. rewrite Ht. destruct (threshold <? t); [apply IH|]. destruct (t <? threshold); apply IH.
Qed.

(** What a returned distribution says. *)
Lemma probability_distribution s who threshold ct th ta g l e :
  calculate_probability_after_hit s who threshold = Some (Distribution ct th ta g l e) ->
  get_hand_cards s who <> [] /\
  calculate_hand_total (get_hand_cards s who) = Some ct /\
  th = threshold /\ ta = total_cards (deck s) /\ ta <> 0 /\
  g + l + e = ta.
Proof.
  unfold calculate_probability_after_hit.
  destruct (get_hand_cards s who) as [|c hand] eqn:Hh; [done|].
  destruct (calculate_hand_total (c :: hand)) as [ct'|]; [|done].
  fold (total_cards (deck s)).
  destruct (total_cards (deck s) =? 0) eqn:Hz; [done|]. apply Z.eqb_neq in Hz.
  destruct (foldl _ _ _) as [[[g' l'] e']|] eqn:Hf; [|done].
  intros Heq. simplify_eq. split_and!; try done.
  apply classify_sum in Hf. rewrite Hf.
  unfold total_cards. rewrite (sum_values_to_list (fun x => x)). lia.
Qed.

(** The two reported failures. *)
Lemma probability_failures s who threshold :
  (calculate_probability_after_hit s who threshold = Some (NoCardsInHand who)
   <-> get_hand_cards s who = []) /\
  (calculate_probability_after_hit s who threshold = Some NoCardsToDraw
   <-> get_hand_cards s who <> [] /\
       is_Some (calculate_hand_total (get_hand_cards s who)) /\
       total_cards (deck s) = 0).
Proof.
  unfold calculate_probability_after_hit. fold (total_cards (deck s)).
  destruct (get_hand_cards s who) as [|c hand] eqn:Hh.
  - split; [done|]. split; [done|]. by intros [? _].
  - destruct (calculate_hand_total (c :: hand)) as [ct|].
    + destruct (total_cards (deck s) =? 0) eqn:Hz;
        [apply Z.eqb_eq in Hz|apply Z.eqb_neq in Hz].
      * split; [done|]. split; [|done]. intros _. split_and!; eauto.
      * destruct (foldl _ _ _) as [[[g l] e]|]; (split; [done|]);
          (split; [done|]); by intros (_ & _ & ?).
    + split; [done|]. split; [done|]. by intros (_ & [? ?] & _).
Qed.

(** The query never changes the state: it is a function of the state, and
    [step] returns the state it was given. *)
Lemma probability_reads_only s who threshold : step s (OpProbability who threshold) = s.
Proof. reflexivity. Qed.

(** A hand of rank labels extended by one rank label has a total. *)
Lemma hand_total_extended hand k :
  Forall (fun c => c ∈ RANKS) hand -> k ∈ RANKS ->
  is_Some (calculate_hand_total (hand ++ [k])).
Proof.
  intros Hh Hk. apply calculate_hand_total_ranks, Forall_app. split; [done|].
  by apply Forall_singleton.
Qed.

(** On a reachable state whose deck has no key left by a failed removal,
    the query returns a distribution whenever the hand is not empty and
    the deck holds a card, and the three counters add up to the deck. *)
Lemma probability_on_clean_deck s who threshold :
  reachable s -> deck_keys_are_ranks s ->
  get_hand_cards s who <> [] -> total_cards (deck s) <> 0 ->
  exists ct g l e,
    calculate_probability_after_hit s who threshold
    = Some (Distribution ct threshold (total_cards (deck s)) g l e) /\
    g + l + e = total_cards (deck s).
Proof.
  intros Hr Hclean Hh Ht. pose proof (reachable_wf s Hr) as Hwf.
  pose proof (get_hand_cards_ranks s who Hwf) as Hranks.
  destruct (calculate_hand_total_ranks _ Hranks) as [ct Hct].
  assert (is_Some (foldl (classify (get_hand_cards s who) threshold) (Some (0, 0, 0))
                         (map_to_list (cards (deck s))))) as [[[g l] e] Hf].
  { apply classify_defined, Forall_forall. intros [k n] Hin.
    apply elem_of_map_to_list in Hin. simpl.
    apply hand_total_extended; [done|]. apply Hclean. eauto. }
  assert (calculate_probability_after_hit s who threshold
          = Some (Distribution ct threshold (total_cards (deck s)) g l e)) as Heq.
  { unfold calculate_probability_after_hit. fold (total_cards (deck s)).
    destruct (get_hand_cards s who) as [|c hand]; [done|].
    rewrite Hct. apply Z.eqb_neq in Ht. by rewrite Ht, Hf. }
  exists ct, g, l, e. split; [done|].
  by apply probability_distribution in Heq as (_ & _ & _ & _ & _ & ?).
Qed.

(** C3 fails on the code: once a failed removal has left a key that is no
    rank in the deck mapping (here ["ACE": 0], after the request to deal an
    "Ace"), the loop over the deck asks for the total of a hand with that
    label and [int] raises.  The dealer holds a king and the deck 51 cards,
    yet the query returns no distribution; before the refused deal it
    returned one. *)
Theorem probability_raises_after_failed_deal :
  get_hand_cards ace_refused "dealer" = ["K"] /\
  total_cards (deck ace_refused) = 51 /\
  cards (deck ace_refused) !! "ACE" = Some 0 /\
  calculate_hand_total ["K"; "ACE"] = None /\
  calculate_probability_after_hit ace_refused "dealer" 21 = None /\
  calculate_probability_after_hit (run new_game_state [OpDeal "K" "dealer"]) "dealer" 21
  = Some (Distribution 10 21 51 0 47 4).
Proof. split_and!; vm_compute; reflexivity. Qed.

(** ** The order of a dictionary does not matter *)

Lemma hand_loop_cons card rest total aces :
  hand_loop (card :: rest) total aces
  = match card_step card with
    | Some (v, b) => hand_loop rest (total + v) (b + aces)
    | None => None
    end.
Proof.
  cbn [hand_loop]. unfold card_step.
  destruct (bool_decide _); [done|]. destruct (String.eqb _ _); [done|].
  by destruct (PyStr.int _).
Qed.

Lemma foldl_Permutation {A B} (f : A -> B -> A) (l l' : list B) :
  (forall a x y, f (f a x) y = f (f a y) x) ->
  l ≡ₚ l' -> forall a, foldl f a l = foldl f a l'.
Proof.
  intros Hf. induction 1 as [|x l l' _ IH|x y l|l1 l2 l3 _ IH1 _ IH2]; intros a; simpl.
  - done.
  - apply IH.
  - by rewrite Hf.
  - by rewrite IH1.
Qed.

(** The loop of [calculate_hand_total] as a fold. *)
Lemma hand_loop_fold cards total aces :
  hand_loop cards total aces
  = foldl (fun acc card =>
             match acc, card_step card with
             | Some (t, a), Some (v, b) => Some (t + v, (b + a)%nat)
             | _, _ => None
             end)
          (Some (total, aces)) cards.
Proof.
  revert total aces. induction cards as [|card rest IH]; intros total aces; [done|].
  rewrite hand_loop_cons. cbn [foldl]. destruct (card_step card) as [[v b]|]; [apply IH|].
  clear. by induction rest.
Qed.

(** The total of a hand is the same in whatever order the zone lists its
    cards. *)
Lemma calculate_hand_total_Permutation l l' :
  l ≡ₚ l' -> calculate_hand_total l = calculate_hand_total l'.
Proof.
  intros Hp. unfold calculate_hand_total. rewrite !hand_loop_fold.
  rewrite (foldl_Permutation _ l l'); [done| |done].
  intros [[t a]|] x y; [|done].
  destruct (card_step x) as [[vx bx]|], (card_step y) as [[vy by_]|]; try done.
  do 2 f_equal; lia.
Qed.

(** The counters of the probability query are the same in whatever order
    the deck lists its labels. *)
Lemma classify_Permutation hand threshold items items' acc :
  items ≡ₚ items' ->
  foldl (classify hand threshold) acc items = foldl (classify hand threshold) acc items'.
Proof.
  intros Hp. apply foldl_Permutation; [|done].
  intros [[[g l] e]|] x y; [|done]. unfold classify.
  assert (forall a b c a' b' c' : Z,
            a = a' -> b = b' -> c = c' -> Some (a, b, c) = Some (a', b', c')) as Heq
    by (by intros; subst).
  destruct (calculate_hand_total (hand ++ [fst x])) as [tx|],
           (calculate_hand_total (hand ++ [fst y])) as [ty|];
    repeat match goal with
           | |- context [if ?b then _ else _] => destruct b
           end;
    try done; apply Heq; lia.
Qed.

(** The zone that receives a list of cards is the same in whatever order
    they come. *)
Lemma add_cards_Permutation z l l' : l ≡ₚ l' -> add_cards z l = add_cards z l'.
Proof.
  intros Hp. apply foldl_Permutation; [|done].
  intros a x y. unfold add_card, with_cards. simpl. f_equal.
  destruct (decide (normalize x = normalize y)) as [->|Hne].
  - by rewrite !insert_insert_eq, !count_of_insert.
  - rewrite !count_of_insert, !decide_False by done.
    by rewrite insert_insert_ne.
Qed.

(** ** Normalizing a label *)

Lemma is_space_upper_char c : PyStr.is_space (PyStr.upper_char c) = PyStr.is_space c.
Proof. by destruct c as [[] [] [] [] [] [] [] []]. Qed.

Lemma upper_char_idem c : PyStr.upper_char (PyStr.upper_char c) = PyStr.upper_char c.
Proof. by destruct c as [[] [] [] [] [] [] [] []]. Qed.

Lemma upper_idem s : PyStr.upper (PyStr.upper s) = PyStr.upper s.
Proof.
  unfold PyStr.upper. induction s as [|c r IH]; simpl; [done|].
  by rewrite upper_char_idem, IH.
Qed.

Lemma upper_lstrip s : PyStr.upper (PyStr.lstrip s) = PyStr.lstrip (PyStr.upper s).
Proof.
  unfold PyStr.upper. induction s as [|c r IH]; simpl; [done|].
  rewrite is_space_upper_char. by destruct (PyStr.is_space c).
Qed.

Lemma upper_rstrip s : PyStr.upper (PyStr.rstrip s) = PyStr.rstrip (PyStr.upper s).
Proof.
  unfold PyStr.upper. induction s as [|c r IH]; simpl; [done|].
  rewrite <- IH, is_space_upper_char.
  destruct (PyStr.rstrip r); simpl; [by destruct (PyStr.is_space c)|done].
Qed.

Lemma lstrip_idem s : PyStr.lstrip (PyStr.lstrip s) = PyStr.lstrip s.
Proof.
  induction s as [|c r IH]; simpl; [done|].
  destruct (PyStr.is_space c) eqn:Hc; [done|]. simpl. by rewrite Hc.
Qed.

Lemma rstrip_idem s : PyStr.rstrip (PyStr.rstrip s) = PyStr.rstrip s.
Proof.
  induction s as [|c r IH]; simpl; [done|].
  destruct (PyStr.rstrip r) as [|d r'] eqn:Hr.
  - destruct (PyStr.is_space c) eqn:Hc; simpl; [done|]. by rewrite Hc.
  - change (PyStr.rstrip (String c (String d r')))
      with (match PyStr.rstrip (String d r') with
            | EmptyString => if PyStr.is_space c then EmptyString else String c EmptyString
            | String a t => String c (String a t)
            end).
    by rewrite IH.
Qed.

(** A string that does not start with white space still does not after
    [rstrip]. *)
Lemma lstrip_rstrip_lstrip s :
  PyStr.lstrip (PyStr.rstrip (PyStr.lstrip s)) = PyStr.rstrip (PyStr.lstrip s).
Proof.
  induction s as [|c r IH]; simpl; [done|].
  destruct (PyStr.is_space c) eqn:Hc; [done|]. simpl.
  destruct (PyStr.rstrip r); simpl; rewrite ?Hc; simpl; by rewrite ?Hc.
Qed.

Lemma strip_idem s : PyStr.strip (PyStr.strip s) = PyStr.strip s.
Proof. unfold PyStr.strip. by rewrite lstrip_rstrip_lstrip, rstrip_idem. Qed.

(** [card.upper().strip()] applied twice, as [deal_card], [hit] and
    [flip_card] do before the zone does it again, is the same label. *)
Lemma normalize_idem card : normalize (normalize card) = normalize card.
Proof.
  unfold normalize, PyStr.strip.
  by rewrite upper_rstrip, upper_lstrip, upper_idem, lstrip_rstrip_lstrip, rstrip_idem.
Qed.

(** ** Integers and their decimal text *)

Lemma strip_no_space s :
  PyStr.all_chars (fun c => negb (PyStr.is_space c)) s = true -> PyStr.strip s = s.
Proof.
  unfold PyStr.strip. intros Hs.
  assert (PyStr.lstrip s = s) as ->.
  { destruct s as [|c r]; simpl in *; [done|]. by destruct (PyStr.is_space c). }
  induction s as [|c r IH]; simpl in *; [done|].
  apply andb_prop in Hs as [Hc Hr]. rewrite IH by done.
  destruct r; [|done]. by destruct (PyStr.is_space c).
Qed.

Lemma pretty_N_char_digit x :
  (x < 10)%N -> PyStr.digit_val (pretty_N_char x) = Some (Z.of_N x).
Proof.
  intros Hx. rewrite <- (N2Nat.id x).
  assert (N.to_nat x < 10)%nat as Hn by lia. revert Hn. generalize (N.to_nat x) as n.
  intros n Hn. do 10 (destruct n as [|n]; [reflexivity|]). lia.
Qed.

Lemma pretty_N_char_cases x :
  pretty_N_char x ∈ ["0"; "1"; "2"; "3"; "4"; "5"; "6"; "7"; "8"; "9"]%char.
Proof. unfold pretty_N_char. repeat case_match; set_solver. Qed.

(** The digits of a positive number read back as the number. *)
Lemma parse_digits_pretty_N_go (x : N) s prev :
  (0 < x)%N ->
  PyStr.parse_digits (pretty_N_go x s) 0 prev = PyStr.parse_digits s (Z.of_N x) true.
Proof.
  revert s prev. induction (N.lt_wf_0 x) as [x _ IH]. intros s prev Hx.
  rewrite pretty_N_go_step by done.
  assert (x `mod` 10 < 10)%N as Hm by (apply N.mod_lt; lia).
  pose proof (N.div_mod x 10 ltac:(lia)) as Hdm.
  destruct (decide (x `div` 10 = 0)%N) as [Hz|Hnz].
  - rewrite Hz, pretty_N_go_0. cbn [PyStr.parse_digits].
    rewrite pretty_N_char_digit by done. f_equal. lia.
  - rewrite IH; [|apply N.div_lt; lia|by apply N.neq_0_lt_0].
    cbn [PyStr.parse_digits]. rewrite pretty_N_char_digit by done. f_equal. lia.
Qed.

(** The text of a positive number starts with a digit and holds digits
    only. *)
Lemma pretty_N_go_shape (x : N) s :
  (0 < x)%N ->
  PyStr.all_chars (fun c => negb (PyStr.is_space c)) s = true ->
  PyStr.all_chars (fun c => negb (PyStr.is_space c)) (pretty_N_go x s) = true /\
  exists d r, pretty_N_go x s = String (pretty_N_char d) r.
Proof.
  revert s. induction (N.lt_wf_0 x) as [x _ IH]. intros s Hx Hs.
  rewrite pretty_N_go_step by done.
  assert (PyStr.all_chars (fun c => negb (PyStr.is_space c))
            (String (pretty_N_char (x `mod` 10)) s) = true) as Hs'.
  { simpl. rewrite Hs, andb_true_r.
    pose proof (pretty_N_char_cases (x `mod` 10)) as Hc.
    repeat (apply elem_of_cons in Hc as [->|Hc]; [reflexivity|]).
    by apply elem_of_nil in Hc. }
  destruct (decide (x `div` 10 = 0)%N) as [Hz|Hnz].
  - rewrite Hz, pretty_N_go_0. split; [done|]. eauto.
  - apply IH; [apply N.div_lt; lia|by apply N.neq_0_lt_0|done].
Qed.

Lemma is_int_space_is_space c : PyStr.is_int_space c = true -> PyStr.is_space c = true.
Proof. by destruct c as [[] [] [] [] [] [] [] []]. Qed.

(** A text without white space is read by [int] as it stands. *)
Lemma int_strip_no_space s :
  PyStr.all_chars (fun c => negb (PyStr.is_space c)) s = true -> PyStr.int_strip s = s.
Proof.
  unfold PyStr.int_strip. intros Hs.
  assert (forall c, PyStr.is_space c = false -> PyStr.is_int_space c = false) as Hint.
  { intros c Hc. destruct (PyStr.is_int_space c) eqn:Hi; [|done].
    apply is_int_space_is_space in Hi. congruence. }
  assert (PyStr.int_lstrip s = s) as ->.
  { destruct s as [|c r]; simpl in *; [done|].
    apply andb_prop in Hs as [Hc%negb_true_iff _]. by rewrite (Hint c Hc). }
  induction s as [|c r IH]; simpl in *; [done|].
  apply andb_prop in Hs as [Hc%negb_true_iff Hr]. rewrite IH by done.
  destruct r; [|done]. by rewrite (Hint c Hc).
Qed.

Lemma int_digits (d : N) r :
  PyStr.int_strip (String (pretty_N_char d) r) = String (pretty_N_char d) r ->
  PyStr.int (String (pretty_N_char d) r)
  = PyStr.parse_digits (String (pretty_N_char d) r) 0 false.
Proof.
  intros Hs. unfold PyStr.int. rewrite Hs.
  pose proof (pretty_N_char_cases d) as Hc.
  repeat (apply elem_of_cons in Hc as [->|Hc]; [reflexivity|]).
  by apply elem_of_nil in Hc.
Qed.

Lemma int_pretty_pos (p : positive) : PyStr.int (pretty (Npos p)) = Some (Zpos p).
Proof.
  unfold pretty, pretty_N. rewrite decide_False by done.
  destruct (pretty_N_go_shape (Npos p) "" ltac:(lia) eq_refl) as [Hall (d & r & Hd)].
  pose proof (parse_digits_pretty_N_go (Npos p) "" false ltac:(lia)) as Hp.
  rewrite Hd in *. rewrite int_digits by (by apply int_strip_no_space). by rewrite Hp.
Qed.

(** [int(str(n)) == n] *)
Lemma int_str (n : Z) : PyStr.int (PyStr.str n) = Some n.
Proof.
  unfold PyStr.str, pretty, pretty_Z. destruct n as [|p|p].
  - reflexivity.
  - apply int_pretty_pos.
  - change (pretty (Z.neg p)) with (String "-" (pretty_N_go (N.pos p) "")).
    destruct (pretty_N_go_shape (Npos p) "" ltac:(lia) eq_refl) as [Hall _].
    pose proof (parse_digits_pretty_N_go (Npos p) "" false ltac:(lia)) as Hp.
    assert (PyStr.all_chars (fun c => negb (PyStr.is_space c))
              (String "-" (pretty_N_go (N.pos p) "")) = true) as Hall'.
    { change (negb (PyStr.is_space "-")
              && PyStr.all_chars (fun c => negb (PyStr.is_space c))
                                 (pretty_N_go (N.pos p) "") = true).
      by rewrite Hall. }
    unfold PyStr.int. rewrite int_strip_no_space by done.
    change (Z.opp <$> PyStr.parse_digits (pretty_N_go (N.pos p) "") 0 false
            = Some (Z.neg p)).
    rewrite Hp. reflexivity.
Qed.

(** The round trip through JSON text, where the player numbers become
    strings: [from_dict] reads them back with [int]. *)
Lemma players_from_dict_json_keys (l : list (Z * CardZone)) (acc : gmap Z CardZone) :
  foldl (fun acc '(num, zone_data) =>
           match acc, key_int num with
           | Some m, Some n => Some (<[n := zone_from_dict zone_data]> m)
           | _, _ => None
           end)
        (Some acc)
        ((fun '(k, zd) => (json_key k, zd))
           <$> ((fun '(num, zone) => (IntKey num, zone_to_dict zone)) <$> l))
  = Some (foldl (fun (m : gmap Z CardZone) p => <[fst p := snd p]> m) acc l).
Proof.
  revert acc. induction l as [|[n z] l IH]; intros acc; [done|].
  rewrite !fmap_cons. cbn [foldl key_int json_key fst snd].
  by rewrite int_str, zone_round_trip, IH.
Qed.

Lemma from_dict_through_json (s : GameState) :
  from_dict (through_json (to_dict s)) = Some s.
Proof.
  unfold from_dict, through_json, to_dict, players_from_dict. cbn [sd_players].
  rewrite players_from_dict_json_keys, foldl_insert_map_to_list.
  cbn. rewrite !zone_round_trip. by destruct s.
Qed.

(** The exact percentages of a distribution add up to 100. *)
Lemma percentages_sum (g l e total : Z) :
  total <> 0 -> g + l + e = total ->
  (percentage g total + percentage l total + percentage e total == inject_Z 100)%Q.
Proof.
  intros Ht <-. unfold percentage.
  rewrite !inject_Z_plus. field.
  rewrite <- !inject_Z_plus. intros Hq. apply Ht.
  apply (proj1 (inject_Z_injective (g + l + e) 0)). exact Hq.
Qed.

Lemma probability_percentages s who threshold ct th ta g l e :
  calculate_probability_after_hit s who threshold = Some (Distribution ct th ta g l e) ->
  (percentage g ta + percentage l ta + percentage e ta == inject_Z 100)%Q.
Proof.
  intros Hd. apply probability_distribution in Hd as (_ & _ & _ & _ & Hta & Hsum).
  by apply percentages_sum.
Qed.

(** ** The string functions and the scenarios of the specification *)

Example normalize_examples :
  normalize "  a " = "A" /\ normalize "10" = "10" /\ normalize "facedown" = "FACEDOWN".
Proof. split_and!; reflexivity. Qed.

Example delete_all_example : PyStr.delete_all "player" 0 "player 12player" = " 12".
Proof. reflexivity. Qed.

Example int_examples :
  PyStr.int " 12 " = Some 12 /\ PyStr.int "-3" = Some (-3) /\
  PyStr.int "1_0" = Some 10 /\ PyStr.int "1__0" = None /\
  PyStr.int "" = None /\ PyStr.int "K" = None /\ PyStr.int "+" = None.
Proof. split_and!; reflexivity. Qed.

Example str_examples :
  PyStr.str 12 = "12" /\ PyStr.str (-7) = "-7" /\ PyStr.str 0 = "0".
Proof. split_and!; vm_compute; reflexivity. Qed.

(** The tokens that name player 1, and some that name nobody. *)
Example get_player_zone_examples :
  fst <$> get_player_zone (step new_game_state OpAddPlayer) "Player 1" = Some 1 /\
  fst <$> get_player_zone (step new_game_state OpAddPlayer) "player" = Some 1 /\
  fst <$> get_player_zone (step new_game_state OpAddPlayer) " 1 " = Some 1 /\
  fst <$> get_player_zone (step new_game_state OpAddPlayer) "player1" = Some 1 /\
  get_player_zone (step new_game_state OpAddPlayer) "Player 2" = None /\
  get_player_zone (step new_game_state OpAddPlayer) "dealer " = None.
Proof. split_and!; vm_compute; reflexivity. Qed.

(** Fresh state, one player, an ace to the player and a king to the
    dealer: 50 cards in the deck. *)
Example scenario_deal :
  total_cards (deck (run new_game_state
                         [OpAddPlayer; OpDeal "A" "Player 1"; OpDeal "K" "Dealer"])) = 50 /\
  get_hand_cards (run new_game_state
                      [OpAddPlayer; OpDeal "A" "Player 1"; OpDeal "K" "Dealer"]) "Player 1"
  = ["A"] /\
  get_hand_cards (run new_game_state
                      [OpAddPlayer; OpDeal "A" "Player 1"; OpDeal "K" "Dealer"]) "Dealer"
  = ["K"].
Proof. split_and!; vm_compute; reflexivity. Qed.

(** A face-down card dealt to the dealer and flipped as a 5. *)
Example scenario_flip :
  get_hand_cards (run new_game_state [OpDealFaceDown "Dealer"; OpFlip "Dealer" "5"]) "dealer"
  = ["5"] /\
  face_down_owners (run new_game_state [OpDealFaceDown "Dealer"; OpFlip "Dealer" "5"])
  !! "dealer" = None /\
  total_in_play (run new_game_state [OpDealFaceDown "Dealer"; OpFlip "Dealer" "5"]) = 52.
Proof. split_and!; vm_compute; reflexivity. Qed.

(** A hand of 11 against the threshold 21 when the deck holds three
    ten-valued cards: all three fall in the "equal" counter. *)
Example scenario_boundary :
  calculate_probability_after_hit
    (mkState (mkZone "Deck" {["K" := 2; "10" := 1]})
             (mkZone "Dealer Hand" {["5" := 1; "6" := 1]})
             (new_zone "Discard Pile") (new_zone "Face Down") ∅ ∅ 1)
    "dealer" 21
  = Some (Distribution 11 21 3 0 0 3).
Proof. vm_compute. reflexivity. Qed.

(** A face-down card that is cleared unflipped stays counted in the deck:
    the discard pile receives an UNKNOWN unit and the sum over the zones
    stays at 53. *)
Example scenario_clear_face_down :
  count_of (cards (discard (run new_game_state [OpDealFaceDown "dealer"; OpClearHands])))
           "UNKNOWN" = 1 /\
  total_in_play (run new_game_state [OpDealFaceDown "dealer"; OpClearHands]) = 53.
Proof. split_and!; vm_compute; reflexivity. Qed.

(** * Further properties of the code *)

(** ** Adding, removing and enumerating the cards of a zone *)

Lemma occurrences_replicate k n c :
  occurrences k (replicate n c) = if decide (c = k) then n else O.
Proof.
  unfold occurrences. destruct (decide (c = k)) as [->|Hne].
  - induction n as [|n IH]; [done|].
    simpl replicate. rewrite filter_cons, decide_True by done. simpl. by rewrite IH.
  - induction n as [|n IH]; [done|].
    simpl replicate. by rewrite filter_cons, decide_False.
Qed.

Lemma occurrences_app k l1 l2 :
  occurrences k (l1 ++ l2) = (occurrences k l1 + occurrences k l2)%nat.
Proof. unfold occurrences. by rewrite filter_app, length_app. Qed.

Lemma get_all_cards_insert nm (m : gmap string Z) i x :
  m !! i = None ->
  get_all_cards (mkZone nm (<[i := x]> m))
  ≡ₚ (replicate (Z.to_nat x) i ++ get_all_cards (mkZone nm m))%list.
Proof.
  intros Hi. unfold get_all_cards. simpl cards.
  rewrite (Permutation_flat_map _ (map_to_list_insert m i x Hi)). done.
Qed.

Lemma occurrences_get_all_cards_map nm (m : gmap string Z) k :
  occurrences k (get_all_cards (mkZone nm m)) = Z.to_nat (count_of m k).
Proof.
  induction m as [|i x m Hi IH] using map_ind.
  - unfold get_all_cards, count_of. simpl. by rewrite map_to_list_empty, lookup_empty.
  - unfold occurrences in *. rewrite (get_all_cards_insert nm m i x Hi).
    fold (occurrences k (replicate (Z.to_nat x) i ++ get_all_cards (mkZone nm m))).
    rewrite occurrences_app, occurrences_replicate. unfold occurrences. rewrite IH.
    rewrite count_of_insert. case_decide as Hk; case_decide as Hk'; subst; try done.
    unfold count_of. rewrite Hi. simpl. lia.
Qed.

(** X1: [get_all_cards] lists each label as many times as its count says
    (not at all for a count of 0 or less), so on a zone without negative
    counts the length of the list is [total_cards]. *)
Theorem get_all_cards_multiplicity (z : CardZone) :
  (forall k, occurrences k (get_all_cards z) = Z.to_nat (count_of (cards z) k)) /\
  ((forall k n, cards z !! k = Some n -> 0 <= n) ->
   Z.of_nat (length (get_all_cards z)) = total_cards z).
Proof.
  split.
  - intros k. destruct z as [nm m]. apply occurrences_get_all_cards_map.
  - apply length_get_all_cards.
Qed.

(** The count of a label after a list of cards was added. *)
Lemma count_of_add_cards z l k :
  count_of (cards (add_cards z l)) k
  = count_of (cards z) k + Z.of_nat (length (filter (fun c => normalize c = k) l)).
Proof.
  unfold add_cards. revert z. induction l as [|c l IH]; intros z; simpl foldl.
  - simpl. lia.
  - rewrite IH, count_of_add_card, filter_cons.
    case_decide as H1; case_decide as H2; subst; simpl; try done; lia.
Qed.

Lemma filter_normalize_fixed (l : list string) k :
  Forall (fun c => normalize c = c) l ->
  length (filter (fun c => normalize c = k) l) = occurrences k l.
Proof.
  unfold occurrences. induction 1 as [|c l Hc _ IH]; [done|].
  rewrite !filter_cons, Hc. case_decide; simpl; by rewrite IH.
Qed.

Lemma remove_card_add_card_keeps z card count :
  (forall n, cards z !! normalize card = Some n -> 0 < n) ->
  remove_card (add_card z card count) card count = (true, z).
Proof.
  intros Hpos. rewrite remove_card_eq. cbn zeta.
  rewrite cards_add_card, count_of_insert, decide_True by done.
  assert (0 <= count_of (cards z) (normalize card)) as Hc.
  { unfold count_of. destruct (cards z !! normalize card) as [n|]; simpl; [|lia].
    pose proof (Hpos n eq_refl). lia. }
  destruct (count <=? _) eqn:Hle; [|apply Z.leb_gt in Hle; lia].
  replace (count_of (cards z) (normalize card) + count - count)
    with (count_of (cards z) (normalize card)) by lia.
  destruct z as [nm m]. unfold with_cards. simpl in *. f_equal. f_equal.
  unfold count_of in *. destruct (m !! normalize card) as [n|] eqn:Hk; simpl in *.
  - pose proof (Hpos n eq_refl). destruct (n =? 0) eqn:Hz; [apply Z.eqb_eq in Hz; lia|].
    rewrite insert_insert_eq. by apply insert_id.
  - rewrite delete_insert_eq. by apply delete_id.
Qed.

(** X2: removing what was just added succeeds and gives the zone back,
    provided the label had no entry or a positive one. *)
Theorem remove_card_add_card (z : CardZone) (card : string) (count : Z) :
  (forall n, cards z !! normalize card = Some n -> 0 < n) ->
  remove_card (add_card z card count) card count = (true, z).
Proof. apply remove_card_add_card_keeps. Qed.

(** A zone holding two kings: a third is added and removed again. *)
Lemma remove_card_add_card_witness :
  remove_card (add_card (mkZone "Dealer Hand" {["K" := 2]}) " k" 1) " k" 1
  = (true, mkZone "Dealer Hand" {["K" := 2]}).
Proof.
  apply (remove_card_add_card (mkZone "Dealer Hand" {["K" := 2]}) " k" 1).
  intros n Hn. vm_compute in Hn. injection Hn as <-. lia.
Defined.

(** X3: adding back what a successful removal of a positive count took
    gives the zone back. *)
Theorem add_card_after_remove_card (z z' : CardZone) (card : string) (count : Z) :
  0 < count -> remove_card z card count = (true, z') -> add_card z' card count = z.
Proof.
  intros Hcount Hrm. apply remove_card_success in Hrm as (Hle & Hn & Hc).
  unfold add_card, with_cards. rewrite Hn, Hc.
  destruct z as [nm m]; simpl in *. f_equal.
  assert (m !! normalize card = Some (count_of m (normalize card))) as Hk.
  { unfold count_of in *. destruct (m !! normalize card); simpl in *; [done|lia]. }
  destruct (_ =? 0) eqn:Hz0.
  - apply Z.eqb_eq in Hz0. rewrite count_of_delete, decide_True by done.
    rewrite insert_delete_eq. apply insert_id. rewrite Hk. f_equal. lia.
  - rewrite count_of_insert, decide_True by done.
    rewrite insert_insert_eq. apply insert_id. rewrite Hk. f_equal. lia.
Qed.

(** The four kings of a fresh deck are removed and put back. *)
Lemma add_card_after_remove_card_witness :
  add_card (snd (remove_card (deck new_game_state) "K" 4)) "K" 4 = deck new_game_state.
Proof.
  apply (add_card_after_remove_card (deck new_game_state)
           (snd (remove_card (deck new_game_state) "K" 4)) "K" 4).
  - lia.
  - vm_compute. reflexivity.
Defined.

Lemma lookup_add_cards_None z l k :
  cards (add_cards z l) !! k = None
  <-> cards z !! k = None /\ Forall (fun c => normalize c <> k) l.
Proof.
  unfold add_cards. revert z. induction l as [|c l IH]; intros z; simpl foldl.
  - split; [by intros ?; split|by intros [? _]].
  - rewrite IH, cards_add_card, Forall_cons. split.
    + intros [Hk Hl]. destruct (decide (normalize c = k)) as [<-|Hne].
      * by rewrite lookup_insert_eq in Hk.
      * rewrite lookup_insert_ne in Hk by done. done.
    + intros (Hk & Hne & Hl). by rewrite lookup_insert_ne.
Qed.

Lemma occurrences_get_all_cards z k :
  occurrences k (get_all_cards z) = Z.to_nat (count_of (cards z) k).
Proof. destruct z as [nm m]. apply occurrences_get_all_cards_map. Qed.

Lemma name_add_cards z l : name (add_cards z l) = name z.
Proof.
  unfold add_cards. revert z. induction l as [|c l IH]; intros z; simpl; [done|].
  by rewrite IH.
Qed.

Lemma count_of_drained z d k :
  (forall j n, cards z !! j = Some n -> 0 < n /\ normalize j = j) ->
  count_of (cards (add_cards d (get_all_cards z))) k
  = count_of (cards d) k + count_of (cards z) k.
Proof.
  intros Hz.
  assert (Forall (fun c => normalize c = c) (get_all_cards z)) as Hfix.
  { apply Forall_forall. intros c Hc.
    apply elem_of_get_all_cards in Hc as (n & Hn & _). by apply Hz in Hn as [_ ?]. }
  assert (0 <= count_of (cards z) k) as Hnonneg.
  { unfold count_of. destruct (cards z !! k) as [n|] eqn:Hk; simpl; [|lia].
    apply Hz in Hk. lia. }
  rewrite count_of_add_cards, filter_normalize_fixed by done.
  rewrite occurrences_get_all_cards. lia.
Qed.

(** X4: the cards drained from a zone whose keys are normalized labels with
    positive counts add exactly the zone's counts to the zone that receives
    them; received by the emptied zone itself they rebuild it. *)
Theorem drained_cards_transfer (z d : CardZone) :
  (forall k n, cards z !! k = Some n -> 0 < n /\ normalize k = k) ->
  (forall k, count_of (cards (add_cards d (fst (clear z)))) k
             = count_of (cards d) k + count_of (cards z) k) /\
  add_cards (snd (clear z)) (fst (clear z)) = z.
Proof.
  intros Hz. split; [intros k; by apply count_of_drained|].
  change (fst (clear z)) with (get_all_cards z).
  change (snd (clear z)) with (with_cards z ∅).
  pose proof (name_add_cards (with_cards z ∅) (get_all_cards z)) as Hname.
  destruct (add_cards (with_cards z ∅) (get_all_cards z)) as [nm' m'] eqn:Hadd.
  destruct z as [nm m]. simpl in Hname. subst nm'. f_equal.
  apply map_eq. intros k.
  pose proof (count_of_drained (mkZone nm m) (with_cards (mkZone nm m) ∅) k Hz) as Hk.
  pose proof (lookup_add_cards_None (with_cards (mkZone nm m) ∅) (get_all_cards (mkZone nm m)) k)
    as Hnone.
  rewrite Hadd in Hk, Hnone. simpl in Hk, Hnone.
  unfold count_of in Hk. rewrite lookup_empty in Hk, Hnone. simpl in Hk.
  destruct (m !! k) as [n|] eqn:Hm; simpl in Hk.
  - destruct (m' !! k) as [n'|] eqn:Hm'; simpl in Hk; [f_equal; lia|].
    destruct (Hz k n Hm) as [Hn _]. lia.
  - apply Hnone. split; [done|].
    apply Forall_forall. intros c Hc Heq.
    apply elem_of_get_all_cards in Hc as (n & Hn & _). simpl in Hn.
    destruct (Hz c n Hn) as [_ Hfixc]. rewrite Hfixc in Heq. subst c. congruence.
Qed.

(** A dealer hand with an ace and two fives. *)
Lemma drained_cards_transfer_witness :
  add_cards (snd (clear (mkZone "Dealer Hand" {["A" := 1; "5" := 2]})))
            (fst (clear (mkZone "Dealer Hand" {["A" := 1; "5" := 2]})))
  = mkZone "Dealer Hand" {["A" := 1; "5" := 2]}.
Proof.
  apply (drained_cards_transfer (mkZone "Dealer Hand" {["A" := 1; "5" := 2]})
                                (new_zone "Discard Pile")).
  intros k n Hk. simpl in Hk.
  apply lookup_insert_Some in Hk as [[<- <-]|[_ Hk]]; [split; [lia|reflexivity]|].
  apply lookup_singleton_Some in Hk as [<- <-]. split; [lia|reflexivity].
Defined.

(** ** The states that [deal_card], [hit] and [flip_card] can leave *)

(** [hit] leaves the state that [deal_card] leaves; only the messages
    differ. *)
Lemma hit_state s card who : snd (hit s card who) = snd (deal_card s card who).
Proof.
  unfold hit, deal_card.
  destruct (remove_card (deck s) (normalize card) 1) as [[] deck1]; simpl; [|done].
  destruct (String.eqb _ _); [done|].
  by destruct (get_player_zone (set_deck s deck1) who) as [[n zone]|].
Qed.

Lemma hit_failure_iff s card who :
  is_failure (fst (hit s card who)) = is_failure (fst (deal_card s card who)).
Proof.
  unfold hit, deal_card.
  destruct (remove_card (deck s) (normalize card) 1) as [[] deck1]; simpl; [|done].
  destruct (String.eqb _ _); [done|].
  by destruct (get_player_zone (set_deck s deck1) who) as [[n zone]|].
Qed.

(** The four outcomes of [deal_card]. *)
Lemma deal_card_state s card to_zone :
  (is_failure (fst (deal_card s card to_zone)) = true /\
   snd (deal_card s card to_zone)
   = set_deck s (with_cards (deck s) (touch (normalize (normalize card)) (cards (deck s)))))
  \/ (exists deck1,
        remove_card (deck s) (normalize card) 1 = (true, deck1) /\
        PyStr.lower to_zone = "dealer" /\
        deal_card s card to_zone
        = (DealtToDealer (normalize card),
           set_dealer_hand (set_deck s deck1)
                           (add_card (dealer_hand s) (normalize card) 1)))
  \/ (exists deck1 n zone,
        remove_card (deck s) (normalize card) 1 = (true, deck1) /\
        PyStr.lower to_zone <> "dealer" /\
        get_player_zone s to_zone = Some (n, zone) /\
        deal_card s card to_zone
        = (DealtToPlayer (normalize card) n,
           set_players (set_deck s deck1)
                       (<[n := add_card zone (normalize card) 1]> (players s)))).
Proof.
  destruct (is_failure (fst (deal_card s card to_zone))) eqn:Hf.
  { left. split; [done|]. by apply deal_card_failure. }
  right. revert Hf. unfold deal_card.
  destruct (remove_card (deck s) (normalize card) 1) as [[] deck1] eqn:Hrm; simpl; [|done].
  destruct (String.eqb_spec (PyStr.lower to_zone) "dealer") as [Hd|Hd].
  - intros _. left. by exists deck1.
  - change (get_player_zone (set_deck s deck1) to_zone) with (get_player_zone s to_zone).
    destruct (get_player_zone s to_zone) as [[n zone]|] eqn:Hz; [|done].
    intros _. right. by exists deck1, n, zone.
Qed.

(** The state after one face-down unit of [owner_key] was taken off the
    table, before the revealed card reaches a hand. *)
Lemma wf_face_down_taken s owner_key n :
  wf_state s -> face_down_owners s !! owner_key = Some n ->
  wf_state (set_face_down_owners
              (set_face_down s (snd (remove_card (face_down s) "FACEDOWN" 1)))
              (if n - 1 =? 0 then delete owner_key (<[owner_key := n - 1]> (face_down_owners s))
               else <[owner_key := n - 1]> (face_down_owners s))).
Proof.
  intros Hwf Hn.
  pose proof (owner_has_face_down _ _ _ Hwf Hn) as Hfd1.
  destruct Hwf as [Hd Hh Hp Hdis Hfd Ho Hot Hnum Hnext Hk].
  destruct (remove_card (face_down s) "FACEDOWN" 1) as [ok fd1] eqn:Hrf.
  assert (ok = true) as ->.
  { rewrite remove_card_eq in Hrf. change (normalize "FACEDOWN") with "FACEDOWN" in Hrf.
    destruct (1 <=? _) eqn:Hle; [by simplify_eq|]. apply Z.leb_gt in Hle. lia. }
  pose proof (Ho _ _ Hn) as Hpos.
  split; simpl; try done.
  - by eapply zone_holds_remove_one.
  - intros k c. destruct (n - 1 =? 0) eqn:Hz.
    + rewrite delete_insert_eq. intros Hc. apply lookup_delete_Some in Hc as [_ Hc]. eauto.
    + apply Z.eqb_neq in Hz. destruct (decide (k = owner_key)) as [->|Hne].
      * rewrite lookup_insert_eq. intros [= <-]. lia.
      * rewrite lookup_insert_ne by done. apply Ho.
  - rewrite (owners_total_decr _ _ _ Hn), (total_cards_remove_card _ _ _ _ Hrf). lia.
Qed.

(** A successful [flip_card] is the face-down unit taken off the table
    followed by the move of the card from the deck to the hand. *)
Lemma flip_card_state s who card :
  is_failure (fst (flip_card s who card)) = false ->
  exists owner_key n deck1 taken,
    face_down_owners s !! owner_key = Some n /\
    taken = set_face_down_owners
              (set_face_down s (snd (remove_card (face_down s) "FACEDOWN" 1)))
              (if n - 1 =? 0 then delete owner_key (<[owner_key := n - 1]> (face_down_owners s))
               else <[owner_key := n - 1]> (face_down_owners s)) /\
    remove_card (deck s) (normalize card) 1 = (true, deck1) /\
    ((PyStr.lower who = "dealer" /\ owner_key = "dealer" /\
      snd (flip_card s who card)
      = set_dealer_hand (set_deck taken deck1)
                        (add_card (dealer_hand taken) (normalize card) 1))
     \/ (exists m zone,
           PyStr.lower who <> "dealer" /\ owner_key = player_key m /\
           get_player_zone s who = Some (m, zone) /\
           snd (flip_card s who card)
           = set_players (set_deck taken deck1)
                         (<[m := add_card zone (normalize card) 1]> (players taken)))).
Proof.
  intros Hok.
  apply flip_card_success in Hok as (owner_key & target & n & deck1 & Ht & Hn & Hrm & Heq).
  exists owner_key, n, deck1. eexists. split; [done|]. split; [reflexivity|].
  split; [done|]. rewrite Heq. clear Heq. unfold flip_target in Ht.
  destruct (String.eqb_spec (PyStr.lower who) "dealer") as [Hd|Hd].
  - left. by simplify_eq.
  - right. destruct (get_player_zone s who) as [[m zone]|] eqn:Hz; [|done].
    simplify_eq. by exists m, zone.
Qed.

(** Induction over the reachable states, by the elementary changes the
    operations make. *)
Lemma reachable_changes_ind (P : GameState -> Prop) :
  P new_game_state ->
  (forall s, wf_state s -> P s -> P (snd (add_player s))) ->
  (forall s k, wf_state s -> P s ->
     P (set_deck s (with_cards (deck s) (touch k (cards (deck s)))))) ->
  (forall s card deck1, wf_state s -> P s ->
     remove_card (deck s) card 1 = (true, deck1) ->
     P (set_dealer_hand (set_deck s deck1) (add_card (dealer_hand s) card 1))) ->
  (forall s card deck1 n zone, wf_state s -> P s ->
     remove_card (deck s) card 1 = (true, deck1) -> players s !! n = Some zone ->
     P (set_players (set_deck s deck1) (<[n := add_card zone card 1]> (players s)))) ->
  (forall s owner_key, wf_state s -> P s ->
     P (set_face_down_owners (set_face_down s (add_card (face_down s) "FACEDOWN" 1))
                             (owner_incr owner_key (face_down_owners s)))) ->
  (forall s owner_key n, wf_state s -> P s -> face_down_owners s !! owner_key = Some n ->
     P (set_face_down_owners
          (set_face_down s (snd (remove_card (face_down s) "FACEDOWN" 1)))
          (if n - 1 =? 0 then delete owner_key (<[owner_key := n - 1]> (face_down_owners s))
           else <[owner_key := n - 1]> (face_down_owners s)))) ->
  (forall s, wf_state s -> P s -> P (snd (clear_hands s))) ->
  (forall s, wf_state s -> P s -> P (snd (shuffle s))) ->
  forall s, reachable s -> P s.
Proof.
  intros Hnew Hadd Htouch Hdealer Hplayer Hfd Htaken Hclear Hshuffle s Hr.
  induction Hr as [|s o Hr IH]; [done|].
  pose proof (reachable_wf s Hr) as Hwf.
  assert (forall card to_zone, P (snd (deal_card s card to_zone))) as Hdeal.
  { intros card to_zone.
    destruct (deal_card_state s card to_zone)
      as [[_ ->]|[(deck1 & Hrm & _ & ->)|(deck1 & n & zone & Hrm & _ & Hz & ->)]].
    - by apply Htouch.
    - by apply Hdealer.
    - apply Hplayer; [done..|]. by eapply get_player_zone_Some. }
  destruct o; simpl.
  - by apply Hadd.
  - apply Hdeal.
  - destruct (is_failure (fst (deal_face_down s to_zone))) eqn:Hf.
    + revert Hf. unfold deal_face_down. destruct (_ =? 0); [done|].
      destruct (String.eqb _ _); [done|].
      destruct (get_player_zone s to_zone) as [[n zone]|]; [|done].
      by destruct (n =? 0).
    + apply deal_face_down_success in Hf as [owner_key ->]. by apply Hfd.
  - destruct (is_failure (fst (flip_card s who card))) eqn:Hf.
    + apply flip_card_failure in Hf as [->| ->]; [done|by apply Htouch].
    + apply flip_card_state in Hf
        as (owner_key & n & deck1 & taken & Hn & -> & Hrm & Hcase).
      pose proof (wf_face_down_taken s owner_key n Hwf Hn) as Hwf'.
      pose proof (Htaken s owner_key n Hwf IH Hn) as HP'.
      destruct Hcase as [(_ & _ & ->)|(m & zone & _ & _ & Hz & ->)].
      * by apply Hdealer.
      * apply Hplayer; [done..|]. by eapply get_player_zone_Some.
  - rewrite hit_state. apply Hdeal.
  - by apply Hclear.
  - by apply Hshuffle.
  - done.
Qed.

(** ** Player numbers, zone names and the copies of each rank *)

Lemma players_count_empty k : players_count ∅ k = 0.
Proof. apply (sum_values_empty (K:=Z) (fun zone => count_of (cards zone) k)). Qed.

Lemma players_count_insert (p : gmap Z CardZone) n z z' k :
  p !! n = Some z ->
  players_count (<[n := z']> p) k
  = players_count p k - count_of (cards z) k + count_of (cards z') k.
Proof. apply (sum_values_insert (fun zone => count_of (cards zone) k)). Qed.

Lemma players_count_insert_fresh (p : gmap Z CardZone) n z k :
  p !! n = None -> players_count (<[n := z]> p) k = players_count p k + count_of (cards z) k.
Proof. apply (sum_values_insert_fresh (fun zone => count_of (cards zone) k)). Qed.

Lemma players_count_cleared (p : gmap Z CardZone) k :
  players_count ((fun zone => snd (clear zone)) <$> p) k = 0.
Proof.
  apply (sum_values_zero (fun zone => count_of (cards zone) k)). intros n z.
  rewrite lookup_fmap. destruct (p !! n) as [z0|]; simpl; [|done].
  by intros [= <-].
Qed.

Lemma count_of_empty k : count_of ∅ k = 0.
Proof. unfold count_of. by rewrite lookup_empty. Qed.

Lemma hand_keys_normalized z :
  zone_holds (fun k => k ∈ RANKS) z ->
  forall k n, cards z !! k = Some n -> 0 < n /\ normalize k = k.
Proof. intros Hz k n Hk. apply Hz in Hk as [? ?]. split; [done|by apply normalize_rank]. Qed.

(** The loop of [clear_hands] over the player table, label by label. *)
Lemma discard_hands_count (l : list (Z * CardZone)) d k :
  Forall (fun p => zone_holds (fun k => k ∈ RANKS) (snd p)) l ->
  count_of (cards (foldl (fun d '(_, zone) => add_cards d (fst (clear zone))) d l)) k
  = count_of (cards d) k + foldr (fun p acc => acc + count_of (cards (snd p)) k) 0 l.
Proof.
  intros Hl. revert d. induction Hl as [|[n zone] l Hz Hl IH]; intros d.
  - simpl. lia.
  - cbn [foldl foldr snd]. rewrite IH. simpl in Hz.
    change (fst (clear zone)) with (get_all_cards zone).
    rewrite count_of_drained by (by apply hand_keys_normalized). lia.
Qed.

Lemma rank_conserved_clear_hands s :
  wf_state s -> rank_conserved s -> rank_conserved (snd (clear_hands s)).
Proof.
  intros Hwf Hc r Hr. specialize (Hc r Hr).
  assert (r <> "UNKNOWN") as Hunk by (intros ->; by apply UNKNOWN_not_rank).
  assert (count_of (cards (foldl (fun d '(_, zone) => add_cards d (fst (clear zone)))
                                 (discard s) (map_to_list (players s)))) r
          = count_of (cards (discard s)) r + players_count (players s) r) as Hd1.
  { rewrite discard_hands_count.
    - unfold players_count.
      by rewrite (sum_values_to_list (fun zone => count_of (cards zone) r)).
    - apply Forall_forall. intros [n z] Hin. apply elem_of_map_to_list in Hin.
      simpl. by eapply (wf_players s Hwf). }
  unfold clear_hands. simpl.
  set (discard1 := foldl _ (discard s) _) in *.
  assert (count_of (cards (add_cards discard1 (get_all_cards (dealer_hand s)))) r
          = count_of (cards discard1) r + count_of (cards (dealer_hand s)) r) as Hd2.
  { apply count_of_drained, hand_keys_normalized, (wf_dealer s Hwf). }
  destruct (0 <? total_cards (face_down s)); simpl.
  - rewrite players_count_cleared, count_of_add_cards_other.
    + rewrite count_of_empty. lia.
    + apply Forall_forall. intros c Hin. apply elem_of_replicate in Hin as [-> _].
      by intros <-.
  - rewrite players_count_cleared, count_of_empty. lia.
Qed.

(** Reduce the projections of an updated state, and nothing else. *)
Ltac state_fields :=
  cbn [deck dealer_hand discard face_down face_down_owners players next_player_number
       set_deck set_dealer_hand set_discard set_face_down set_face_down_owners
       set_players set_next_player_number add_player snd] in *.

Lemma rank_conserved_reachable s : reachable s -> rank_conserved s.
Proof.
  revert s. apply reachable_changes_ind.
  - intros r Hr. change (cards (deck new_game_state)) with full_deck.
    unfold count_of. rewrite (full_deck_lookup r Hr). reflexivity.
  - intros s Hwf Hc r Hr. specialize (Hc r Hr). state_fields.
    rewrite players_count_insert_fresh; [simpl; rewrite count_of_empty; lia|].
    destruct (players s !! next_player_number s) eqn:Hn; [|done].
    assert (1 <= next_player_number s < next_player_number s)
      by (apply (wf_numbers s Hwf); eauto). lia.
  - intros s k Hwf Hc r Hr. specialize (Hc r Hr). state_fields.
    simpl cards. by rewrite count_of_touch.
  - intros s card deck1 Hwf Hc Hrm r Hr. specialize (Hc r Hr). state_fields.
    rewrite (count_of_remove_card _ _ _ _ r Hrm), count_of_add_card.
    case_decide; lia.
  - intros s card deck1 n zone Hwf Hc Hrm Hn r Hr. specialize (Hc r Hr). state_fields.
    rewrite (count_of_remove_card _ _ _ _ r Hrm), (players_count_insert _ _ zone) by done.
    rewrite count_of_add_card. case_decide; lia.
  - intros s owner_key Hwf Hc r Hr. by specialize (Hc r Hr).
  - intros s owner_key n Hwf Hc Hn r Hr. by specialize (Hc r Hr).
  - apply rank_conserved_clear_hands.
  - intros s _ _ r Hr. simpl players. simpl discard. simpl dealer_hand.
    rewrite cards_deck_shuffle. unfold count_of at 1. rewrite (full_deck_lookup r Hr).
    reflexivity.
Qed.

Lemma rank_label_in_RANKS r : rank_label r ∈ RANKS.
Proof. unfold RANKS. destruct r; simpl; rewrite !elem_of_cons; tauto. Qed.

(** X5: after every sequence of operations, of each of the 13 ranks the
    copies in the deck, the dealer hand, the player hands and the discard
    pile are four; so no zone ever holds more than four of a rank and the
    deck never a negative count. *)
Theorem four_copies_of_each_rank (ops : list op) (r : rank) :
  count_of (cards (deck (run new_game_state ops))) (rank_label r)
  + count_of (cards (dealer_hand (run new_game_state ops))) (rank_label r)
  + players_count (players (run new_game_state ops)) (rank_label r)
  + count_of (cards (discard (run new_game_state ops))) (rank_label r) = 4 /\
  0 <= count_of (cards (deck (run new_game_state ops))) (rank_label r) <= 4 /\
  0 <= count_of (cards (dealer_hand (run new_game_state ops))) (rank_label r) <= 4 /\
  0 <= count_of (cards (discard (run new_game_state ops))) (rank_label r) <= 4 /\
  (forall n zone, players (run new_game_state ops) !! n = Some zone ->
                  0 <= count_of (cards zone) (rank_label r) <= 4).
Proof.
  assert (reachable (run new_game_state ops)) as Hr by apply reachable_run, reachable_new.
  generalize dependent (run new_game_state ops). intros s Hr.
  pose proof (reachable_wf s Hr) as Hwf.
  pose proof (rank_label_in_RANKS r) as Hrank.
  pose proof (rank_conserved_reachable s Hr _ Hrank) as Hsum.
  pose proof (count_of_nonneg_deck (deck s) (rank_label r) (wf_deck s Hwf)).
  pose proof (count_of_nonneg_zone _ (dealer_hand s) (rank_label r) (wf_dealer s Hwf)).
  pose proof (count_of_nonneg_zone _ (discard s) (rank_label r) (wf_discard s Hwf)).
  assert (forall n zone, players s !! n = Some zone ->
            0 <= count_of (cards zone) (rank_label r) <= players_count (players s) (rank_label r))
    as Hplayers.
  { intros n zone Hz.
    pose proof (count_of_nonneg_zone _ zone (rank_label r) (wf_players s Hwf n zone Hz)).
    split; [done|].
    apply (sum_values_lookup_le (fun z => count_of (cards z) (rank_label r)) (players s) n);
      [|done].
    intros j y Hj. apply (count_of_nonneg_zone _ y _ (wf_players s Hwf j y Hj)). }
  assert (0 <= players_count (players s) (rank_label r)).
  { apply (sum_values_nonneg (fun z => count_of (cards z) (rank_label r))).
    intros j y Hj. apply (count_of_nonneg_zone _ y _ (wf_players s Hwf j y Hj)). }
  split_and!; try lia.
  intros n zone Hz. specialize (Hplayers n zone Hz). lia.
Qed.

Lemma players_numbered_reachable s : reachable s -> players_numbered s.
Proof.
  revert s. apply reachable_changes_ind.
  - split; [simpl; lia|]. intros n. simpl. rewrite lookup_empty. split.
    + by intros [? ?].
    + lia.
  - intros s _ [Hnext Hdom]. split; state_fields; [lia|].
    intros n. destruct (decide (n = next_player_number s)) as [->|Hne].
    + rewrite lookup_insert_eq. split; [lia|eauto].
    + rewrite lookup_insert_ne by done. rewrite Hdom. lia.
  - by intros s k _ H.
  - by intros s card deck1 _ H _.
  - intros s card deck1 n zone _ [Hnext Hdom] _ Hn. split; state_fields; [done|].
    intros m. destruct (decide (m = n)) as [->|Hne].
    + rewrite lookup_insert_eq. rewrite <- Hdom. split; eauto.
    + by rewrite lookup_insert_ne.
  - by intros s owner_key _ H.
  - by intros s owner_key n _ H _.
  - intros s _ [Hnext Hdom]. unfold clear_hands. simpl.
    destruct (0 <? _); split; state_fields; try done;
      intros n; rewrite lookup_fmap, <- Hdom;
      destruct (players s !! n); simpl; split; intros [? ?]; eauto; done.
  - intros s _ _. split; [simpl; lia|]. intros n. simpl. rewrite lookup_empty. split.
    + by intros [? ?].
    + lia.
Qed.

(** X6: after every sequence of operations the players are numbered
    1, 2, ... without a gap up to [next_player_number - 1]; [add_player]
    gives the next number to a new empty hand and leaves every other hand
    as it was. *)
Theorem players_are_numbered_in_sequence (ops : list op) :
  1 <= next_player_number (run new_game_state ops) /\
  (forall n, is_Some (players (run new_game_state ops) !! n)
             <-> 1 <= n < next_player_number (run new_game_state ops)) /\
  fst (add_player (run new_game_state ops))
  = AddedPlayer (next_player_number (run new_game_state ops)) /\
  players (snd (add_player (run new_game_state ops)))
    !! next_player_number (run new_game_state ops)
  = Some (new_zone ("Player " +:+ PyStr.str (next_player_number (run new_game_state ops))
                    +:+ " Hand")) /\
  (forall n zone, players (run new_game_state ops) !! n = Some zone ->
                  players (snd (add_player (run new_game_state ops))) !! n = Some zone).
Proof.
  assert (reachable (run new_game_state ops)) as Hr by apply reachable_run, reachable_new.
  generalize dependent (run new_game_state ops). intros s Hr.
  destruct (players_numbered_reachable s Hr) as [Hnext Hdom].
  split_and!; try done.
  - simpl. apply lookup_insert_eq.
  - intros n zone Hz. simpl. rewrite lookup_insert_ne; [done|].
    intros <-. assert (1 <= next_player_number s < next_player_number s); [|lia].
    apply Hdom. eauto.
Qed.

Lemma default_names_reachable s : reachable s -> default_names s.
Proof.
  revert s. apply reachable_changes_ind; try done.
  - intros s card deck1 _ (Hd & Hh & Hc & Hf) Hrm.
    apply remove_card_success in Hrm as (_ & Hn & _).
    split_and!; state_fields; try done. by rewrite Hn.
  - intros s card deck1 n zone _ (Hd & Hh & Hc & Hf) Hrm _.
    apply remove_card_success in Hrm as (_ & Hn & _).
    split_and!; state_fields; try done. by rewrite Hn.
  - intros s owner_key n _ (Hd & Hh & Hc & Hf) _.
    split_and!; state_fields; try done.
    rewrite remove_card_eq. cbn zeta. by destruct (1 <=? _).
  - intros s _ (Hd & Hh & Hc & Hf). unfold clear_hands. simpl.
    destruct (0 <? _); split_and!; state_fields; simpl name;
      rewrite ?name_add_cards; try done.
    all: generalize (map_to_list (players s)); intros l; revert Hc;
      generalize (discard s); induction l as [|[m z] l IH]; intros d Hd'; simpl; [done|];
      apply IH; by rewrite name_add_cards.
Qed.

(** X7: [shuffle] after any sequence of operations gives back the state
    of a new game, zone names included. *)
Theorem shuffle_returns_to_new_game (ops : list op) :
  run new_game_state (ops ++ [OpShuffle])%list = new_game_state /\
  shuffle (run new_game_state ops) = (Shuffled, new_game_state).
Proof.
  assert (snd (shuffle (run new_game_state ops)) = new_game_state) as Heq.
  { assert (reachable (run new_game_state ops)) as Hr by apply reachable_run, reachable_new.
    generalize dependent (run new_game_state ops). intros s Hr.
    destruct (default_names_reachable s Hr) as (Hd & Hh & Hc & Hf).
    destruct s as [[dn dm] [hn hm] [cn cm] [fn fm] o p nx]. simpl in *. subst.
    reflexivity. }
  split.
  - unfold run in *. rewrite foldl_app. simpl. exact Heq.
  - transitivity (Shuffled, snd (shuffle (run new_game_state ops))); [reflexivity|].
    by rewrite Heq.
Qed.

(** ** What the operations do to the table *)

(** X8: [hit] and [deal_card] are the same transfer: for every state, card
    and target they leave the same state and fail in the same cases. *)
Theorem hit_is_deal_card (s : GameState) (card who : string) :
  snd (hit s card who) = snd (deal_card s card who) /\
  is_failure (fst (hit s card who)) = is_failure (fst (deal_card s card who)).
Proof. split; [apply hit_state|apply hit_failure_iff]. Qed.

(** X9: a successful [deal_card] moves exactly one card: the deck loses one
    unit of the normalized label, the target hand (the dealer's, or the
    resolved player's) gains one unit of it, and the discard pile, the
    face-down zone, the owners and the player counter stay as they were. *)
Theorem deal_card_moves_one_card (s : GameState) (card to_zone : string) :
  is_failure (fst (deal_card s card to_zone)) = false ->
  (forall j, count_of (cards (deck (snd (deal_card s card to_zone)))) j
             = count_of (cards (deck s)) j - (if decide (j = normalize card) then 1 else 0)) /\
  total_cards (deck (snd (deal_card s card to_zone))) = total_cards (deck s) - 1 /\
  discard (snd (deal_card s card to_zone)) = discard s /\
  face_down (snd (deal_card s card to_zone)) = face_down s /\
  face_down_owners (snd (deal_card s card to_zone)) = face_down_owners s /\
  next_player_number (snd (deal_card s card to_zone)) = next_player_number s /\
  ((PyStr.lower to_zone = "dealer" /\
    players (snd (deal_card s card to_zone)) = players s /\
    dealer_hand (snd (deal_card s card to_zone)) = add_card (dealer_hand s) (normalize card) 1)
   \/ (exists n zone,
         PyStr.lower to_zone <> "dealer" /\
         get_player_zone s to_zone = Some (n, zone) /\
         dealer_hand (snd (deal_card s card to_zone)) = dealer_hand s /\
         players (snd (deal_card s card to_zone))
         = <[n := add_card zone (normalize card) 1]> (players s))).
Proof.
  intros Hok.
  destruct (deal_card_state s card to_zone)
    as [[Hf _]|[(deck1 & Hrm & Hd & Heq)|(deck1 & n & zone & Hrm & Hd & Hz & Heq)]];
    [congruence| |]; rewrite Heq; state_fields.
  - split_and!; try done.
    + intros j. rewrite (count_of_remove_card _ _ _ _ j Hrm). by rewrite normalize_idem.
    + by rewrite (total_cards_remove_card _ _ _ _ Hrm).
    + by left.
  - split_and!; try done.
    + intros j. rewrite (count_of_remove_card _ _ _ _ j Hrm). by rewrite normalize_idem.
    + by rewrite (total_cards_remove_card _ _ _ _ Hrm).
    + right. by exists n, zone.
Qed.

(** The first ace of a new game dealt to the first player. *)
Lemma deal_card_moves_one_card_witness :
  total_cards (deck (snd (deal_card (step new_game_state OpAddPlayer) "a" "Player 1")))
  = total_cards (deck (step new_game_state OpAddPlayer)) - 1.
Proof.
  apply (deal_card_moves_one_card (step new_game_state OpAddPlayer) "a" "Player 1").
  vm_compute. reflexivity.
Defined.

Lemma deal_face_down_dealer s :
  total_cards (deck s) + total_cards (face_down s) <> 0 ->
  deal_face_down s "dealer"
  = (DealtFaceDown "dealer",
     set_face_down_owners (set_face_down s (add_card (face_down s) "FACEDOWN" 1))
                          (owner_incr "dealer" (face_down_owners s))).
Proof.
  intros Ht. unfold deal_face_down. apply Z.eqb_neq in Ht. by rewrite Ht.
Qed.

(** X10: [deal_face_down] takes nothing from the deck, so the face-down
    cards on the table are not bounded by the deck: [n] face-down deals to
    the dealer in a new game all succeed, for every [n], and leave the
    deck at its 52 cards next to [n] face-down units. *)
Theorem face_down_deals_are_unbounded (n : nat) :
  deck (run new_game_state (replicate n (OpDealFaceDown "dealer"))) = deck new_game_state /\
  total_cards (face_down (run new_game_state (replicate n (OpDealFaceDown "dealer"))))
  = Z.of_nat n /\
  count_of (face_down_owners (run new_game_state (replicate n (OpDealFaceDown "dealer"))))
           "dealer" = Z.of_nat n /\
  total_in_play (run new_game_state (replicate n (OpDealFaceDown "dealer")))
  = 52 + Z.of_nat n.
Proof.
  assert (deck (run new_game_state (replicate n (OpDealFaceDown "dealer")))
          = deck new_game_state /\
          dealer_hand (run new_game_state (replicate n (OpDealFaceDown "dealer")))
          = dealer_hand new_game_state /\
          discard (run new_game_state (replicate n (OpDealFaceDown "dealer")))
          = discard new_game_state /\
          players (run new_game_state (replicate n (OpDealFaceDown "dealer")))
          = players new_game_state /\
          total_cards (face_down (run new_game_state (replicate n (OpDealFaceDown "dealer"))))
          = Z.of_nat n /\
          count_of (face_down_owners
                      (run new_game_state (replicate n (OpDealFaceDown "dealer"))))
                   "dealer" = Z.of_nat n) as (Hd & Hh & Hc & Hp & Hf & Ho).
  { induction n as [|n IH].
    - split_and!; vm_compute; reflexivity.
    - destruct IH as (Hd & Hh & Hc & Hp & Hf & Ho).
      replace (replicate (S n) (OpDealFaceDown "dealer"))
        with (replicate n (OpDealFaceDown "dealer") ++ [OpDealFaceDown "dealer"])%list
        by (by rewrite <- replicate_S_end).
      unfold run in *. rewrite foldl_app. cbn [foldl step].
      rewrite deal_face_down_dealer.
      + state_fields. split_and!; try done.
        * rewrite total_cards_add_card, Hf. lia.
        * unfold owner_incr. rewrite count_of_insert, decide_True by done.
          fold (count_of (face_down_owners
                            (foldl step new_game_state (replicate n (OpDealFaceDown "dealer"))))
                         "dealer").
          rewrite Ho. lia.
      + rewrite Hd, Hf. change (total_cards (deck new_game_state)) with 52. lia. }
  split_and!; try done.
  unfold total_in_play. rewrite Hd, Hh, Hc, Hp, Hf. vm_compute (total_cards _).
  change (players_total (players new_game_state)) with 0.
  vm_compute (total_cards _). lia.
Qed.

Lemma owners_incr_decr (o : gmap string Z) k :
  (forall n, o !! k = Some n -> n <> 0) ->
  (if default 0 (o !! k) + 1 - 1 =? 0
   then delete k (<[k := default 0 (o !! k) + 1 - 1]> (owner_incr k o))
   else <[k := default 0 (o !! k) + 1 - 1]> (owner_incr k o)) = o.
Proof.
  intros Hnz. unfold owner_incr.
  replace (default 0 (o !! k) + 1 - 1) with (default 0 (o !! k)) by lia.
  destruct (o !! k) as [n|] eqn:Hk; simpl.
  - pose proof (Hnz n eq_refl). destruct (n =? 0) eqn:Hz; [apply Z.eqb_eq in Hz; lia|].
    rewrite insert_insert_eq. by apply insert_id.
  - rewrite delete_insert_eq, delete_insert_eq. by apply delete_id.
Qed.

(** [flip_card] when the owner has a face-down card and the card is in
    the deck. *)
Lemma flip_card_eq s who card owner_key target n deck1 :
  flip_target s who = Some (owner_key, target) ->
  face_down_owners s !! owner_key = Some n -> n <> 0 ->
  remove_card (deck s) (normalize card) 1 = (true, deck1) ->
  flip_card s who card
  = (Flipped owner_key (normalize card),
     add_to_target
       (set_face_down_owners
          (set_face_down (set_deck s deck1) (snd (remove_card (face_down s) "FACEDOWN" 1)))
          (if n - 1 =? 0 then delete owner_key (<[owner_key := n - 1]> (face_down_owners s))
           else <[owner_key := n - 1]> (face_down_owners s)))
       target (normalize card)).
Proof.
  intros Ht Hn Hnz Hrm. unfold flip_card. rewrite Ht, Hn.
  apply Z.eqb_neq in Hnz. rewrite Hnz, Hrm. reflexivity.
Qed.

Lemma lookup_owner_incr (o : gmap string Z) k :
  owner_incr k o !! k = Some (default 0 (o !! k) + 1).
Proof. unfold owner_incr. apply lookup_insert_eq. Qed.

(** X11: on a reachable state, a face-down deal followed by the flip of an
    available card for the same target leaves the state that dealing the
    card face up leaves. *)
Theorem face_down_then_flip_is_deal (s : GameState) (target card : string) :
  reachable s ->
  is_failure (fst (deal_face_down s target)) = false ->
  fst (remove_card (deck s) (normalize card) 1) = true ->
  is_failure (fst (flip_card (snd (deal_face_down s target)) target card)) = false /\
  snd (flip_card (snd (deal_face_down s target)) target card)
  = snd (deal_card s card target).
Proof.
  intros Hr Hfd Hrm. pose proof (reachable_wf s Hr) as Hwf.
  destruct (remove_card (deck s) (normalize card) 1) as [ok deck1] eqn:Hrm'.
  simpl in Hrm. subst ok.
  assert (snd (remove_card (add_card (face_down s) "FACEDOWN" 1) "FACEDOWN" 1) = face_down s)
    as Hfdz.
  { rewrite remove_card_add_card_keeps; [done|].
    intros n Hn. by apply (wf_face_down s Hwf) in Hn as [? _]. }
  assert (forall k n, face_down_owners s !! k = Some n -> n <> 0) as Hnz.
  { intros k n Hn. apply (wf_owners s Hwf) in Hn. lia. }
  assert (forall k, default 0 (face_down_owners s !! k) + 1 <> 0) as Hpos.
  { intros k. destruct (face_down_owners s !! k) as [n|] eqn:Hn; simpl; [|lia].
    apply (wf_owners s Hwf) in Hn. lia. }
  assert (exists owner_key tz,
            snd (deal_face_down s target)
            = set_face_down_owners (set_face_down s (add_card (face_down s) "FACEDOWN" 1))
                                   (owner_incr owner_key (face_down_owners s)) /\
            flip_target s target = Some (owner_key, tz) /\
            snd (deal_card s card target) = add_to_target (set_deck s deck1) tz (normalize card))
    as (owner_key & tz & Hs1 & Ht & Hdeal).
  { revert Hfd. unfold deal_face_down, flip_target, deal_card. rewrite Hrm'.
    destruct (_ =? 0); [done|].
    destruct (String.eqb (PyStr.lower target) "dealer").
    - intros _. by exists "dealer", None.
    - change (get_player_zone (set_deck s deck1) target) with (get_player_zone s target).
      destruct (get_player_zone s target) as [[n zone]|]; [|done].
      destruct (n =? 0); [done|]. intros _.
      by exists (player_key n), (Some (n, zone)). }
  rewrite Hs1, Hdeal.
  erewrite flip_card_eq; [| |apply lookup_owner_incr|apply Hpos|exact Hrm'].
  - split; [done|]. cbn [snd]. state_fields.
    rewrite Hfdz, (owners_incr_decr _ _ (Hnz owner_key)).
    destruct tz as [[n zone]|]; by destruct s.
  - exact Ht.
Qed.

(** A king dealt face down to the dealer of a new game and flipped. *)
Lemma face_down_then_flip_is_deal_witness :
  snd (flip_card (snd (deal_face_down new_game_state "Dealer")) "Dealer" "k")
  = snd (deal_card new_game_state "k" "Dealer").
Proof.
  apply (face_down_then_flip_is_deal new_game_state "Dealer" "k").
  - apply reachable_new.
  - vm_compute. reflexivity.
  - vm_compute. reflexivity.
Defined.

Lemma discard_empty_hands (l : list (Z * CardZone)) d :
  Forall (fun p => cards (snd p) = ∅) l ->
  foldl (fun d '(_, zone) => add_cards d (fst (clear zone))) d l = d /\
  foldl (fun n '(_, zone) => n + Z.of_nat (length (fst (clear zone)))) 0 l = 0.
Proof.
  induction 1 as [|[n zone] l Hz _ [IH1 IH2]]; [done|].
  cbn [foldl]. simpl in Hz.
  assert (fst (clear zone) = []) as ->.
  { simpl. unfold get_all_cards. by rewrite Hz, map_to_list_empty. }
  done.
Qed.

Lemma cleared_players_empty (p : gmap Z CardZone) :
  Forall (fun q => cards (snd q) = ∅)
         (map_to_list ((fun zone => snd (clear zone)) <$> p)).
Proof.
  apply Forall_forall. intros [n z] Hin. apply elem_of_map_to_list in Hin.
  rewrite lookup_fmap in Hin. destruct (p !! n); simpl in Hin; [|done].
  by injection Hin as <-.
Qed.

(** [clear_hands] in one equation. *)
Lemma clear_hands_eq t :
  clear_hands t
  = (ClearedHands
       (foldl (fun n '(_, zone) => n + Z.of_nat (length (fst (clear zone)))) 0
              (map_to_list (players t)))
       (Z.of_nat (length (get_all_cards (dealer_hand t))))
       (total_cards (face_down t))
       (Z.of_nat (size (players t))),
     mkState (deck t) (with_cards (dealer_hand t) ∅)
       (if 0 <? total_cards (face_down t)
        then add_cards
               (add_cards
                  (foldl (fun d '(_, zone) => add_cards d (fst (clear zone))) (discard t)
                         (map_to_list (players t)))
                  (get_all_cards (dealer_hand t)))
               (replicate (Z.to_nat (total_cards (face_down t))) "UNKNOWN")
        else add_cards
               (foldl (fun d '(_, zone) => add_cards d (fst (clear zone))) (discard t)
                      (map_to_list (players t)))
               (get_all_cards (dealer_hand t)))
       (if 0 <? total_cards (face_down t) then with_cards (face_down t) ∅ else face_down t)
       ∅ ((fun zone => snd (clear zone)) <$> players t) (next_player_number t)).
Proof.
  unfold clear_hands. simpl. destruct (0 <? total_cards (face_down t)); simpl;
    by rewrite map_size_fmap.
Qed.

(** X12: [clear_hands] keeps the deck, the player numbers and the player
    counter, empties the dealer hand, every player hand and the owners,
    and is idempotent: a second [clear_hands] reports nothing moved from the
    hands and leaves the state as the first one left it.  This holds for
    every state. *)
Theorem clear_hands_idempotent (s : GameState) :
  deck (snd (clear_hands s)) = deck s /\
  next_player_number (snd (clear_hands s)) = next_player_number s /\
  (forall n, is_Some (players (snd (clear_hands s)) !! n) <-> is_Some (players s !! n)) /\
  (forall n zone, players (snd (clear_hands s)) !! n = Some zone -> cards zone = ∅) /\
  cards (dealer_hand (snd (clear_hands s))) = ∅ /\
  face_down_owners (snd (clear_hands s)) = ∅ /\
  snd (clear_hands (snd (clear_hands s))) = snd (clear_hands s) /\
  (exists face_down_count,
     fst (clear_hands (snd (clear_hands s)))
     = ClearedHands 0 0 face_down_count (Z.of_nat (size (players s))) /\
     face_down_count <= 0).
Proof.
  rewrite (clear_hands_eq (snd (clear_hands s))).
  rewrite (clear_hands_eq s). cbn [fst snd]. state_fields.
  set (fd := if 0 <? total_cards (face_down s) then with_cards (face_down s) ∅
             else face_down s).
  set (d := if 0 <? total_cards (face_down s) then add_cards _ _ else add_cards _ _).
  assert (total_cards fd <= 0) as Hle.
  { subst fd. destruct (0 <? total_cards (face_down s)) eqn:Hpos.
    - rewrite total_cards_empty. lia.
    - by apply Z.ltb_ge in Hpos. }
  assert ((0 <? total_cards fd) = false) as Hfalse by (by apply Z.ltb_ge).
  destruct (discard_empty_hands _ d (cleared_players_empty (players s))) as [Hd Hn].
  rewrite Hfalse, Hd, Hn, get_all_cards_empty. cbn [length add_cards foldl].
  split_and!; try done.
  - intros n. rewrite lookup_fmap. destruct (players s !! n); simpl; split; intros [? ?]; eauto;
      done.
  - intros n zone. rewrite lookup_fmap. destruct (players s !! n); simpl; [|done].
    by intros [= <-].
  - f_equal. rewrite <- map_fmap_compose. apply map_fmap_ext. by intros n z _.
  - exists (total_cards fd). split; [|done]. by rewrite map_size_fmap.
Qed.

Lemma total_cleared_eq (l : list (Z * CardZone)) n0 :
  Forall (fun p => zone_holds (fun k => k ∈ RANKS) (snd p)) l ->
  foldl (fun n '(_, zone) => n + Z.of_nat (length (fst (clear zone)))) n0 l
  = n0 + foldr (fun p acc => acc + total_cards (snd p)) 0 l.
Proof.
  intros Hl. revert n0. induction Hl as [|[n zone] l Hz _ IH]; intros n0.
  - simpl. lia.
  - cbn [foldl foldr snd]. rewrite IH. simpl in Hz.
    change (fst (clear zone)) with (get_all_cards zone).
    rewrite length_get_all_cards; [lia|]. intros k c Hk. apply Hz in Hk. lia.
Qed.

Lemma face_down_empty_of_total s :
  wf_state s -> total_cards (face_down s) <= 0 -> cards (face_down s) = ∅.
Proof.
  intros Hwf Hle. apply map_empty. intros k.
  destruct (cards (face_down s) !! k) as [n|] eqn:Hk; [|done].
  pose proof (wf_face_down s Hwf k n Hk) as [Hn ->].
  rewrite (total_cards_single _ _ (wf_face_down s Hwf)) in Hle.
  unfold count_of in Hle. rewrite Hk in Hle. simpl in Hle. lia.
Qed.

(** X13: after every sequence of operations, [clear_hands] puts into the
    discard pile, rank by rank, what the dealer hand and the player hands
    held, and one UNKNOWN unit per face-down card; the face-down zone is
    empty afterwards, and the message reports the cards that left the
    player hands, the dealer hand and the face-down zone. *)
Theorem clear_hands_fills_discard (ops : list op) (r : rank) :
  count_of (cards (discard (snd (clear_hands (run new_game_state ops))))) (rank_label r)
  = count_of (cards (discard (run new_game_state ops))) (rank_label r)
    + count_of (cards (dealer_hand (run new_game_state ops))) (rank_label r)
    + players_count (players (run new_game_state ops)) (rank_label r) /\
  count_of (cards (discard (snd (clear_hands (run new_game_state ops))))) "UNKNOWN"
  = count_of (cards (discard (run new_game_state ops))) "UNKNOWN"
    + total_cards (face_down (run new_game_state ops)) /\
  cards (face_down (snd (clear_hands (run new_game_state ops)))) = ∅ /\
  fst (clear_hands (run new_game_state ops))
  = ClearedHands (players_total (players (run new_game_state ops)))
                 (total_cards (dealer_hand (run new_game_state ops)))
                 (total_cards (face_down (run new_game_state ops)))
                 (Z.of_nat (size (players (run new_game_state ops)))).
Proof.
  assert (reachable (run new_game_state ops)) as Hr by apply reachable_run, reachable_new.
  generalize dependent (run new_game_state ops). intros s Hr.
  pose proof (reachable_wf s Hr) as Hwf.
  pose proof (wf_total_face_down_nonneg s Hwf) as Hfdc.
  pose proof (rank_label_in_RANKS r) as Hrank.
  assert (rank_label r <> "UNKNOWN") as Hunk by (intros Heq; rewrite Heq in Hrank;
                                                 by apply UNKNOWN_not_rank).
  assert (Forall (fun p => zone_holds (fun k => k ∈ RANKS) (snd p)) (map_to_list (players s)))
    as Hhands.
  { apply Forall_forall. intros [n z] Hin. apply elem_of_map_to_list in Hin.
    simpl. by eapply (wf_players s Hwf). }
  rewrite clear_hands_eq. cbn [fst snd]. state_fields.
  destruct (discard_hands _ (discard s) Hhands (wf_discard s Hwf)) as (Hd1 & _ & Hu1).
  pose proof (discard_hands_count _ (discard s) (rank_label r) Hhands) as Hc1.
  rewrite <- (sum_values_to_list (fun zone => count_of (cards zone) (rank_label r))) in Hc1.
  fold (players_count (players s) (rank_label r)) in Hc1.
  set (discard1 := foldl _ (discard s) _) in *.
  destruct (discard_one_hand discard1 (dealer_hand s) Hd1 (wf_dealer s Hwf)) as (_ & _ & Hu2).
  change (fst (clear (dealer_hand s))) with (get_all_cards (dealer_hand s)) in Hu2.
  pose proof (count_of_drained (dealer_hand s) discard1 (rank_label r)
                (hand_keys_normalized _ (wf_dealer s Hwf))) as Hc2.
  split_and!.
  - destruct (0 <? total_cards (face_down s)).
    + rewrite count_of_add_cards_other; [lia|].
      apply Forall_forall. intros c Hin. apply elem_of_replicate in Hin as [-> _].
      by intros Heq.
    + lia.
  - destruct (0 <? total_cards (face_down s)) eqn:Hpos.
    + apply Z.ltb_lt in Hpos.
      rewrite count_of_add_cards_replicate by reflexivity. rewrite Z2Nat.id by lia. lia.
    + apply Z.ltb_ge in Hpos. lia.
  - destruct (0 <? total_cards (face_down s)) eqn:Hpos; [done|].
    apply Z.ltb_ge in Hpos. by apply face_down_empty_of_total.
  - f_equal.
    + rewrite total_cleared_eq by done. unfold players_total.
      rewrite (sum_values_to_list total_cards). lia.
    + apply length_get_all_cards. intros k n Hk. apply (wf_dealer s Hwf) in Hk. lia.
Qed.

(** ** More on the hand total *)

(** X14: on a hand of rank labels the total is the best value in the sense
    of the docstring: it is one of the values obtained by counting some of
    the aces as 1 instead of 11, no such value that is at most 21 is larger,
    and it exceeds 21 only when every ace already counts 1. *)
Theorem hand_total_is_best_value (rs : list rank) :
  exists total,
    calculate_hand_total (rank_label <$> rs) = Some total /\
    (exists k, (k <= spec_aces rs)%nat /\ total = spec_provisional rs - 10 * Z.of_nat k) /\
    (forall k, (k <= spec_aces rs)%nat ->
               spec_provisional rs - 10 * Z.of_nat k <= 21 ->
               spec_provisional rs - 10 * Z.of_nat k <= total) /\
    (21 < total -> total = spec_provisional rs - 10 * Z.of_nat (spec_aces rs)).
Proof.
  exists (adjust_aces (spec_aces rs) (spec_provisional rs)). split.
  { unfold calculate_hand_total. rewrite hand_loop_ranks. simpl. do 2 f_equal. }
  generalize (spec_aces rs) as a. generalize (spec_provisional rs) as p. intros p a.
  split_and!.
  - rewrite adjust_aces_closed.
    exists (Z.to_nat (Z.min (Z.of_nat a) (Z.max 0 ((p - 12) / 10)))). split; lia.
  - intros k Hk Hle. rewrite adjust_aces_closed.
    pose proof (Z.div_mod (p - 12) 10 ltac:(lia)).
    pose proof (Z.mod_pos_bound (p - 12) 10 ltac:(lia)). lia.
  - apply adjust_aces_bust.
Qed.

Lemma card_step_None card :
  card_step card = None
  <-> (normalize card ∉ ["J"; "Q"; "K"; "A"]) /\ PyStr.int (normalize card) = None.
Proof.
  unfold card_step.
  assert (normalize card ∈ ["J"; "Q"; "K"; "A"]
          <-> normalize card ∈ ["J"; "Q"; "K"] \/ normalize card = "A") as Hin.
  { rewrite !elem_of_cons, !elem_of_nil. tauto. }
  destruct (bool_decide_reflect (normalize card ∈ ["J"; "Q"; "K"])) as [Hf|Hf].
  - split; [done|]. intros [Hn _]. exfalso. apply Hn, Hin. by left.
  - destruct (String.eqb_spec (normalize card) "A") as [Ha|Ha].
    + split; [done|]. intros [Hn _]. exfalso. apply Hn, Hin. by right.
    + destruct (PyStr.int (normalize card)); simpl.
      * split; [done|]. by intros [_ ?].
      * split; [|done]. intros _. split; [|done]. rewrite Hin. tauto.
Qed.

Lemma hand_loop_None cards total aces :
  hand_loop cards total aces = None <-> Exists (fun c => card_step c = None) cards.
Proof.
  revert total aces. induction cards as [|c l IH]; intros total aces.
  - simpl. split; [done|]. by intros H%Exists_nil.
  - rewrite hand_loop_cons, Exists_cons. destruct (card_step c) as [[v b]|].
    + rewrite IH. split; [by right|]. by intros [|].
    + split; [by left|done].
Qed.

(** X15: [calculate_hand_total] raises exactly when some card, once
    normalized, is none of J, Q, K, A and no integer literal; so a hand that
    held a FACEDOWN or UNKNOWN marker would raise. *)
Theorem hand_total_raises_iff (cards : list string) :
  (calculate_hand_total cards = None
   <-> Exists (fun c => (normalize c ∉ ["J"; "Q"; "K"; "A"])
                        /\ PyStr.int (normalize c) = None) cards) /\
  ("FACEDOWN" ∈ cards \/ "UNKNOWN" ∈ cards -> calculate_hand_total cards = None).
Proof.
  assert (calculate_hand_total cards = None
          <-> Exists (fun c => (normalize c ∉ ["J"; "Q"; "K"; "A"])
                               /\ PyStr.int (normalize c) = None) cards) as Hiff.
  { unfold calculate_hand_total.
    destruct (hand_loop cards 0 0) as [[t a]|] eqn:Hl.
    - split; [done|]. intros Hex. exfalso.
      assert (hand_loop cards 0 0 = None); [|congruence].
      apply hand_loop_None. eapply Exists_impl; [exact Hex|].
      intros c Hc. by apply card_step_None.
    - split; [|done]. intros _. apply hand_loop_None in Hl.
      eapply Exists_impl; [exact Hl|]. intros c Hc. by apply card_step_None. }
  split; [exact Hiff|].
  intros Hin. apply Hiff, Exists_exists.
  destruct Hin as [Hin|Hin]; eexists; (split; [exact Hin|]);
    (split; [vm_compute; intros H; repeat (apply elem_of_cons in H as [H|H]; [discriminate|]);
             by apply elem_of_nil in H
            |vm_compute; reflexivity]).
Qed.

Lemma card_step_normalize c c' : normalize c = normalize c' -> card_step c = card_step c'.
Proof. unfold card_step. by intros ->. Qed.

(** X16: the total does not depend on the order of the cards, nor on the
    case of a label or the blanks around it. *)
Theorem hand_total_ignores_order_and_case (l l' l'' : list string) :
  l ≡ₚ l' -> Forall2 (fun a b => normalize a = normalize b) l' l'' ->
  calculate_hand_total l = calculate_hand_total l''.
Proof.
  intros Hp Hn. rewrite (calculate_hand_total_Permutation l l' Hp).
  unfold calculate_hand_total.
  assert (forall t a, hand_loop l' t a = hand_loop l'' t a) as Heq.
  { clear Hp. induction Hn as [|c c' l1 l2 Hc _ IH]; intros t a; [done|].
    rewrite !hand_loop_cons, (card_step_normalize c c' Hc).
    destruct (card_step c') as [[v b]|]; [apply IH|done]. }
  by rewrite Heq.
Qed.

(** An ace and a king, written in another order and another case. *)
Lemma hand_total_ignores_order_and_case_witness :
  calculate_hand_total ["A"; "K"] = calculate_hand_total [" k"; "a "].
Proof.
  apply (hand_total_ignores_order_and_case ["A"; "K"] ["K"; "A"] [" k"; "a "]).
  - apply Permutation_swap.
  - repeat constructor.
Defined.

(** ** More on the probability query *)

Lemma classify_nonneg hand threshold items g l e g' l' e' :
  Forall (fun p => 0 <= snd p) items -> 0 <= g -> 0 <= l -> 0 <= e ->
  foldl (classify hand threshold) (Some (g, l, e)) items = Some (g', l', e') ->
  0 <= g' /\ 0 <= l' /\ 0 <= e'.
Proof.
  intros Hall. revert g l e. induction Hall as [|item items Hi _ IH]; intros g l e Hg Hl He;
    cbn [foldl].
  - by intros [= <- <- <-].
  - destruct (classify hand threshold (Some (g, l, e)) item) as [[[g1 l1] e1]|] eqn:Hc.
    + apply classify_one in Hc as (t & _ & [[_ Hb]|[[_ Hb]|[_ Hb]]]); simplify_eq;
        apply IH; lia.
    + by rewrite classify_None.
Qed.

Lemma probability_nonneg s who threshold ct th ta g l e :
  calculate_probability_after_hit s who threshold = Some (Distribution ct th ta g l e) ->
  (forall k n, cards (deck s) !! k = Some n -> 0 <= n) -> 0 <= g /\ 0 <= l /\ 0 <= e.
Proof.
  intros Hd Hnn. revert Hd. unfold calculate_probability_after_hit.
  destruct (get_hand_cards s who) as [|c hand]; [done|].
  destruct (calculate_hand_total (c :: hand)); [|done].
  destruct (_ =? 0); [done|].
  destruct (foldl _ _ _) as [[[g' l'] e']|] eqn:Hf; [|done].
  intros [= _ _ _ -> -> ->].
  apply (classify_nonneg _ _ _ 0 0 0) in Hf; [done| |lia..].
  apply Forall_forall. intros [k n] Hin. apply elem_of_map_to_list in Hin. simpl. eauto.
Qed.



(** X18: the two failures that the query reports: the hand is empty (also
    for a player that does not exist); or the hand has cards and a total,
    and the deck total is 0. *)
Theorem probability_reported_failures (s : GameState) (who : string) (threshold : Z) :
  (calculate_probability_after_hit s who threshold = Some (NoCardsInHand who)
   <-> get_hand_cards s who = []) /\
  (calculate_probability_after_hit s who threshold = Some NoCardsToDraw
   <-> get_hand_cards s who <> [] /\
       is_Some (calculate_hand_total (get_hand_cards s who)) /\
       total_cards (deck s) = 0) /\
  (PyStr.lower who <> "dealer" -> get_player_zone s who = None ->
   calculate_probability_after_hit s who threshold = Some (NoCardsInHand who)).
Proof.
  destruct (probability_failures s who threshold) as [H1 H2]. split_and!; [done..|].
  intros Hd Hp. apply H1. unfold get_hand_cards.
  destruct (String.eqb_spec (PyStr.lower who) "dealer"); [done|]. by rewrite Hp.
Qed.

Lemma deck_keys_after_removal z card z' k :
  remove_card z card 1 = (true, z') -> is_Some (cards z' !! k) -> is_Some (cards z !! k).
Proof.
  intros Hrm. pose proof (remove_card_present _ _ _ Hrm) as Hpres.
  apply remove_card_success in Hrm as (_ & _ & ->).
  destruct (_ =? 0).
  - intros [n Hn]. apply lookup_delete_Some in Hn as [_ Hn]. eauto.
  - destruct (decide (k = normalize card)) as [->|Hne]; [done|].
    by rewrite lookup_insert_ne.
Qed.

Lemma deck_keys_step s o :
  deck_keys_are_ranks s -> reports_unavailable (step_reply s o) = false ->
  deck_keys_are_ranks (step s o).
Proof.
  intros Hk Hrep.
  assert (forall card to_zone,
            reports_unavailable (Some (fst (deal_card s card to_zone))) = false ->
            deck_keys_are_ranks (snd (deal_card s card to_zone))) as Hdeal.
  { intros card to_zone. unfold deal_card.
    destruct (remove_card (deck s) (normalize card) 1) as [[] deck1] eqn:Hrm; [|done].
    simpl. intros _. destruct (String.eqb _ _).
    - intros k Hin. apply Hk. by eapply deck_keys_after_removal.
    - change (get_player_zone (set_deck s deck1) to_zone) with (get_player_zone s to_zone).
      destruct (get_player_zone s to_zone) as [[n zone]|].
      + intros k Hin. apply Hk. by eapply deck_keys_after_removal.
      + simpl. by rewrite deck_put_back. }
  destruct o; cbn [step step_reply] in *; try done.
  - by apply Hdeal.
  - unfold deal_face_down. destruct (_ =? 0); [done|].
    destruct (String.eqb _ _); [done|].
    destruct (get_player_zone s to_zone) as [[n zone]|]; [|done]. by destruct (n =? 0).
  - revert Hrep. unfold flip_card.
    destruct (flip_target s who) as [[owner_key target]|]; [|done].
    destruct (face_down_owners s !! owner_key) as [n|]; [|done].
    destruct (n =? 0); [done|].
    destruct (remove_card (deck s) (normalize card) 1) as [[] deck1] eqn:Hrm; [|done].
    simpl. intros _ k Hin. apply Hk.
    destruct target as [[m zone]|]; by eapply deck_keys_after_removal.
  - rewrite hit_state. apply Hdeal. revert Hrep. unfold hit, deal_card.
    destruct (remove_card (deck s) (normalize card) 1) as [[] deck1]; [|done].
    simpl. destruct (String.eqb _ _); [done|].
    by destruct (get_player_zone (set_deck s deck1) who) as [[n zone]|].
  - unfold clear_hands. simpl. by destruct (0 <? _).
  - intros k. rewrite cards_deck_shuffle. apply full_deck_keys.
Qed.

Lemma deck_keys_run s ops :
  deck_keys_are_ranks s -> never_unavailable s ops -> deck_keys_are_ranks (run s ops).
Proof.
  unfold run. revert s. induction ops as [|o ops IH]; intros s Hk Hn; [done|].
  destruct Hn as [Ho Hn]. simpl. apply IH; [|done]. by apply deck_keys_step.
Qed.

(** X19: as long as no operation has reported that its card is not in the
    deck, every key of the deck is a rank label, and the query returns a
    distribution, with counters that are not negative and add up to the
    deck total, whenever the hand is not empty and the deck holds a card. *)
Theorem probability_defined_without_refusal
    (ops : list op) (who : string) (threshold : Z) :
  never_unavailable new_game_state ops ->
  (forall k, is_Some (cards (deck (run new_game_state ops)) !! k) -> k ∈ RANKS) /\
  (get_hand_cards (run new_game_state ops) who <> [] ->
   total_cards (deck (run new_game_state ops)) <> 0 ->
   exists ct g l e,
     calculate_probability_after_hit (run new_game_state ops) who threshold
     = Some (Distribution ct threshold (total_cards (deck (run new_game_state ops))) g l e) /\
     0 <= g /\ 0 <= l /\ 0 <= e /\
     g + l + e = total_cards (deck (run new_game_state ops))).
Proof.
  intros Hn.
  assert (deck_keys_are_ranks (run new_game_state ops)) as Hk.
  { apply deck_keys_run; [|done]. intros k. apply full_deck_keys. }
  split; [exact Hk|]. intros Hh Ht.
  assert (reachable (run new_game_state ops)) as Hr by apply reachable_run, reachable_new.
  destruct (probability_on_clean_deck _ who threshold Hr Hk Hh Ht)
    as (ct & g & l & e & Heq & Hsum).
  exists ct, g, l, e. split; [done|].
  pose proof (probability_nonneg _ _ _ _ _ _ _ _ _ Heq) as Hnn.
  split_and!; try done; apply Hnn;
    intros k n Hkn; apply (wf_deck _ (reachable_wf _ Hr)) in Hkn; lia.
Qed.

(** The deck of a new game after a king went to the dealer. *)
Lemma probability_defined_without_refusal_witness : "K" ∈ RANKS.
Proof.
  assert (never_unavailable new_game_state [OpDeal "K" "dealer"]) as Hn.
  { split; [vm_compute; reflexivity|exact I]. }
  apply (proj1 (probability_defined_without_refusal [OpDeal "K" "dealer"] "dealer" 21 Hn) "K").
  vm_compute. eexists. reflexivity.
Defined.

(** ** Saving and loading the state *)

(** X20: a saved state is loaded back unchanged, in the same process (from
    the global variable) and after a restart (from the JSON text of the
    storage, where the player numbers are strings). *)
Theorem saved_state_loads_back (st : Store) (g : GameState) :
  fst (load_game_state (save_game_state st g)) = g /\
  fst (load_game_state (restart (save_game_state st g))) = g /\
  from_dict (through_json (to_dict g)) = Some g.
Proof.
  split_and!; [done| |apply from_dict_through_json].
  unfold load_game_state, restart, save_game_state. simpl.
  by rewrite from_dict_through_json.
Qed.

Lemma players_from_dict_None_acc items :
  foldl (fun acc '(num, zone_data) =>
           match acc, key_int num with
           | Some m, Some n => Some (<[n := zone_from_dict zone_data]> m)
           | _, _ => None
           end)
        (None : option (gmap Z CardZone)) items = None.
Proof. induction items as [|[k zd] items IH]; [done|]. simpl. exact IH. Qed.

Lemma players_from_dict_acc items (acc : gmap Z CardZone) :
  foldl (fun acc '(num, zone_data) =>
           match acc, key_int num with
           | Some m, Some n => Some (<[n := zone_from_dict zone_data]> m)
           | _, _ => None
           end)
        (Some acc) items = None
  <-> Exists (fun kv => key_int (fst kv) = None) items.
Proof.
  revert acc. induction items as [|[k zd] items IH]; intros acc.
  - simpl. split; [done|]. by intros H%Exists_nil.
  - cbn [foldl]. rewrite Exists_cons. simpl fst. destruct (key_int k) as [n|].
    + rewrite IH. split; [by right|]. by intros [|].
    + rewrite players_from_dict_None_acc. split; [by left|done].
Qed.

(** [int] skips the blanks TAB to CR and the space around a literal, and
    raises on the separators FS, GS, RS and US, which [str.strip] takes
    off. *)
Example int_separator_examples :
  PyStr.int (String (PyStr.of_code 9) "1 ") = Some 1 /\
  PyStr.int (String (PyStr.of_code 28) "1") = None /\
  PyStr.int (String "1" (String (PyStr.of_code 31) "")) = None /\
  PyStr.strip (String (PyStr.of_code 28) "1") = "1".
Proof. split_and!; reflexivity. Qed.

(** A record whose player key carries a separator does not load. *)
Example from_dict_separator_example :
  from_dict (mkStateDict (zone_to_dict (new_zone "Deck")) (zone_to_dict (new_zone "Dealer Hand"))
               (zone_to_dict (new_zone "Discard Pile")) (zone_to_dict (new_zone "Face Down"))
               ∅ [(StrKey (String (PyStr.of_code 28) "1"),
                   zone_to_dict (new_zone "Player 1 Hand"))] 2)
  = None.
Proof. reflexivity. Qed.

(** X21: [from_dict] raises exactly when a key of the ["players"]
    dictionary is no integer literal; a dictionary without players always
    loads. *)
Theorem from_dict_raises_iff (data : StateDict) :
  (from_dict data = None
   <-> Exists (fun kv => key_int (fst kv) = None) (sd_players data)) /\
  (sd_players data = [] ->
   from_dict data
   = Some (mkState (zone_from_dict (sd_deck data)) (zone_from_dict (sd_dealer_hand data))
                   (zone_from_dict (sd_discard data)) (zone_from_dict (sd_face_down data))
                   (sd_face_down_owners data) ∅ (sd_next_player_number data))).
Proof.
  split.
  - unfold from_dict, players_from_dict. rewrite <- (players_from_dict_acc _ ∅).
    destruct (foldl _ _ _); split; intros Heq; done.
  - intros Hnil. unfold from_dict, players_from_dict. by rewrite Hnil.
Qed.

(** ** The total printed by the status *)

(** X22: after every sequence of operations the total that [get_status]
    prints as "tracked" is at least 52, and it is 52 exactly when no
    face-down card is on the table and no UNKNOWN unit is in the discard
    pile. *)
Theorem status_total_tracked (ops : list op) :
  52 <= total_in_play (run new_game_state ops) /\
  (total_in_play (run new_game_state ops) = 52
   <-> cards (face_down (run new_game_state ops)) = ∅ /\
       cards (discard (run new_game_state ops)) !! "UNKNOWN" = None).
Proof.
  assert (reachable (run new_game_state ops)) as Hr by apply reachable_run, reachable_new.
  generalize dependent (run new_game_state ops). intros s Hr.
  pose proof (reachable_wf s Hr) as Hwf.
  pose proof (wf_known s Hwf) as Hk.
  pose proof (wf_total_face_down_nonneg s Hwf) as Hfd.
  pose proof (count_of_nonneg_zone _ (discard s) "UNKNOWN" (wf_discard s Hwf)) as Hu.
  unfold total_in_play. split; [lia|]. split.
  - intros Ht. split.
    + apply face_down_empty_of_total; [done|lia].
    + destruct (cards (discard s) !! "UNKNOWN") as [n|] eqn:Hn; [|done].
      pose proof (wf_discard s Hwf _ _ Hn) as [Hpos _].
      unfold count_of in *. rewrite Hn in *. simpl in *. lia.
  - intros [Hf Hn]. unfold count_of in *. rewrite Hn in *. simpl in *.
    assert (total_cards (face_down s) = 0); [|lia].
    unfold total_cards. rewrite Hf. apply (sum_values_empty (K:=string) (fun x : Z => x)).
Qed.

(** ** Resolving a player *)

Lemma pretty_N_go_all_chars (P : ascii -> bool) (x : N) s :
  (forall d, P (pretty_N_char d) = true) ->
  PyStr.all_chars P s = true -> PyStr.all_chars P (pretty_N_go x s) = true.
Proof.
  intros HP. revert s. induction (N.lt_wf_0 x) as [x _ IH]. intros s Hs.
  destruct (decide (x = 0)%N) as [->|Hx]; [by rewrite pretty_N_go_0|].
  rewrite pretty_N_go_step by (by apply N.neq_0_lt_0).
  apply IH.
  - apply N.div_lt; [by apply N.neq_0_lt_0|done].
  - simpl. by rewrite HP, Hs.
Qed.

Lemma pretty_N_go_nonempty (x : N) : (0 < x)%N -> pretty_N_go x "" <> "".
Proof.
  intros Hx. by destruct (pretty_N_go_shape x "" Hx eq_refl) as [_ (d & r & ->)].
Qed.

(** The decimal text of an integer: not empty, made of digits and the
    minus sign. *)
Lemma str_chars (P : ascii -> bool) (n : Z) :
  (forall d, P (pretty_N_char d) = true) -> P "-"%char = true ->
  PyStr.all_chars P (PyStr.str n) = true /\ PyStr.str n <> "".
Proof.
  intros HP Hm. unfold PyStr.str, pretty, pretty_Z. destruct n as [|p|p].
  - split; [|done]. change (PyStr.all_chars P "0") with (P (pretty_N_char 0) && true).
    by rewrite HP.
  - change (pretty p) with (pretty_N_go (N.pos p) ""). split.
    + by apply pretty_N_go_all_chars.
    + by apply pretty_N_go_nonempty.
  - change ("-" +:+ pretty p) with (String "-" (pretty_N_go (N.pos p) "")). split; [|done].
    change (P "-"%char && PyStr.all_chars P (pretty_N_go (N.pos p) "") = true).
    rewrite Hm. by apply pretty_N_go_all_chars.
Qed.

Lemma digit_char_cases (P : ascii -> bool) :
  P "0"%char = true -> P "1"%char = true -> P "2"%char = true -> P "3"%char = true ->
  P "4"%char = true -> P "5"%char = true -> P "6"%char = true -> P "7"%char = true ->
  P "8"%char = true -> P "9"%char = true -> forall d, P (pretty_N_char d) = true.
Proof. intros. unfold pretty_N_char. by repeat case_match. Qed.

Lemma lower_fixed s :
  PyStr.all_chars (fun c => negb (PyStr.is_upper_char c)) s = true -> PyStr.lower s = s.
Proof.
  unfold PyStr.lower. induction s as [|c r IH]; simpl; [done|].
  intros [Hc Hr]%andb_prop. rewrite IH by done. unfold PyStr.lower_char.
  by destruct (PyStr.is_upper_char c).
Qed.

Lemma delete_all_fixed s :
  PyStr.all_chars (fun c => negb (Ascii.eqb c "p")) s = true ->
  PyStr.delete_all "player" 0 s = s.
Proof.
  induction s as [|c r IH]; [done|]. cbn [PyStr.all_chars].
  intros [Hc Hr]%andb_prop. cbn [PyStr.delete_all PyStr.starts_with].
  rewrite Ascii.eqb_sym. apply negb_true_iff in Hc. rewrite Hc. by rewrite IH.
Qed.

Lemma rstrip_cons c r a t :
  PyStr.rstrip r = String a t -> PyStr.rstrip (String c r) = String c (String a t).
Proof. intros Hr. simpl. by rewrite Hr. Qed.

Lemma rstrip_app p s a t :
  PyStr.rstrip s = String a t -> PyStr.rstrip (p +:+ s) = p +:+ String a t.
Proof.
  intros Hs. induction p as [|c p IH]; [done|].
  change (String c p +:+ s) with (String c (p +:+ s)).
  destruct (p +:+ String a t) as [|b u] eqn:Hp.
  - by destruct p.
  - change (String c p +:+ String a t) with (String c (p +:+ String a t)).
    rewrite Hp. by apply rstrip_cons.
Qed.

Lemma rstrip_no_space s :
  PyStr.all_chars (fun c => negb (PyStr.is_space c)) s = true -> PyStr.rstrip s = s.
Proof.
  induction s as [|c r IH]; [done|]. cbn [PyStr.all_chars].
  intros [Hc Hr]%andb_prop. simpl. rewrite IH by done.
  destruct r; [|done]. apply negb_true_iff in Hc. by rewrite Hc.
Qed.

(** The text of a player number, as [get_player_zone] sees it. *)
Lemma str_is_plain (n : Z) :
  PyStr.lower (PyStr.str n) = PyStr.str n /\
  PyStr.delete_all "player" 0 (PyStr.str n) = PyStr.str n /\
  PyStr.rstrip (PyStr.str n) = PyStr.str n /\
  PyStr.strip (PyStr.str n) = PyStr.str n /\
  exists a t, PyStr.str n = String a t /\ PyStr.is_space a = false.
Proof.
  destruct (str_chars (fun c => negb (PyStr.is_upper_char c)) n) as [H1 Hne];
    [by apply (digit_char_cases (fun c => negb (PyStr.is_upper_char c)))|done|].
  destruct (str_chars (fun c => negb (Ascii.eqb c "p")) n) as [H2 _];
    [by apply (digit_char_cases (fun c => negb (Ascii.eqb c "p")))|done|].
  destruct (str_chars (fun c => negb (PyStr.is_space c)) n) as [H3 _];
    [by apply (digit_char_cases (fun c => negb (PyStr.is_space c)))|done|].
  split_and!.
  - by apply lower_fixed.
  - by apply delete_all_fixed.
  - by apply rstrip_no_space.
  - by apply strip_no_space.
  - destruct (PyStr.str n) as [|a t]; [done|]. exists a, t. split; [done|].
    cbn [PyStr.all_chars] in H3. apply andb_prop in H3 as [Ha _]. by apply negb_true_iff.
Qed.

Lemma get_player_zone_int s identifier n :
  PyStr.strip (PyStr.delete_all "player" 0 (PyStr.strip (PyStr.lower identifier)))
  = PyStr.str n ->
  get_player_zone s identifier = pair n <$> players s !! n.
Proof.
  intros Hid. unfold get_player_zone. rewrite Hid.
  destruct (String.eqb_spec (PyStr.str n) "") as [He|_].
  { by destruct (str_chars (fun _ => true) n) as [_ Hne]. }
  rewrite int_str. by destruct (players s !! n).
Qed.

(** X23: the ways to name a player: the number alone, "Player" followed by
    a blank and the number, and the owner key "player<N>" all resolve to
    player N and its zone; and the owner of a face-down card resolved from
    the owner key is that key again. *)
Theorem player_names_resolve (s : GameState) (n : Z) (zone : CardZone) :
  players s !! n = Some zone ->
  get_player_zone s (PyStr.str n) = Some (n, zone) /\
  get_player_zone s ("Player " +:+ PyStr.str n) = Some (n, zone) /\
  get_player_zone s (player_key n) = Some (n, zone) /\
  flip_target s (player_key n) = Some (player_key n, Some (n, zone)).
Proof.
  intros Hz.
  destruct (str_is_plain n) as (Hl & Hd & Hr & Hs & a & t & Hat & Ha).
  assert (get_player_zone s (PyStr.str n) = Some (n, zone)) as H1.
  { rewrite (get_player_zone_int s _ n); [by rewrite Hz|]. by rewrite Hl, Hs, Hd, Hs. }
  assert (get_player_zone s (player_key n) = Some (n, zone)) as H3.
  { rewrite (get_player_zone_int s _ n); [by rewrite Hz|].
    unfold player_key.
    change (PyStr.lower ("player" +:+ PyStr.str n))
      with ("player" +:+ PyStr.lower (PyStr.str n)).
    rewrite Hl.
    assert (PyStr.strip ("player" +:+ PyStr.str n) = "player" +:+ PyStr.str n) as ->.
    { unfold PyStr.strip.
      change (PyStr.lstrip ("player" +:+ PyStr.str n)) with ("player" +:+ PyStr.str n).
      rewrite Hat in *. by apply rstrip_app. }
    change (PyStr.delete_all "player" 0 ("player" +:+ PyStr.str n))
      with (PyStr.delete_all "player" 0 (PyStr.str n)).
    by rewrite Hd, Hs. }
  split_and!; try done.
  - rewrite (get_player_zone_int s _ n); [by rewrite Hz|].
    change (PyStr.lower ("Player " +:+ PyStr.str n))
      with ("player " +:+ PyStr.lower (PyStr.str n)).
    rewrite Hl.
    assert (PyStr.strip ("player " +:+ PyStr.str n) = "player " +:+ PyStr.str n) as ->.
    { unfold PyStr.strip.
      change (PyStr.lstrip ("player " +:+ PyStr.str n)) with ("player " +:+ PyStr.str n).
      rewrite Hat in *. by apply rstrip_app. }
    change (PyStr.delete_all "player" 0 ("player " +:+ PyStr.str n))
      with (" " +:+ PyStr.delete_all "player" 0 (PyStr.str n)).
    rewrite Hd. unfold PyStr.strip.
    change (PyStr.lstrip (" " +:+ PyStr.str n)) with (PyStr.lstrip (PyStr.str n)).
    fold (PyStr.strip (PyStr.str n)). by rewrite Hs.
  - unfold flip_target. rewrite H3.
    destruct (String.eqb_spec (PyStr.lower (player_key n)) "dealer") as [Hd'|]; [|done].
    exfalso. revert Hd'. unfold player_key.
    change (PyStr.lower ("player" +:+ PyStr.str n))
      with ("player" +:+ PyStr.lower (PyStr.str n)). discriminate.
Qed.

(** One player at the table, named by its number. *)
Lemma player_names_resolve_witness :
  get_player_zone (step new_game_state OpAddPlayer) (PyStr.str 1)
  = Some (1, new_zone "Player 1 Hand").
Proof.
  apply (player_names_resolve (step new_game_state OpAddPlayer) 1 (new_zone "Player 1 Hand")).
  vm_compute. reflexivity.
Defined.

(** X24: an identifier that is blank once the word "player" is taken out
    names player 1: the number defaults to 1. *)
Theorem blank_identifier_is_player_one (s : GameState) (identifier : string) :
  PyStr.strip (PyStr.delete_all "player" 0 (PyStr.strip (PyStr.lower identifier))) = "" ->
  get_player_zone s identifier = pair 1 <$> players s !! 1.
Proof.
  intros Hid. unfold get_player_zone. rewrite Hid. simpl String.eqb. cbv iota.
  replace (PyStr.int "1") with (Some 1) by (vm_compute; reflexivity).
  by destruct (players s !! 1).
Qed.

(** The word "Player" alone, as the message handler passes it. *)
Lemma blank_identifier_is_player_one_witness :
  get_player_zone (step new_game_state OpAddPlayer) " Player "
  = pair 1 <$> players (step new_game_state OpAddPlayer) !! 1.
Proof.
  apply (blank_identifier_is_player_one (step new_game_state OpAddPlayer) " Player ").
  vm_compute. reflexivity.
Defined.

(** ** Words and the parts of a message *)

Lemma append_nil s : "" +:+ s = s.
Proof. done. Qed.

Lemma append_cons c s t : String c s +:+ t = String c (s +:+ t).
Proof. done. Qed.

Lemma map_chars_app f a b :
  PyStr.map_chars f (a +:+ b) = PyStr.map_chars f a +:+ PyStr.map_chars f b.
Proof. induction a as [|c a IH]; simpl; [done|]. by rewrite IH. Qed.

Lemma lower_app a b : PyStr.lower (a +:+ b) = PyStr.lower a +:+ PyStr.lower b.
Proof. apply map_chars_app. Qed.

Lemma is_space_lower_char c : PyStr.is_space (PyStr.lower_char c) = PyStr.is_space c.
Proof. by destruct c as [[] [] [] [] [] [] [] []]. Qed.

Lemma no_space_lower w :
  PyStr.all_chars (fun c => negb (PyStr.is_space c)) w = true ->
  PyStr.all_chars (fun c => negb (PyStr.is_space c)) (PyStr.lower w) = true.
Proof.
  unfold PyStr.lower. induction w as [|c w IH]; simpl; [done|].
  intros [Hc Hw]%andb_prop. by rewrite is_space_lower_char, Hc, IH.
Qed.

Lemma is_word_parts w :
  is_word w = true ->
  w <> "" /\ PyStr.all_chars (fun c => negb (PyStr.is_space c)) w = true.
Proof.
  unfold is_word. intros [Hne Hw]%andb_prop. split; [|done].
  intros ->. done.
Qed.

Lemma is_word_lower w : is_word w = true -> is_word (PyStr.lower w) = true.
Proof.
  intros [Hne Hw]%is_word_parts. unfold is_word.
  rewrite no_space_lower by done. by destruct w.
Qed.

Lemma split_cons c r :
  split (String c r) =
  if PyStr.is_space c then split r
  else
    match r with
    | EmptyString => [String c EmptyString]
    | String d _ =>
        if PyStr.is_space d then String c EmptyString :: split r
        else
          match split r with
          | w :: ws => String c w :: ws
          | [] => [String c EmptyString]
          end
    end.
Proof. done. Qed.

(** A word followed by white space is the first part. *)
Lemma split_word_then w sp rest :
  is_word w = true -> PyStr.is_space sp = true ->
  split (w +:+ String sp rest) = w :: split (String sp rest).
Proof.
  intros [Hne Hw]%is_word_parts Hsp. induction w as [|c w IH]; [done|].
  cbn [PyStr.all_chars] in Hw. apply andb_prop in Hw as [Hc Hw].
  apply negb_true_iff in Hc.
  change (String c w +:+ String sp rest) with (String c (w +:+ String sp rest)).
  rewrite split_cons, Hc. destruct w as [|d w].
  - rewrite append_nil. by rewrite Hsp.
  - rewrite append_cons.
    pose proof Hw as Hw'. cbn [PyStr.all_chars] in Hw'.
    apply andb_prop in Hw' as [Hd _]. apply negb_true_iff in Hd. rewrite Hd.
    change (String d (w +:+ String sp rest)) with (String d w +:+ String sp rest).
    by rewrite IH.
Qed.

(** A word alone is the only part. *)
Lemma split_word w : is_word w = true -> split w = [w].
Proof.
  intros [Hne Hw]%is_word_parts. induction w as [|c w IH]; [done|].
  cbn [PyStr.all_chars] in Hw. apply andb_prop in Hw as [Hc Hw].
  apply negb_true_iff in Hc. rewrite split_cons, Hc. destruct w as [|d w]; [done|].
  pose proof Hw as Hw'. cbn [PyStr.all_chars] in Hw'.
  apply andb_prop in Hw' as [Hd _]. apply negb_true_iff in Hd. rewrite Hd.
  by rewrite IH.
Qed.

Lemma split_space sp rest : PyStr.is_space sp = true -> split (String sp rest) = split rest.
Proof. intros Hsp. by rewrite split_cons, Hsp. Qed.

Lemma rstrip_append p s :
  s <> "" -> PyStr.rstrip s = s -> PyStr.rstrip (p +:+ s) = p +:+ s.
Proof.
  intros Hne Hs. destruct s as [|a t]; [done|]. by apply rstrip_app.
Qed.

(** Texts that [rstrip] keeps whole: they end with a character that is no
    white space. *)
Lemma rstrip_tail_word w : is_word w = true -> w <> "" /\ PyStr.rstrip w = w.
Proof. intros [Hne Hw]%is_word_parts. split; [done|]. by apply rstrip_no_space. Qed.

Lemma rstrip_tail_append p s :
  s <> "" /\ PyStr.rstrip s = s -> p +:+ s <> "" /\ PyStr.rstrip (p +:+ s) = p +:+ s.
Proof.
  intros [Hne Hs]. split; [|by apply rstrip_append].
  destruct p; [done|discriminate].
Qed.

Lemma strip_head_tail c p s :
  PyStr.is_space c = false -> s <> "" /\ PyStr.rstrip s = s ->
  PyStr.strip (String c p +:+ s) = String c p +:+ s.
Proof.
  intros Hc Hs. unfold PyStr.strip. rewrite append_cons.
  cbn [PyStr.lstrip]. rewrite Hc, <- append_cons.
  by apply rstrip_tail_append.
Qed.

(** ** Searching a text *)

Lemma contains_cons sub c r :
  contains sub (String c r) = PyStr.starts_with sub (String c r) || contains sub r.
Proof. done. Qed.

Lemma contains_app_r sub p s : contains sub s = true -> contains sub (p +:+ s) = true.
Proof.
  intros Hs. induction p as [|c p IH]; [done|].
  change (String c p +:+ s) with (String c (p +:+ s)).
  rewrite contains_cons, IH. apply orb_true_r.
Qed.

(** A stretch without the first character of [sub] holds no start of it. *)
Lemma contains_skip a sub w rest :
  PyStr.all_chars (fun c => negb (Ascii.eqb a c)) w = true ->
  contains (String a sub) (w +:+ rest) = contains (String a sub) rest.
Proof.
  induction w as [|c w IH]; [done|]. cbn [PyStr.all_chars].
  intros [Hc Hw]%andb_prop. apply negb_true_iff in Hc.
  change (String c w +:+ rest) with (String c (w +:+ rest)).
  rewrite contains_cons. cbn [PyStr.starts_with]. rewrite Hc. by apply IH.
Qed.

Lemma space_char_eqb c : PyStr.is_space c = false -> Ascii.eqb " " c = false.
Proof. intros Hc. by destruct (Ascii.eqb_spec " " c) as [<-|]. Qed.

(** "face down" does not start inside a word that is followed by a space
    and a character other than "d". *)
Lemma face_down_not_at_word w t rest :
  PyStr.all_chars (fun c => negb (PyStr.is_space c)) w = true -> t <> "d"%char ->
  PyStr.starts_with "face down" (w +:+ String " " (String t rest)) = false.
Proof.
  intros Hw Ht.
  destruct w as [|c1 [|c2 [|c3 [|c4 [|c5 w]]]]];
    rewrite ?append_cons, ?append_nil;
    cbn [PyStr.starts_with PyStr.all_chars] in *.
  1-4: by repeat case_match.
  - repeat (case_match; [|done]).
    by destruct (Ascii.eqb_spec "d" t).
  - repeat (apply andb_prop in Hw as [?%negb_true_iff Hw]).
    rewrite (space_char_eqb c5) by done. by repeat case_match.
Qed.

Lemma face_down_not_in_word w :
  PyStr.all_chars (fun c => negb (PyStr.is_space c)) w = true ->
  contains "face down" w = false.
Proof.
  induction w as [|c w IH]; [done|]. intros Hw. rewrite contains_cons.
  rewrite IH by (cbn [PyStr.all_chars] in Hw; by apply andb_prop in Hw as [_ ?]).
  rewrite orb_false_r. clear IH.
  destruct w as [|c2 [|c3 [|c4 [|c5 w]]]];
    cbn [PyStr.starts_with PyStr.all_chars] in *.
  1-4: by repeat case_match.
  repeat (apply andb_prop in Hw as [?%negb_true_iff Hw]).
  rewrite (space_char_eqb c5) by done. by repeat case_match.
Qed.

Lemma face_down_after_word w t rest :
  PyStr.all_chars (fun c => negb (PyStr.is_space c)) w = true -> t <> "d"%char ->
  contains "face down" (w +:+ String " " (String t rest))
  = contains "face down" (String " " (String t rest)).
Proof.
  intros Hw Ht. induction w as [|c w IH]; [done|].
  change (String c w +:+ String " " (String t rest))
    with (String c (w +:+ String " " (String t rest))).
  rewrite contains_cons.
  change (String c (w +:+ String " " (String t rest)))
    with (String c w +:+ String " " (String t rest)).
  rewrite face_down_not_at_word by done.
  cbn [PyStr.all_chars] in Hw. apply andb_prop in Hw as [_ Hw]. by apply IH.
Qed.

(** ** The branches of the message handler *)

Lemma starts_with_dealer_hit s :
  PyStr.starts_with "dealer hit" s = true -> PyStr.starts_with "deal" s = true.
Proof.
  destruct s as [|c1 [|c2 [|c3 [|c4 s]]]]; cbn [PyStr.starts_with];
    by repeat case_match.
Qed.

(** X25: no message reaches a "dealer hit" branch of the handler: a text
    that starts with "dealer hit" starts with "deal", and the branch of the
    deal commands is tested first. *)
Theorem dealer_hit_branch_is_dead (query card : string) :
  parse_command query <> CmdDealerHit card /\
  parse_command query <> CmdUsage UsageDealerHit.
Proof.
  unfold parse_command. cbv zeta.
  destruct (PyStr.starts_with "dealer hit" (PyStr.lower (PyStr.strip query))) eqn:Hdh.
  - rewrite (starts_with_dealer_hit _ Hdh). by repeat case_match.
  - by repeat case_match.
Qed.

Ltac split_parts :=
  repeat first
    [ rewrite split_space by reflexivity
    | rewrite split_word_then by (assumption || reflexivity)
    | rewrite split_word by (assumption || reflexivity) ].

Ltac kept_tail :=
  repeat first
    [ apply rstrip_tail_word; assumption
    | apply rstrip_tail_append ].

(** "Player" alone, and "1", name player 1. *)
Lemma get_player_zone_Player s :
  get_player_zone s "Player" = get_player_zone s "1".
Proof.
  unfold get_player_zone. cbv zeta.
  replace (PyStr.strip (PyStr.delete_all "player" 0 (PyStr.strip (PyStr.lower "Player"))))
    with "" by (vm_compute; reflexivity).
  by replace (PyStr.strip (PyStr.delete_all "player" 0 (PyStr.strip (PyStr.lower "1"))))
    with "1" by (vm_compute; reflexivity).
Qed.

Lemma normalize_upper card : normalize (PyStr.upper card) = normalize card.
Proof. unfold normalize. by rewrite upper_idem. Qed.

Lemma deal_card_Player s card :
  snd (deal_card s (PyStr.upper card) "Player") = snd (deal_card s card "1").
Proof.
  unfold deal_card. rewrite normalize_upper.
  destruct (remove_card (deck s) (normalize card) 1) as [ok deck1].
  destruct ok; [|done]. cbn [negb].
  change (String.eqb (PyStr.lower "Player") "dealer") with false.
  change (String.eqb (PyStr.lower "1") "dealer") with false. cbv iota.
  rewrite get_player_zone_Player.
  by destruct (get_player_zone _ "1") as [[??]|].
Qed.

Lemma flip_card_Player s card :
  snd (flip_card s "Player" (PyStr.upper card)) = snd (flip_card s "1" card).
Proof.
  unfold flip_card, flip_target. rewrite normalize_upper.
  change (String.eqb (PyStr.lower "Player") "dealer") with false.
  change (String.eqb (PyStr.lower "1") "dealer") with false. cbv iota.
  rewrite get_player_zone_Player.
  by destruct (get_player_zone _ "1") as [[??]|].
Qed.

(** X26: the documented command "Dealer Hit <card>" is answered with the
    format reminder of the deal command, and the state is left as it was:
    the hit of the dealer is not recorded. *)
Theorem dealer_hit_command_is_refused (s : GameState) (c : string) :
  is_word c = true ->
  execute s (parse_command ("Dealer Hit " +:+ c)) = (Usage UsageDeal, s).
Proof.
  intros Hc.
  assert (PyStr.strip ("Dealer Hit " +:+ c) = "Dealer Hit " +:+ c) as Hstrip.
  { apply strip_head_tail; [done|kept_tail]. }
  assert (PyStr.lower ("Dealer Hit " +:+ c) = "dealer hit " +:+ PyStr.lower c) as Hlow.
  { by rewrite lower_app. }
  assert (contains "face down" ("dealer hit " +:+ PyStr.lower c) = false) as Hfd.
  { rewrite (contains_skip "f" "ace down" "dealer hit ") by reflexivity.
    apply face_down_not_in_word, no_space_lower. by apply is_word_parts. }
  assert (split ("Dealer Hit " +:+ c) = ["Dealer"; "Hit"; c]) as Hsplit.
  { change ("Dealer Hit " +:+ c) with ("Dealer" +:+ String " " ("Hit" +:+ String " " c)).
    by split_parts. }
  unfold parse_command. cbv zeta. by rewrite Hstrip, Hlow, Hfd, Hsplit.
Qed.

(** The example of the welcome message, "Dealer Hit K". *)
Lemma dealer_hit_command_is_refused_witness :
  execute new_game_state (parse_command ("Dealer Hit " +:+ "K"))
  = (Usage UsageDeal, new_game_state).
Proof. apply (dealer_hit_command_is_refused new_game_state "K"). reflexivity. Defined.

(** X27: in "Deal <card> to Player <n>" the number is not read: the target
    passed on is the word "Player", and the card goes where [deal_card]
    with the target "1" puts it, whatever <n> is. *)
Theorem deal_command_ignores_player_number (s : GameState) (c n : string) :
  is_word c = true -> is_word n = true ->
  parse_command ("Deal " +:+ c +:+ " to Player " +:+ n) = CmdDeal (PyStr.upper c) "Player" /\
  snd (execute s (parse_command ("Deal " +:+ c +:+ " to Player " +:+ n)))
  = snd (deal_card s c "1").
Proof.
  intros Hc Hn.
  assert (parse_command ("Deal " +:+ c +:+ " to Player " +:+ n)
          = CmdDeal (PyStr.upper c) "Player") as Hparse.
  { assert (PyStr.strip ("Deal " +:+ c +:+ " to Player " +:+ n)
            = "Deal " +:+ c +:+ " to Player " +:+ n) as Hstrip.
    { apply strip_head_tail; [done|kept_tail]. }
    assert (PyStr.lower ("Deal " +:+ c +:+ " to Player " +:+ n)
            = "deal " +:+ PyStr.lower c +:+ " to player " +:+ PyStr.lower n) as Hlow.
    { by rewrite !lower_app. }
    assert (contains "face down"
              ("deal " +:+ PyStr.lower c +:+ " to player " +:+ PyStr.lower n) = false) as Hfd.
    { rewrite (contains_skip "f" "ace down" "deal ") by reflexivity.
      change (" to player " +:+ PyStr.lower n)
        with (String " " (String "t" ("o player " +:+ PyStr.lower n))).
      rewrite face_down_after_word; [|by apply no_space_lower, is_word_parts|done].
      change (String " " (String "t" ("o player " +:+ PyStr.lower n)))
        with (" to player " +:+ PyStr.lower n).
      rewrite (contains_skip "f" "ace down" " to player ") by reflexivity.
      apply face_down_not_in_word, no_space_lower. by apply is_word_parts. }
    assert (split ("Deal " +:+ c +:+ " to Player " +:+ n)
            = ["Deal"; c; "to"; "Player"; n]) as Hsplit.
    { change ("Deal " +:+ c +:+ " to Player " +:+ n)
        with ("Deal" +:+ String " " (c +:+ String " " ("to" +:+ String " "
                ("Player" +:+ String " " n)))).
      by split_parts. }
    unfold parse_command. cbv zeta. by rewrite Hstrip, Hlow, Hfd, Hsplit. }
  split; [done|]. rewrite Hparse. apply deal_card_Player.
Qed.

(** "Deal K to Player 2" with two players at the table: the king goes to
    player 1. *)
Lemma deal_command_ignores_player_number_witness :
  snd (execute (run new_game_state [OpAddPlayer; OpAddPlayer])
         (parse_command ("Deal " +:+ "K" +:+ " to Player " +:+ "2")))
  = snd (deal_card (run new_game_state [OpAddPlayer; OpAddPlayer]) "K" "1").
Proof.
  apply (deal_command_ignores_player_number
           (run new_game_state [OpAddPlayer; OpAddPlayer]) "K" "2"); reflexivity.
Defined.

(** X28: in "Flip Player <n> <card>" the word "Player" is taken as the
    owner and the number as the card: the handler flips the card <n> for
    player 1, as [flip_card] with the owner "1" and the card <n> does. *)
Theorem flip_command_reads_number_as_card (s : GameState) (n c : string) :
  is_word n = true -> is_word c = true ->
  parse_command ("Flip Player " +:+ n +:+ " " +:+ c) = CmdFlip "Player" (PyStr.upper n) /\
  snd (execute s (parse_command ("Flip Player " +:+ n +:+ " " +:+ c)))
  = snd (flip_card s "1" n).
Proof.
  intros Hn Hc.
  assert (parse_command ("Flip Player " +:+ n +:+ " " +:+ c)
          = CmdFlip "Player" (PyStr.upper n)) as Hparse.
  { assert (PyStr.strip ("Flip Player " +:+ n +:+ " " +:+ c)
            = "Flip Player " +:+ n +:+ " " +:+ c) as Hstrip.
    { apply strip_head_tail; [done|kept_tail]. }
    assert (PyStr.lower ("Flip Player " +:+ n +:+ " " +:+ c)
            = "flip player " +:+ PyStr.lower n +:+ " " +:+ PyStr.lower c) as Hlow.
    { by rewrite !lower_app. }
    assert (split ("Flip Player " +:+ n +:+ " " +:+ c) = ["Flip"; "Player"; n; c]) as Hsplit.
    { change ("Flip Player " +:+ n +:+ " " +:+ c)
        with ("Flip" +:+ String " " ("Player" +:+ String " " (n +:+ String " " c))).
      by split_parts. }
    unfold parse_command. cbv zeta. by rewrite Hstrip, Hlow, Hsplit. }
  split; [done|]. rewrite Hparse. apply flip_card_Player.
Qed.

(** "Flip Player 2 K": the card looked for is "2". *)
Lemma flip_command_reads_number_as_card_witness :
  parse_command ("Flip Player " +:+ "2" +:+ " " +:+ "K") = CmdFlip "Player" (PyStr.upper "2").
Proof.
  apply (flip_command_reads_number_as_card new_game_state "2" "K"); reflexivity.
Defined.

(** X29: "Player <n> Hit <card>" is passed to [hit] with the card in upper
    case and <n> as the player, for every word <n> other than "hit". *)
Theorem player_hit_command_is_dispatched (s : GameState) (n c : string) :
  is_word n = true -> is_word c = true -> PyStr.lower n <> "hit" ->
  execute s (parse_command ("Player " +:+ n +:+ " Hit " +:+ c))
  = (Message (fst (hit s (PyStr.upper c) n)) true, snd (hit s (PyStr.upper c) n)).
Proof.
  intros Hn Hc Hne.
  assert (parse_command ("Player " +:+ n +:+ " Hit " +:+ c)
          = CmdPlayerHit (PyStr.upper c) n) as ->; [|done].
  assert (PyStr.strip ("Player " +:+ n +:+ " Hit " +:+ c)
          = "Player " +:+ n +:+ " Hit " +:+ c) as Hstrip.
  { apply strip_head_tail; [done|kept_tail]. }
  assert (PyStr.lower ("Player " +:+ n +:+ " Hit " +:+ c)
          = "player " +:+ PyStr.lower n +:+ " hit " +:+ PyStr.lower c) as Hlow.
  { by rewrite !lower_app. }
  assert (contains "hit" ("player " +:+ PyStr.lower n +:+ " hit " +:+ PyStr.lower c) = true)
    as Hhit.
  { by do 2 apply contains_app_r. }
  assert (split ("Player " +:+ n +:+ " Hit " +:+ c) = ["Player"; n; "Hit"; c]) as Hsplit.
  { change ("Player " +:+ n +:+ " Hit " +:+ c)
      with ("Player" +:+ String " " (n +:+ String " " ("Hit" +:+ String " " c))).
    by split_parts. }
  assert (hit_index ["Player"; n; "Hit"; c] = Some 2%nat) as Hidx.
  { cbn [hit_index]. apply String.eqb_neq in Hne. by rewrite Hne. }
  unfold parse_command. cbv zeta. by rewrite Hstrip, Hlow, Hhit, Hsplit, Hidx.
Qed.

(** "Player 2 Hit 5". *)
Lemma player_hit_command_is_dispatched_witness :
  execute new_game_state (parse_command ("Player " +:+ "2" +:+ " Hit " +:+ "5"))
  = (Message (fst (hit new_game_state (PyStr.upper "5") "2")) true,
     snd (hit new_game_state (PyStr.upper "5") "2")).
Proof.
  apply (player_hit_command_is_dispatched new_game_state "2" "5");
    [reflexivity|reflexivity|vm_compute; discriminate].
Defined.

(** ** The probability command *)

Lemma is_number_parts t :
  is_number t = true -> t <> "" /\ PyStr.all_chars is_digit t = true.
Proof.
  unfold is_number. intros [Hne Ht]%andb_prop. split; [|done].
  intros ->. done.
Qed.

Lemma all_chars_impl (P Q : ascii -> bool) s :
  (forall c, P c = true -> Q c = true) ->
  PyStr.all_chars P s = true -> PyStr.all_chars Q s = true.
Proof.
  intros HPQ. induction s as [|c s IH]; [done|]. cbn [PyStr.all_chars].
  intros [Hc Hs]%andb_prop. by rewrite (HPQ c Hc), IH.
Qed.

Lemma digit_not_space c : is_digit c = true -> negb (PyStr.is_space c) = true.
Proof. by destruct c as [[] [] [] [] [] [] [] []]. Qed.

Lemma digit_not_upper c : is_digit c = true -> negb (PyStr.is_upper_char c) = true.
Proof. by destruct c as [[] [] [] [] [] [] [] []]. Qed.

Lemma digit_is_not a c : is_digit a = false -> is_digit c = true -> negb (Ascii.eqb a c) = true.
Proof.
  intros Ha Hc. apply negb_true_iff. destruct (Ascii.eqb_spec a c) as [->|]; [|done].
  congruence.
Qed.

Lemma lower_number t : is_number t = true -> PyStr.lower t = t.
Proof.
  intros [_ Ht]%is_number_parts. apply lower_fixed.
  revert Ht. apply all_chars_impl, digit_not_upper.
Qed.

Lemma lstrip_number_app t rest :
  is_number t = true -> PyStr.lstrip (t +:+ rest) = t +:+ rest.
Proof.
  intros [Hne Ht]%is_number_parts. destruct t as [|c t]; [done|].
  cbn [PyStr.all_chars] in Ht. apply andb_prop in Ht as [Hc%digit_not_space _].
  apply negb_true_iff in Hc. rewrite append_cons. cbn [PyStr.lstrip]. by rewrite Hc.
Qed.

(** The group [(\d+)] stops at the first character that is no digit. *)
Lemma take_digits_app t c rest :
  PyStr.all_chars is_digit t = true -> is_digit c = false ->
  take_digits (t +:+ String c rest) = t.
Proof.
  intros Ht Hc. induction t as [|d t IH].
  - rewrite append_nil. cbn [take_digits]. unfold is_digit in Hc.
    by destruct (PyStr.digit_val c).
  - cbn [PyStr.all_chars] in Ht. apply andb_prop in Ht as [Hd Ht].
    rewrite append_cons. cbn [take_digits]. unfold is_digit in Hd.
    destruct (PyStr.digit_val d); [|done]. by rewrite IH.
Qed.

Lemma starts_with_app word rest : PyStr.starts_with word (word +:+ rest) = true.
Proof.
  induction word as [|a word IH]; [by destruct rest|].
  rewrite append_cons. cbn [PyStr.starts_with]. by rewrite Ascii.eqb_refl.
Qed.

Lemma drop_chars_app word rest : drop_chars (String.length word) (word +:+ rest) = rest.
Proof.
  induction word as [|a word IH]; [by destruct rest|].
  rewrite append_cons. by cbn [drop_chars String.length].
Qed.

(** A match of the word, one space and a number that a character other
    than a digit follows. *)
Lemma digits_after_number word spaces_needed t c rest :
  is_number t = true -> is_digit c = false ->
  digits_after word spaces_needed (word +:+ String " " (t +:+ String c rest)) = Some t.
Proof.
  intros Ht Hc. unfold digits_after.
  rewrite starts_with_app, drop_chars_app. cbv zeta.
  change (PyStr.is_space " ") with true. rewrite andb_false_r.
  change (PyStr.lstrip (String " " (t +:+ String c rest)))
    with (PyStr.lstrip (t +:+ String c rest)).
  rewrite lstrip_number_app by done. apply is_number_parts in Ht as [Hne Ht].
  rewrite take_digits_app by done. by destruct t.
Qed.

Lemma search_here word spaces_needed s d :
  digits_after word spaces_needed s = Some d -> search word spaces_needed s = Some d.
Proof. intros Hd. destruct s; cbn [search]; by rewrite Hd. Qed.

(** A stretch without the first character of the word holds no match. *)
Lemma search_skip a word spaces_needed w rest :
  PyStr.all_chars (fun c => negb (Ascii.eqb a c)) w = true ->
  search (String a word) spaces_needed (w +:+ rest)
  = search (String a word) spaces_needed rest.
Proof.
  induction w as [|c w IH]; [done|]. cbn [PyStr.all_chars].
  intros [Hc Hw]%andb_prop. apply negb_true_iff in Hc.
  rewrite append_cons. cbn [search]. unfold digits_after at 1.
  cbn [PyStr.starts_with]. rewrite Hc. by apply IH.
Qed.

Lemma number_without a t :
  is_digit a = false -> is_number t = true ->
  PyStr.all_chars (fun c => negb (Ascii.eqb a c)) t = true.
Proof.
  intros Ha [_ Ht]%is_number_parts. revert Ht.
  apply all_chars_impl. intros c. by apply digit_is_not.
Qed.

(** X30: the two documented forms of the probability command reach
    [calculate_probability_after_hit] with the number written after "of" as
    the threshold, and with the player number, or "dealer", as the hand. *)
Theorem probability_command_is_dispatched (t n : string) :
  is_number t = true -> is_number n = true ->
  parse_command ("Probability of " +:+ t +:+ " after Player " +:+ n +:+ " hit")
  = CmdProbability n t /\
  parse_command ("Probability of " +:+ t +:+ " after Dealer hit")
  = CmdProbability "dealer" t.
Proof.
  intros Ht Hn. split.
  - assert (PyStr.strip ("Probability of " +:+ t +:+ " after Player " +:+ n +:+ " hit")
            = "Probability of " +:+ t +:+ " after Player " +:+ n +:+ " hit") as Hstrip.
    { apply strip_head_tail; [done|]. by do 3 apply rstrip_tail_append. }
    assert (PyStr.lower ("Probability of " +:+ t +:+ " after Player " +:+ n +:+ " hit")
            = "probability of " +:+ t +:+ " after player " +:+ n +:+ " hit") as Hlow.
    { rewrite !lower_app. by rewrite (lower_number t), (lower_number n). }
    set (ql := "probability of " +:+ t +:+ " after player " +:+ n +:+ " hit") in *.
    assert (contains "after" ql = true) as Hafter.
    { by do 2 apply contains_app_r. }
    assert (contains "hit" ql = true) as Hhit.
    { by do 4 apply contains_app_r. }
    assert (contains "dealer" ql = false) as Hdealer.
    { unfold ql.
      rewrite (contains_skip "d" "ealer" "probability of ") by reflexivity.
      rewrite (contains_skip "d" "ealer" t) by (by apply number_without).
      rewrite (contains_skip "d" "ealer" " after player ") by reflexivity.
      by rewrite (contains_skip "d" "ealer" n) by (by apply number_without). }
    assert (search "of" true ql = Some t) as Hof.
    { change (search "of" true ql)
        with (search "of" true ("of" +:+ String " "
                (t +:+ String " " ("after player " +:+ n +:+ " hit")))).
      by apply search_here, digits_after_number. }
    assert (search "player" false ql = Some n) as Hplayer.
    { change (search "player" false ql)
        with (search "player" false (t +:+ " after player " +:+ n +:+ " hit")).
      rewrite (search_skip "p" "layer" false t) by (by apply number_without).
      change (search "player" false (" after player " +:+ n +:+ " hit"))
        with (search "player" false ("player" +:+ String " " (n +:+ String " " "hit"))).
      by apply search_here, digits_after_number. }
    unfold parse_command. cbv zeta. rewrite Hstrip, Hlow.
    change (contains "probability" ql) with true.
    by rewrite Hafter, Hhit, Hdealer, Hof, Hplayer.
  - assert (PyStr.strip ("Probability of " +:+ t +:+ " after Dealer hit")
            = "Probability of " +:+ t +:+ " after Dealer hit") as Hstrip.
    { apply strip_head_tail; [done|]. by apply rstrip_tail_append. }
    assert (PyStr.lower ("Probability of " +:+ t +:+ " after Dealer hit")
            = "probability of " +:+ t +:+ " after dealer hit") as Hlow.
    { rewrite !lower_app. by rewrite (lower_number t). }
    set (ql := "probability of " +:+ t +:+ " after dealer hit") in *.
    assert (contains "after" ql = true) as Hafter.
    { by do 2 apply contains_app_r. }
    assert (contains "hit" ql = true) as Hhit.
    { by do 2 apply contains_app_r. }
    assert (contains "dealer" ql = true) as Hdealer.
    { by do 2 apply contains_app_r. }
    assert (search "of" true ql = Some t) as Hof.
    { change (search "of" true ql)
        with (search "of" true ("of" +:+ String " " (t +:+ String " " "after dealer hit"))).
      by apply search_here, digits_after_number. }
    unfold parse_command. cbv zeta. rewrite Hstrip, Hlow.
    change (contains "probability" ql) with true.
    by rewrite Hafter, Hhit, Hdealer, Hof.
Qed.

(** The example of the welcome message, "Probability of 21 after Player 1
    hit". *)
Lemma probability_command_is_dispatched_witness :
  parse_command ("Probability of " +:+ "21" +:+ " after Player " +:+ "1" +:+ " hit")
  = CmdProbability "1" "21".
Proof. apply (probability_command_is_dispatched "21" "1"); reflexivity. Defined.

(** ** Face-down cards: the two ledgers and the sum of the zones *)

(** When cards are left and the target is the dealer or a player,
    [deal_face_down] accepts the deal: it adds one FACEDOWN unit to the
    face-down zone and one to the count of the owner, and nothing else. *)
Lemma deal_face_down_accepts s to_zone :
  wf_state s ->
  total_cards (deck s) + total_cards (face_down s) <> 0 ->
  PyStr.lower to_zone = "dealer" \/ is_Some (get_player_zone s to_zone) ->
  exists owner_key,
    (PyStr.lower to_zone = "dealer" /\ owner_key = "dealer"
     \/ PyStr.lower to_zone <> "dealer" /\
        exists n zone, get_player_zone s to_zone = Some (n, zone) /\ owner_key = player_key n) /\
    deal_face_down s to_zone
    = (DealtFaceDown owner_key,
       set_face_down_owners (set_face_down s (add_card (face_down s) "FACEDOWN" 1))
                            (owner_incr owner_key (face_down_owners s))).
Proof.
  intros Hwf Hne Ht. unfold deal_face_down. apply Z.eqb_neq in Hne. rewrite Hne.
  destruct (String.eqb_spec (PyStr.lower to_zone) "dealer") as [Hd|Hd].
  - exists "dealer". split; [by left|done].
  - destruct Ht as [Ht|[[n zone] Ht]]; [done|]. rewrite Ht.
    pose proof (get_player_zone_Some _ _ _ _ Ht) as Hn.
    pose proof (wf_numbers s Hwf n ltac:(eauto)) as Hpos.
    destruct (Z.eqb_spec n 0) as [->|_]; [lia|].
    exists (player_key n). split; [right; eauto|done].
Qed.

Lemma total_in_play_face_down_dealt s owner_key :
  total_in_play
    (set_face_down_owners (set_face_down s (add_card (face_down s) "FACEDOWN" 1))
                          (owner_incr owner_key (face_down_owners s)))
  = total_in_play s + 1.
Proof. unfold total_in_play. state_fields. rewrite total_cards_add_card. lia. Qed.

(** C1 fails on the code: [deal_face_down], which its docstring describes
    as moving a card from the deck to the face-down zone, adds a unit to the
    face-down zone and takes nothing from the deck.  So on every reachable
    state, a face-down deal to the dealer or to a player, with cards left,
    is accepted, leaves the deck as it was and raises the sum deck + dealer
    hand + discard + face-down + player hands by one: the sum, which is at
    least 52 before, is more than 52 after it. *)
Theorem face_down_deal_breaks_conservation (s : GameState) (to_zone : string) :
  reachable s ->
  total_cards (deck s) + total_cards (face_down s) <> 0 ->
  PyStr.lower to_zone = "dealer" \/ is_Some (get_player_zone s to_zone) ->
  is_failure (fst (deal_face_down s to_zone)) = false /\
  deck (snd (deal_face_down s to_zone)) = deck s /\
  total_in_play (snd (deal_face_down s to_zone)) = total_in_play s + 1 /\
  52 < total_in_play (snd (deal_face_down s to_zone)).
Proof.
  intros Hr Hne Ht. pose proof (reachable_wf s Hr) as Hwf.
  destruct (deal_face_down_accepts s to_zone Hwf Hne Ht) as (owner_key & _ & ->).
  cbn [fst snd is_failure]. rewrite total_in_play_face_down_dealt.
  pose proof (wf_known s Hwf) as Hk.
  pose proof (wf_total_face_down_nonneg s Hwf) as Hfd.
  pose proof (count_of_nonneg_zone _ (discard s) "UNKNOWN" (wf_discard s Hwf)) as Hu.
  split_and!; [done|done|done|]. unfold total_in_play. lia.
Qed.

(** A fresh game: the sum is 52, and 53 after one face-down deal to the
    dealer, with the 52 cards still in the deck. *)
Lemma face_down_deal_breaks_conservation_witness :
  total_in_play new_game_state = 52 /\
  fst (deal_face_down new_game_state "dealer") = DealtFaceDown "dealer" /\
  total_cards (deck (snd (deal_face_down new_game_state "dealer"))) = 52 /\
  total_in_play (snd (deal_face_down new_game_state "dealer")) = total_in_play new_game_state + 1 /\
  52 < total_in_play (snd (deal_face_down new_game_state "dealer")).
Proof.
  assert (reachable new_game_state) as Hr by apply reachable_new.
  assert (total_cards (deck new_game_state) + total_cards (face_down new_game_state) <> 0)
    as Hne by (vm_compute; discriminate).
  assert (PyStr.lower "dealer" = "dealer"
          \/ is_Some (get_player_zone new_game_state "dealer")) as Ht by (left; reflexivity).
  destruct (face_down_deal_breaks_conservation new_game_state "dealer" Hr Hne Ht)
    as (_ & _ & Hsum & Hgt).
  split_and!; [vm_compute; reflexivity|vm_compute; reflexivity|vm_compute; reflexivity
              |exact Hsum|exact Hgt].
Defined.

(** C9: in every reachable state the counts of [face_down_owners] sum to
    [face_down.total_cards()], and every operation keeps it so.
    [deal_face_down], with cards left and the dealer or a player as the
    target, is accepted and adds one to the face-down zone and one to the
    count of the owner, the other owners staying as they were; when it is
    refused the state is unchanged.  [flip_card], for an owner with a
    face-down card and a card that the deck holds, is accepted and takes
    one from the face-down zone and one from the count of the owner, whose
    key is deleted when the count reaches 0.  Every accepted deal or flip
    changes both sums by one, no owner is ever left with the count 0, and
    [clear_hands] and [shuffle] empty both. *)
Theorem face_down_owners_match_zone (s : GameState) :
  reachable s ->
  owners_total (face_down_owners s) = total_cards (face_down s) /\
  (forall o, owners_total (face_down_owners (step s o)) = total_cards (face_down (step s o))) /\
  (forall to_zone,
     total_cards (deck s) + total_cards (face_down s) <> 0 ->
     PyStr.lower to_zone = "dealer" \/ is_Some (get_player_zone s to_zone) ->
     exists owner_key,
       (PyStr.lower to_zone = "dealer" /\ owner_key = "dealer"
        \/ PyStr.lower to_zone <> "dealer" /\
           exists n zone, get_player_zone s to_zone = Some (n, zone) /\
                          owner_key = player_key n) /\
       fst (deal_face_down s to_zone) = DealtFaceDown owner_key /\
       total_cards (face_down (snd (deal_face_down s to_zone)))
       = total_cards (face_down s) + 1 /\
       owners_total (face_down_owners (snd (deal_face_down s to_zone)))
       = owners_total (face_down_owners s) + 1 /\
       count_of (face_down_owners (snd (deal_face_down s to_zone))) owner_key
       = count_of (face_down_owners s) owner_key + 1 /\
       (forall k, k <> owner_key ->
                  face_down_owners (snd (deal_face_down s to_zone)) !! k
                  = face_down_owners s !! k)) /\
  (forall to_zone,
     is_failure (fst (deal_face_down s to_zone)) = true ->
     snd (deal_face_down s to_zone) = s) /\
  (forall who card owner_key target n,
     flip_target s who = Some (owner_key, target) ->
     face_down_owners s !! owner_key = Some n ->
     fst (remove_card (deck s) (normalize card) 1) = true ->
     fst (flip_card s who card) = Flipped owner_key (normalize card) /\
     total_cards (face_down (snd (flip_card s who card))) = total_cards (face_down s) - 1 /\
     owners_total (face_down_owners (snd (flip_card s who card)))
     = owners_total (face_down_owners s) - 1 /\
     face_down_owners (snd (flip_card s who card)) !! owner_key
     = (if n =? 1 then None else Some (n - 1)) /\
     (forall k, k <> owner_key ->
                face_down_owners (snd (flip_card s who card)) !! k
                = face_down_owners s !! k)) /\
  (forall to_zone,
     is_failure (fst (deal_face_down s to_zone)) = false ->
     total_cards (face_down (snd (deal_face_down s to_zone))) = total_cards (face_down s) + 1 /\
     owners_total (face_down_owners (snd (deal_face_down s to_zone)))
     = owners_total (face_down_owners s) + 1) /\
  (forall who card,
     is_failure (fst (flip_card s who card)) = false ->
     total_cards (face_down (snd (flip_card s who card))) = total_cards (face_down s) - 1 /\
     owners_total (face_down_owners (snd (flip_card s who card)))
     = owners_total (face_down_owners s) - 1 /\
     forall k, face_down_owners (snd (flip_card s who card)) !! k <> Some 0) /\
  (face_down_owners (snd (clear_hands s)) = ∅ /\
   total_cards (face_down (snd (clear_hands s))) = 0) /\
  (face_down_owners (snd (shuffle s)) = ∅ /\ cards (face_down (snd (shuffle s))) = ∅).
Proof.
  intros Hr. pose proof (reachable_wf s Hr) as Hwf. split_and!.
  - apply (wf_owners_total s Hwf).
  - intros o. apply wf_owners_total, wf_step, Hwf.
  - intros to_zone Hne Ht.
    destruct (deal_face_down_accepts s to_zone Hwf Hne Ht) as (owner_key & Hkey & ->).
    exists owner_key. cbn [fst snd]. state_fields. split_and!; [done|done| | | |].
    + by rewrite total_cards_add_card.
    + by rewrite owners_total_incr.
    + unfold count_of. by rewrite lookup_owner_incr.
    + intros k Hk. unfold owner_incr. by rewrite lookup_insert_ne.
  - intros to_zone. unfold deal_face_down. destruct (_ =? 0); [done|].
    destruct (String.eqb _ _); [done|].
    destruct (get_player_zone s to_zone) as [[n zone]|]; [|done].
    by destruct (n =? 0).
  - intros who card owner_key target n Ht Hn Hrm.
    destruct (remove_card (deck s) (normalize card) 1) as [ok deck1] eqn:Hrm'.
    simpl in Hrm. subst ok.
    pose proof (wf_owners s Hwf _ _ Hn) as Hpos.
    rewrite (flip_card_eq s who card owner_key target n deck1 Ht Hn ltac:(lia) Hrm').
    destruct (flip_bookkeeping _ _ _ _ _ Hwf Hn Hrm') as (_ & Htfd & _ & Hto & _).
    cbn [fst snd].
    rewrite (proj1 (face_down_add_to_target _ _ _)), (proj2 (face_down_add_to_target _ _ _)).
    state_fields. split_and!; [done|done|done| |].
    + destruct (Z.eqb_spec (n - 1) 0) as [Hz|Hz]; destruct (Z.eqb_spec n 1) as [H1|H1];
        try lia.
      * by rewrite lookup_delete_eq.
      * by rewrite lookup_insert_eq.
    + intros k Hk. destruct (n - 1 =? 0).
      * rewrite lookup_delete_ne by done. by rewrite lookup_insert_ne.
      * by rewrite lookup_insert_ne.
  - intros to_zone Hok. apply deal_face_down_success in Hok as [owner_key ->]. simpl.
    by rewrite total_cards_add_card, owners_total_incr.
  - intros who card Hok.
    split_and!;
      [| |intros k Hk; apply (wf_owners _ (wf_flip_card s who card Hwf)) in Hk; lia];
      apply flip_card_success in Hok as (owner_key & target & n & deck1 & Ht & Hn & Hrm & ->);
      destruct (flip_bookkeeping _ _ _ _ _ Hwf Hn Hrm) as (_ & Htfd & _ & Hto & _).
    + by rewrite (proj1 (face_down_add_to_target _ _ _)).
    + by rewrite (proj2 (face_down_add_to_target _ _ _)).
  - reflexivity.
  - pose proof (wf_total_face_down_nonneg s Hwf).
    unfold clear_hands. simpl. destruct (0 <? total_cards (face_down s)) eqn:Hpos; simpl.
    + apply total_cards_empty.
    + apply Z.ltb_ge in Hpos. lia.
  - reflexivity.
  - reflexivity.
Qed.

(** A face-down card lies in front of the dealer.  One more face-down deal
    to the dealer is accepted and brings the face-down zone and the count of
    the dealer to 2; the flip of a king instead is accepted and brings the
    zone to 0 and deletes the key of the dealer. *)
Lemma face_down_owners_match_zone_witness :
  reachable (step new_game_state (OpDealFaceDown "dealer")) /\
  owners_total (face_down_owners (step new_game_state (OpDealFaceDown "dealer")))
  = total_cards (face_down (step new_game_state (OpDealFaceDown "dealer"))) /\
  (exists owner_key,
     owner_key = "dealer" /\
     fst (deal_face_down (step new_game_state (OpDealFaceDown "dealer")) "dealer")
     = DealtFaceDown owner_key /\
     total_cards (face_down (snd (deal_face_down
                                    (step new_game_state (OpDealFaceDown "dealer")) "dealer")))
     = 2 /\
     count_of (face_down_owners (snd (deal_face_down
                                        (step new_game_state (OpDealFaceDown "dealer"))
                                        "dealer"))) owner_key
     = 2) /\
  fst (flip_card (step new_game_state (OpDealFaceDown "dealer")) "dealer" "K")
  = Flipped "dealer" "K" /\
  total_cards (face_down (snd (flip_card (step new_game_state (OpDealFaceDown "dealer"))
                                         "dealer" "K"))) = 0 /\
  face_down_owners (snd (flip_card (step new_game_state (OpDealFaceDown "dealer"))
                                   "dealer" "K")) !! "dealer" = None.
Proof.
  assert (reachable (step new_game_state (OpDealFaceDown "dealer"))) as Hr
    by (apply reachable_step, reachable_new).
  destruct (face_down_owners_match_zone _ Hr) as (Hsum & _ & Hdeal & _ & Hflip & _).
  split; [exact Hr|]. split; [exact Hsum|]. split.
  - destruct (Hdeal "dealer") as (owner_key & Hkey & Hreply & Hzone & _ & Hcount & _).
    + vm_compute. discriminate.
    + left. reflexivity.
    + assert (owner_key = "dealer") as Hd.
      { destruct Hkey as [[_ Hk]|[Hk _]]; [exact Hk|]. exfalso. apply Hk. reflexivity. }
      subst owner_key.
      exists "dealer". split; [reflexivity|]. split; [exact Hreply|]. split.
      * rewrite Hzone. vm_compute. reflexivity.
      * rewrite Hcount. vm_compute. reflexivity.
  - destruct (Hflip "dealer" "K" "dealer" None 1) as (Hreply & Hzone & _ & Hkey & _).
    + vm_compute. reflexivity.
    + vm_compute. reflexivity.
    + vm_compute. reflexivity.
    + split; [exact Hreply|]. split; [|exact Hkey].
      rewrite Hzone. vm_compute. reflexivity.
Defined.
